(** * Zero-touch bootstrap script: a shallow embedding of [bootstrap.py]

    The development follows the script top-down: Python strings and the
    string methods the script calls, the [urlparse] module it imports, the
    exceptions and the outside world (shell commands, HTTP, files, Sysdb),
    then [CliManager], [tryImageUpgrade], the [BootstrapManager] methods,
    the two manager subclasses, the imports and the [__main__] block.  The
    helpers that the script never reaches (the NTP and clock functions,
    [getExpiryFromToken]) are left out.  Theorems come after the
    definitions. *)

From Stdlib Require Import String Ascii ZArith List Lia Bool DecimalString.
Import ListNotations.

Open Scope string_scope.

(* ===================================================================== *)
(** ** Python strings *)
(* ===================================================================== *)

Module PyStr.

(** [c in s] for a one-character [c]. *)
Fixpoint has_char (c : ascii) (s : string) : bool :=
  match s with
  | EmptyString => false
  | String d s' => Ascii.eqb c d || has_char c s'
  end.

(** [s[:n]] and [s[n:]] for [n >= 0]. *)
Fixpoint take (n : nat) (s : string) : string :=
  match n, s with
  | S n', String c s' => String c (take n' s')
  | _, _ => EmptyString
  end.

Fixpoint drop (n : nat) (s : string) : string :=
  match n, s with
  | S n', String _ s' => drop n' s'
  | _, _ => s
  end.

(** [s.startswith(p)]. *)
Definition startswith (s p : string) : bool := String.prefix p s.

(** [s.endswith(p)]. *)
Definition endswith (s p : string) : bool :=
  (String.length p <=? String.length s)%nat
  && String.eqb (drop (String.length s - String.length p) s) p.

(** [s.find(c)] for a one-character [c]; [None] stands for [-1]. *)
Fixpoint find_char (c : ascii) (s : string) : option nat :=
  match s with
  | EmptyString => None
  | String d s' =>
      if Ascii.eqb c d then Some O else option_map S (find_char c s')
  end.

(** [s.find(sub)]; [None] stands for [-1]. *)
Fixpoint find (sub s : string) : option nat :=
  if String.prefix sub s then Some O
  else match s with
       | EmptyString => None
       | String _ s' => option_map S (find sub s')
       end.

(** [s.rfind(c)] for a one-character [c]. *)
Fixpoint rfind_char (c : ascii) (s : string) : option nat :=
  match s with
  | EmptyString => None
  | String d s' =>
      match rfind_char c s' with
      | Some i => Some (S i)
      | None => if Ascii.eqb c d then Some O else None
      end
  end.

(** [s.split(c, 1)] when [c in s]: the text before and after the first
    occurrence of [c]. *)
Fixpoint split1 (c : ascii) (s : string) : string * string :=
  match s with
  | EmptyString => (EmptyString, EmptyString)
  | String d s' =>
      if Ascii.eqb c d then (EmptyString, s')
      else let '(a, b) := split1 c s' in (String d a, b)
  end.

(** The longest prefix of [s] whose characters all satisfy [p], and the
    rest. *)
Fixpoint span (p : ascii -> bool) (s : string) : string * string :=
  match s with
  | EmptyString => (EmptyString, EmptyString)
  | String d s' =>
      if p d then let '(a, b) := span p s' in (String d a, b)
      else (EmptyString, s)
  end.

Fixpoint forallb (p : ascii -> bool) (s : string) : bool :=
  match s with
  | EmptyString => true
  | String d s' => p d && forallb p s'
  end.

(** [s.replace(old, new)] for a non-empty [old]: the occurrences of [old]
    are taken left to right and do not overlap.  The recursion is on a
    counter that starts at [len(s)], one unit per character or occurrence
    consumed. *)
Fixpoint replace_from (fuel : nat) (old new s : string) : string :=
  match fuel with
  | O => s
  | S fuel' =>
      match s with
      | EmptyString => EmptyString
      | String c s' =>
          if String.prefix old s
          then new ++ replace_from fuel' old new (drop (String.length old) s)
          else String c (replace_from fuel' old new s')
      end
  end.

Definition replace (s old new : string) : string :=
  replace_from (String.length s) old new s.

Definition is_upper (c : ascii) : bool :=
  let n := nat_of_ascii c in (65 <=? n)%nat && (n <=? 90)%nat.
Definition is_lower (c : ascii) : bool :=
  let n := nat_of_ascii c in (97 <=? n)%nat && (n <=? 122)%nat.
Definition is_digit (c : ascii) : bool :=
  let n := nat_of_ascii c in (48 <=? n)%nat && (n <=? 57)%nat.

Definition lower_char (c : ascii) : ascii :=
  if is_upper c then ascii_of_nat (nat_of_ascii c + 32) else c.

(** [s.lower()]. *)
Fixpoint lower (s : string) : string :=
  match s with
  | EmptyString => EmptyString
  | String c s' => String (lower_char c) (lower s')
  end.

(** [str(n)] and ["{}".format(n)] for an integer. *)
Definition of_Z (n : Z) : string := NilZero.string_of_int (Z.to_int n).

(** ["{x}".format(x=v)] for an attribute that may hold [None]. *)
Definition format_opt (v : option string) : string :=
  match v with
  | Some s => s
  | None => "None"
  end.

(** [s.split(c)] for a one-character separator [c]. *)
Fixpoint split_char (c : ascii) (s : string) : list string :=
  match s with
  | EmptyString => [EmptyString]
  | String d s' =>
      if Ascii.eqb c d then EmptyString :: split_char c s'
      else match split_char c s' with
           | x :: l => String d x :: l
           | [] => [String d EmptyString]
           end
  end.

(** The line feed, Python's ["\n"]. *)
Definition LF : ascii := ascii_of_nat 10.

(** [sep.join(l)]. *)
Fixpoint join (sep : string) (l : list string) : string :=
  match l with
  | [] => EmptyString
  | [x] => x
  | x :: l' => x ++ sep ++ join sep l'
  end.

End PyStr.

(* ===================================================================== *)
(** ** The [urlparse] module

    [urlsplit], [urlparse] and [geturl] as in the [urlparse] module of
    Python 2.7, which is the one the script imports ([urllib.parse] has the
    same algorithm).  The result cache is left out (it does not change
    results), and so is [_checknetloc], which only inspects network
    locations with non-ASCII characters. *)
(* ===================================================================== *)

Module UrlParse.
Import PyStr.

Record ParseResult : Type := mkParseResult {
  scheme : string;
  netloc : string;
  path : string;
  params : string;
  query : string;
  fragment : string
}.

(** The six-field named tuple's [_replace]. *)
Definition replace_scheme (u : ParseResult) (v : string) : ParseResult :=
  mkParseResult v (netloc u) (path u) (params u) (query u) (fragment u).
Definition replace_netloc (u : ParseResult) (v : string) : ParseResult :=
  mkParseResult (scheme u) v (path u) (params u) (query u) (fragment u).
Definition replace_path (u : ParseResult) (v : string) : ParseResult :=
  mkParseResult (scheme u) (netloc u) v (params u) (query u) (fragment u).

Definition uses_netloc : list string :=
  ["ftp"; "http"; "gopher"; "nntp"; "telnet"; "imap"; "wais"; "file";
   "mms"; "https"; "shttp"; "snews"; "prospero"; "rtsp"; "rtspu"; "rsync";
   ""; "svn"; "svn+ssh"; "sftp"; "nfs"; "git"; "git+ssh"].

Definition uses_params : list string :=
  ["ftp"; "hdl"; "prospero"; "http"; "imap"; "https"; "shttp"; "rtsp";
   "rtspu"; "sip"; "sips"; "mms"; ""; "sftp"; "tel"].

Definition in_list (s : string) (l : list string) : bool :=
  existsb (String.eqb s) l.

(** Letters, digits and [+-.]. *)
Definition scheme_char (c : ascii) : bool :=
  is_lower c || is_upper c || is_digit c
  || Ascii.eqb c "+" || Ascii.eqb c "-" || Ascii.eqb c ".".

Definition netloc_delim (c : ascii) : bool :=
  Ascii.eqb c "/" || Ascii.eqb c "?" || Ascii.eqb c "#".

(** [_splitnetloc(url, 2)], given [url[2:]]: the network location runs up
    to the first of [/?#]. *)
Definition splitnetloc (rest : string) : string * string :=
  span (fun c => negb (netloc_delim c)) rest.

(** The five fields of [SplitResult]; [None] is [ValueError("Invalid IPv6
    URL")]. *)
Definition split_after_scheme (scheme url : string)
  : option (string * string * string * string * string) :=
  let '(netloc, url) :=
    if startswith url "//" then splitnetloc (drop 2 url)
    else (EmptyString, url) in
  if (has_char "[" netloc && negb (has_char "]" netloc))
     || (has_char "]" netloc && negb (has_char "[" netloc))
  then None
  else
    let '(url, fragment) :=
      if has_char "#" url then split1 "#" url else (url, EmptyString) in
    let '(url, query) :=
      if has_char "?" url then split1 "?" url else (url, EmptyString) in
    Some (scheme, netloc, url, query, fragment).

Definition urlsplit (url : string)
  : option (string * string * string * string * string) :=
  match find_char ":" url with
  | Some (S i') =>
      let i := S i' in
      if String.eqb (take i url) "http"
      then split_after_scheme (lower (take i url)) (drop (S i) url)
      else if forallb scheme_char (take i url)
      then
        let rest := drop (S i) url in
        if String.eqb rest EmptyString || negb (forallb is_digit rest)
        then split_after_scheme (lower (take i url)) rest
        else split_after_scheme EmptyString url
      else split_after_scheme EmptyString url
  | _ => split_after_scheme EmptyString url
  end.

Definition splitparams (url : string) : string * string :=
  if has_char "/" url
  then
    match rfind_char "/" url with
    | Some r =>
        match find_char ";" (drop r url) with
        | Some j => (take (r + j) url, drop (S (r + j)) url)
        | None => (url, EmptyString)
        end
    | None => (url, EmptyString)
    end
  else
    match find_char ";" url with
    | Some i => (take i url, drop (S i) url)
    | None =>
        (* [find] gives [-1]: [url[:-1]] and [url[0:]] *)
        (take (String.length url - 1) url, url)
    end.

Definition urlparse (url : string) : option ParseResult :=
  match urlsplit url with
  | None => None
  | Some (scheme, netloc, url, query, fragment) =>
      let '(url, params) :=
        if in_list scheme uses_params && has_char ";" url
        then splitparams url else (url, EmptyString) in
      Some (mkParseResult scheme netloc url params query fragment)
  end.

Definition nonempty (s : string) : bool := negb (String.eqb s EmptyString).

Definition urlunsplit (scheme netloc url query fragment : string) : string :=
  let url :=
    if nonempty netloc
       || (nonempty scheme && in_list scheme uses_netloc
           && negb (String.eqb (take 2 url) "//"))
    then
      let url :=
        if nonempty url && negb (String.eqb (take 1 url) "/")
        then "/" ++ url else url in
      "//" ++ netloc ++ url
    else url in
  let url := if nonempty scheme then scheme ++ ":" ++ url else url in
  let url := if nonempty query then url ++ "?" ++ query else url in
  if nonempty fragment then url ++ "#" ++ fragment else url.

(** [ParseResult.geturl()], that is [urlunparse(self)]. *)
Definition geturl (u : ParseResult) : string :=
  let url :=
    if nonempty (params u) then path u ++ ";" ++ params u else path u in
  urlunsplit (scheme u) (netloc u) url (query u) (fragment u).

End UrlParse.

(* ===================================================================== *)
(** ** The Python runtime: exceptions, the outside world, effects *)
(* ===================================================================== *)

(** The argument of [sys.exit]. *)
Inductive exit_arg : Type :=
| ExitCode (n : Z)
| ExitMessage (msg : string).

(** The exceptions the script raises or lets through. *)
Inductive exn : Type :=
| CalledProcessError (returncode : Z) (cmd output : string)
| AssertionError (msg : string)
| Exception (msg : string)
| ValueError (msg : string)
| KeyError (key : string)
| IndexError
| TypeError
| AttributeError (name : string)
| IOError (path : string)
| HTTPError (msg : string)
| RequestException (msg : string)
| ImportError (msg : string)
| NameError (name : string)
| OSError (msg : string)
| SystemExit (code : exit_arg).

(** [str(e)], as the script formats an exception into a message. *)
Definition exn_str (e : exn) : string :=
  match e with
  | CalledProcessError rc cmd _ =>
      "Command '" ++ cmd ++ "' returned non-zero exit status "
      ++ PyStr.of_Z rc
  | AssertionError msg | Exception msg | ValueError msg | HTTPError msg
  | RequestException msg | ImportError msg | OSError msg => msg
  | NameError name => "global name '" ++ name ++ "' is not defined"
  | KeyError key => "'" ++ key ++ "'"
  | IndexError => "list index out of range"
  | TypeError => "object is not subscriptable"
  | AttributeError name => name
  | IOError path => path
  | SystemExit (ExitCode n) => PyStr.of_Z n
  | SystemExit (ExitMessage msg) => msg
  end.

Inductive result (A : Type) : Type :=
| Ok (a : A)
| Raise (e : exn).
Arguments Ok {A} a.
Arguments Raise {A} e.

(** What the script does to the outside world, in the order it does it.
    A trace lists the most recent event first. *)
Inductive event : Type :=
| EvLog (msg : string)
| EvPrint (msg : string)
| EvWriteFile (path content : string)
| EvShell (cmd : string)
| EvSetenv (name value : string)
| EvPopen (cmd : string)
| EvTerminate
| EvPost (url data : string) (headers : list (string * string))
    (proxy : string)
| EvGet (url : string) (headers : list (string * option string))
    (cert : string * string) (proxy : string)
| EvExecl (path : string) (args : list string).

Definition trace : Type := list event.

(** How [proc.communicate()] ends: the child is reaped with a return code,
    or the script receives SIGTERM while it waits. *)
Inductive child_outcome : Type :=
| ChildReturned (returncode : Z)
| Sigterm.

Record Response : Type := mkResponse {
  status_code : Z;
  reason : string;
  url : string;
  text : string
}.

(** A Sysdb entity: its attributes by dotted name. *)
Definition entity : Type := list (string * string).

(* ===================================================================== *)
(** ** The [json] module

    [json.loads] on the JSON grammar as Python's decoder reads it, the
    constants [NaN], [Infinity] and [-Infinity] included.  Text is kept as
    its UTF-8 bytes, so a [\uXXXX] escape decodes to the bytes of its code
    point.  A number with a fraction or an exponent keeps its literal. *)
(* ===================================================================== *)

Module Json.
Import PyStr.

#[local] Set Warnings "-register-all".
Inductive json : Type :=
| JNull
| JBool (b : bool)
| JInt (n : Z)
| JFloat (literal : string)
| JStr (s : string)
| JArr (items : list json)
| JObj (members : list (string * json)).

Definition DQUOTE : ascii := ascii_of_nat 34.
Definition BACKSLASH : ascii := ascii_of_nat 92.

Definition is_ws (c : ascii) : bool :=
  let n := nat_of_ascii c in
  Nat.eqb n 32 || Nat.eqb n 9 || Nat.eqb n 10 || Nat.eqb n 13.

Fixpoint skip_ws (s : string) : string :=
  match s with
  | String c r => if is_ws c then skip_ws r else s
  | EmptyString => s
  end.

Definition hex_digit (c : ascii) : option N :=
  let n := N_of_ascii c in
  if is_digit c then Some (n - 48)%N
  else if ((97 <=? n) && (n <=? 102))%N then Some (n - 87)%N
  else if ((65 <=? n) && (n <=? 70))%N then Some (n - 55)%N
  else None.

Definition hex4 (a b c d : ascii) : option N :=
  match hex_digit a, hex_digit b, hex_digit c, hex_digit d with
  | Some x, Some y, Some z, Some w =>
      Some (x * 4096 + y * 256 + z * 16 + w)%N
  | _, _, _, _ => None
  end.

Definition byte (n : N) : string := String (ascii_of_N n) EmptyString.

(** The UTF-8 bytes of a code point. *)
Definition utf8 (n : N) : string :=
  if (n <? 128)%N then byte n
  else if (n <? 2048)%N then
    byte (192 + n / 64) ++ byte (128 + n mod 64)
  else if (n <? 65536)%N then
    byte (224 + n / 4096) ++ byte (128 + (n / 64) mod 64)
    ++ byte (128 + n mod 64)
  else
    byte (240 + n / 262144) ++ byte (128 + (n / 4096) mod 64)
    ++ byte (128 + (n / 64) mod 64) ++ byte (128 + n mod 64).

Definition is_high_surrogate (n : N) : bool :=
  ((55296 <=? n) && (n <=? 56319))%N.
Definition is_low_surrogate (n : N) : bool :=
  ((56320 <=? n) && (n <=? 57343))%N.

Definition flush (pending : option N) : string :=
  match pending with
  | Some hi => utf8 hi
  | None => EmptyString
  end.

Definition unescape (c : ascii) : option ascii :=
  let n := nat_of_ascii c in
  if Nat.eqb n 34 then Some DQUOTE
  else if Nat.eqb n 92 then Some BACKSLASH
  else if Nat.eqb n 47 then Some "/"%char
  else if Nat.eqb n 98 then Some (ascii_of_nat 8)
  else if Nat.eqb n 102 then Some (ascii_of_nat 12)
  else if Nat.eqb n 110 then Some (ascii_of_nat 10)
  else if Nat.eqb n 114 then Some (ascii_of_nat 13)
  else if Nat.eqb n 116 then Some (ascii_of_nat 9)
  else None.

Definition prepend (p : string) (r : option (string * string))
  : option (string * string) :=
  match r with
  | Some (body, rest) => Some (p ++ body, rest)
  | None => None
  end.

(** [scanstring], from just after the opening quote: the decoded text and
    what follows the closing quote.  [pending] holds a high surrogate
    whose low half may come next. *)
Fixpoint scan_string (pending : option N) (s : string)
  : option (string * string) :=
  match s with
  | EmptyString => None
  | String c r =>
      if Ascii.eqb c DQUOTE then Some (flush pending, r)
      else if Ascii.eqb c BACKSLASH then
        match r with
        | String e r1 =>
            if Ascii.eqb e "u" then
              match r1 with
              | String h1 (String h2 (String h3 (String h4 r2))) =>
                  match hex4 h1 h2 h3 h4 with
                  | None => None
                  | Some n =>
                      match pending with
                      | Some hi =>
                          if is_low_surrogate n
                          then prepend
                                 (utf8 (65536 + (hi - 55296) * 1024
                                        + (n - 56320))%N)
                                 (scan_string None r2)
                          else if is_high_surrogate n
                          then prepend (utf8 hi) (scan_string (Some n) r2)
                          else prepend (utf8 hi ++ utf8 n)
                                 (scan_string None r2)
                      | None =>
                          if is_high_surrogate n
                          then scan_string (Some n) r2
                          else prepend (utf8 n) (scan_string None r2)
                      end
                  end
              | _ => None
              end
            else
              match unescape e with
              | Some ch =>
                  prepend (flush pending ++ String ch EmptyString)
                    (scan_string None r1)
              | None => None
              end
        | EmptyString => None
        end
      else if (nat_of_ascii c <? 32)%nat then None
      else prepend (flush pending ++ String c EmptyString)
             (scan_string None r)
  end.

Fixpoint digits_value (acc : Z) (s : string) : Z :=
  match s with
  | EmptyString => acc
  | String c r => digits_value (acc * 10 + Z.of_nat (nat_of_ascii c) - 48) r
  end.

(** The optional fraction (a dot and digits) and the optional exponent
    ([e] or [E], an optional sign, digits) of a number. *)
Definition scan_frac (s : string) : string * string :=
  match s with
  | String c r =>
      if Ascii.eqb c "." then
        match span is_digit r with
        | (EmptyString, _) => (EmptyString, s)
        | (ds, r') => (String c ds, r')
        end
      else (EmptyString, s)
  | EmptyString => (EmptyString, s)
  end.

Definition scan_exp (s : string) : string * string :=
  match s with
  | String c r =>
      if Ascii.eqb c "e" || Ascii.eqb c "E" then
        let '(sign, r0) :=
          match r with
          | String g r' =>
              if Ascii.eqb g "+" || Ascii.eqb g "-"
              then (String g EmptyString, r') else (EmptyString, r)
          | EmptyString => (EmptyString, r)
          end in
        match span is_digit r0 with
        | (EmptyString, _) => (EmptyString, s)
        | (ds, r') => (String c (sign ++ ds), r')
        end
      else (EmptyString, s)
  | EmptyString => (EmptyString, s)
  end.

(** [NUMBER_RE.match]: an optional minus sign, then [0] or a digit run
    that does not start with [0], then the optional fraction and
    exponent.  Without the last two the number is an [int]. *)
Definition scan_int (s : string) : option (string * string) :=
  match s with
  | String c r =>
      if Ascii.eqb c "0" then Some (String c EmptyString, r)
      else if is_digit c then Some (span is_digit s)
      else None
  | EmptyString => None
  end.

(** The number after its sign. *)
Definition scan_unsigned (sign s : string) : option (json * string) :=
  match scan_int s with
  | None => None
  | Some (ds, r) =>
      let '(frac, r1) := scan_frac r in
      let '(ex, r2) := scan_exp r1 in
      if String.eqb frac EmptyString && String.eqb ex EmptyString
      then
        let v := digits_value 0 ds in
        Some (JInt (if String.eqb sign EmptyString then v else (- v)%Z), r)
      else Some (JFloat (sign ++ ds ++ frac ++ ex), r2)
  end.

Definition scan_number (s : string) : option (json * string) :=
  match s with
  | String c r =>
      if Ascii.eqb c "-" then scan_unsigned (String c EmptyString) r
      else scan_unsigned EmptyString s
  | EmptyString => None
  end.

Definition scan_constant (s : string) : option (json * string) :=
  if startswith s "null" then Some (JNull, drop 4 s)
  else if startswith s "true" then Some (JBool true, drop 4 s)
  else if startswith s "false" then Some (JBool false, drop 5 s)
  else
    match scan_number s with
    | Some r => Some r
    | None =>
        if startswith s "NaN" then Some (JFloat "NaN", drop 3 s)
        else if startswith s "Infinity"
        then Some (JFloat "Infinity", drop 8 s)
        else if startswith s "-Infinity"
        then Some (JFloat "-Infinity", drop 9 s)
        else None
    end.

(** [scan_once] with [JSONObject] and [JSONArray].  [parse_members] starts
    just after the opening quote of a key, [parse_items] at the start of a
    value.  The counter bounds the nesting and the number of members
    read; [loads] starts it above twice the length of the input. *)
Fixpoint parse_value (fuel : nat) (s : string) : option (json * string) :=
  match fuel with
  | O => None
  | S f =>
      match s with
      | EmptyString => None
      | String c r =>
          if Ascii.eqb c DQUOTE then
            match scan_string None r with
            | Some (body, r') => Some (JStr body, r')
            | None => None
            end
          else if Ascii.eqb c "{" then
            match skip_ws r with
            | String d r1 =>
                if Ascii.eqb d "}" then Some (JObj [], r1)
                else if Ascii.eqb d DQUOTE then parse_members f [] r1
                else None
            | EmptyString => None
            end
          else if Ascii.eqb c "[" then
            match skip_ws r with
            | String d r1 =>
                if Ascii.eqb d "]" then Some (JArr [], r1)
                else parse_items f [] (String d r1)
            | EmptyString => None
            end
          else scan_constant s
      end
  end
with parse_members (fuel : nat) (acc : list (string * json)) (s : string)
  : option (json * string) :=
  match fuel with
  | O => None
  | S f =>
      match scan_string None s with
      | None => None
      | Some (key, r) =>
          match skip_ws r with
          | String c r1 =>
              if Ascii.eqb c ":" then
                match parse_value f (skip_ws r1) with
                | None => None
                | Some (v, r2) =>
                    match skip_ws r2 with
                    | String d r3 =>
                        if Ascii.eqb d "}"
                        then Some (JObj (rev ((key, v) :: acc)), r3)
                        else if Ascii.eqb d "," then
                          match skip_ws r3 with
                          | String q r4 =>
                              if Ascii.eqb q DQUOTE
                              then parse_members f ((key, v) :: acc) r4
                              else None
                          | EmptyString => None
                          end
                        else None
                    | EmptyString => None
                    end
                end
              else None
          | EmptyString => None
          end
      end
  end
with parse_items (fuel : nat) (acc : list json) (s : string)
  : option (json * string) :=
  match fuel with
  | O => None
  | S f =>
      match parse_value f s with
      | None => None
      | Some (v, r) =>
          match skip_ws r with
          | String d r1 =>
              if Ascii.eqb d "]" then Some (JArr (rev (v :: acc)), r1)
              else if Ascii.eqb d ","
              then parse_items f (v :: acc) (skip_ws r1)
              else None
          | EmptyString => None
          end
      end
  end.

(** [json.loads(s)] with a given counter; [None] is the [ValueError] of the
    decoder. *)
Definition loads_with (fuel : nat) (s : string) : option json :=
  match parse_value fuel (skip_ws s) with
  | Some (v, r) =>
      match skip_ws r with
      | EmptyString => Some v
      | _ => None
      end
  | None => None
  end.

(** [json.loads(s)].  Two units of the counter per character are enough,
    whatever the input: a larger counter gives the same result. *)
Definition loads (s : string) : option json :=
  loads_with (S (2 * String.length s)) s.

(** A [dict] built from the members in reading order: the last member
    with a given key is the one kept. *)
Fixpoint lookup (k : string) (members : list (string * json))
  : option json :=
  match members with
  | [] => None
  | (k', v) :: rest =>
      match lookup k rest with
      | Some v' => Some v'
      | None => if String.eqb k k' then Some v else None
      end
  end.

(** [j[k]] for a key [k] that is a string or [None]. *)
Definition getitem (j : json) (k : option string) : result json :=
  match j with
  | JObj members =>
      match k with
      | Some k' =>
          match lookup k' members with
          | Some v => Ok v
          | None => Raise (KeyError k')
          end
      | None => Raise (KeyError "None")
      end
  | _ => Raise TypeError
  end.

(** [j[0]]. *)
Definition getitem0 (j : json) : result json :=
  match j with
  | JArr (x :: _) => Ok x
  | JArr [] => Raise IndexError
  | JStr (String c _) => Ok (JStr (String c EmptyString))
  | JStr EmptyString => Raise IndexError
  | JObj _ => Raise (KeyError "0")
  | _ => Raise TypeError
  end.

End Json.

(** [str(x)] for a value read from JSON: a string is its own text; for
    any other value the text is up to the interpreter ([repr_text]). *)
Definition py_str (repr_text : Json.json -> string) (x : Json.json) : string :=
  match x with
  | Json.JStr s => s
  | _ => repr_text x
  end.

(** The outside world the script runs in.  A shell command and an HTTP
    request are answered according to what has happened so far (the trace
    at the time of the call) and to their arguments. *)
Record World : Type := mkWorld {
  (** [os.path.isfile(path)] *)
  isfile : string -> bool;
  (** whether [open(path, "w")] succeeds *)
  can_write : string -> bool;
  (** the content of a file that [open(path, "r")] can read *)
  file_content : string -> option string;
  (** return code and captured output of [sh -c cmd] *)
  shell_result : trace -> string -> Z * string;
  (** how [Popen([cmd], shell=True)] followed by [communicate()] ends *)
  child_result : trace -> string -> child_outcome;
  (** [requests.post(url, data=..., headers=..., proxies=...)];
      [NameError] when the name [requests] is not bound *)
  post_result :
    trace -> string -> string -> list (string * string) -> result Response;
  (** [requests.get(url, headers=..., cert=..., proxies=...)];
      [NameError] when the name [requests] is not bound *)
  get_result :
    trace -> string -> list (string * option string) -> string * string ->
    result Response;
  (** [SysdbPathHelper(sysname).getEntity(path)] *)
  getEntity_result : string -> result entity;
  (** [Cell.cellId()] *)
  cellId : Z;
  (** [str(x)] for a JSON value that is not a string *)
  repr_text : Json.json -> string;
  (** whether the interpreter is Python 2: [sys.version_info < (3,)] *)
  python2 : bool;
  (** whether [import name] fails, for a module that is not of the
      standard library *)
  missing_module : string -> bool;
  (** [os.path.exists(path)] *)
  path_exists : string -> bool;
  (** whether [os.execl(path, ...)] can start the new image *)
  can_exec : string -> bool;
  (** [os.path.abspath(__file__)] *)
  script_path : string;
  (** whether [logging.handlers.SysLogHandler(address="/dev/log")] finds
      the log socket *)
  syslog_up : bool
}.

(** The USER INPUT block of the script: the four inputs the workflow
    reads. *)
Record Config : Type := mkConfig {
  cvAddr : string;
  enrollmentToken : string;
  cvproxy : string;
  eosUrl : string
}.

(** *** Computations: a result or an exception, the object at hand and the
    trace.  The object survives an exception, as a Python object does. *)

Definition M (S A : Type) : Type := S -> trace -> result A * S * trace.

Definition ret {S A : Type} (a : A) : M S A := fun s t => (Ok a, s, t).

Definition raise {S A : Type} (e : exn) : M S A :=
  fun s t => (Raise e, s, t).

Definition bind {S A B : Type} (c : M S A) (k : A -> M S B) : M S B :=
  fun s t =>
    match c s t with
    | (Ok a, s', t') => k a s' t'
    | (Raise e, s', t') => (Raise e, s', t')
    end.

(** [try: body / except ...: handler]: the handler answers [None] for an
    exception that no [except] clause matches. *)
Definition try_except {S A : Type}
  (body : M S A) (handler : exn -> option (M S A)) : M S A :=
  fun s t =>
    match body s t with
    | (Raise e, s', t') =>
        match handler e with
        | Some h => h s' t'
        | None => (Raise e, s', t')
        end
    | r => r
    end.

Definition emit {S : Type} (e : event) : M S unit :=
  fun s t => (Ok tt, s, e :: t).

Definition history {S : Type} : M S trace := fun s t => (Ok t, s, t).

Definition self {S : Type} : M S S := fun s t => (Ok s, s, t).

Definition update {S : Type} (f : S -> S) : M S unit :=
  fun s t => (Ok tt, f s, t).

Definition lift {S A : Type} (r : result A) : M S A := fun s t => (r, s, t).

(** A method call [obj.method()] from code that has no object of its
    own. *)
Definition call {S A : Type} (obj : S) (method : M S A) : M unit A :=
  fun _ t => let '(r, _, t') := method obj t in (r, tt, t').

Declare Scope py_scope.
Delimit Scope py_scope with py.
Notation "x <- c ;; k" := (bind c (fun x => k))
  (at level 61, c at next level, right associativity) : py_scope.
Notation "c ;; k" := (bind c (fun _ => k))
  (at level 61, right associativity) : py_scope.
Open Scope py_scope.

(** The exit status of the interpreter for the way the script ends: [0]
    when it runs to its end, the low eight bits of [n] after [sys.exit(n)],
    [1] after [sys.exit(message)] and after an uncaught exception. *)
Definition exit_status {A : Type} (r : result A) : Z :=
  match r with
  | Ok _ => 0
  | Raise (SystemExit (ExitCode n)) => n mod 256
  | Raise _ => 1
  end.

(* ===================================================================== *)
(** ** The script *)
(* ===================================================================== *)

Definition SECURE_HTTPS_PORT : string := "443".
Definition SECURE_TOKEN : string := "token-secure".
Definition INGEST_TOKEN : string := "token".
Definition TOKEN_FILE_PATH : string := "/tmp/token.tok".
Definition BOOT_SCRIPT_PATH : string := "/tmp/bootstrap-script".
Definition REDIRECTOR_PATH : string :=
  "api/v3/services/arista.redirector.v1.AssignmentService/GetOne".
Definition VERSION : string := "2.0.1".
Definition FAST_CLI_BINARY : string := "/usr/bin/FastCli".
Definition SIGTERM : Z := 15.

Definition truthy (s : string) : bool := negb (String.eqb s EmptyString).

Inductive ManagerClass : Type :=
| BootstrapManager
| CloudBootstrapManager
| OnPremBootstrapManager.

(** [isinstance(self, CloudBootstrapManager)]. *)
Definition isinstance_Cloud (c : ManagerClass) : bool :=
  match c with
  | CloudBootstrapManager => true
  | _ => false
  end.

Record Manager : Type := mkManager {
  class : ManagerClass;
  bootstrapURL : option UrlParse.ParseResult;
  redirectorURL : option UrlParse.ParseResult;
  tokenType : option string;
  enrollAddr : option string;
  certificate : string;
  key : string;
  cellID : string;
  mibStatus : entity
}.

Definition set_bootstrapURL (v : option UrlParse.ParseResult) (m : Manager) :=
  mkManager (class m) v (redirectorURL m) (tokenType m) (enrollAddr m)
    (certificate m) (key m) (cellID m) (mibStatus m).
Definition set_redirectorURL (v : option UrlParse.ParseResult) (m : Manager) :=
  mkManager (class m) (bootstrapURL m) v (tokenType m) (enrollAddr m)
    (certificate m) (key m) (cellID m) (mibStatus m).
Definition set_tokenType (v : option string) (m : Manager) :=
  mkManager (class m) (bootstrapURL m) (redirectorURL m) v (enrollAddr m)
    (certificate m) (key m) (cellID m) (mibStatus m).
Definition set_enrollAddr (v : option string) (m : Manager) :=
  mkManager (class m) (bootstrapURL m) (redirectorURL m) (tokenType m) v
    (certificate m) (key m) (cellID m) (mibStatus m).
Definition set_certificate (v : string) (m : Manager) :=
  mkManager (class m) (bootstrapURL m) (redirectorURL m) (tokenType m)
    (enrollAddr m) v (key m) (cellID m) (mibStatus m).
Definition set_key (v : string) (m : Manager) :=
  mkManager (class m) (bootstrapURL m) (redirectorURL m) (tokenType m)
    (enrollAddr m) (certificate m) v (cellID m) (mibStatus m).

(** [BootstrapManager.getBootstrapURL(self, addr)]; of [self] only the
    class matters. *)
Definition getBootstrapURL (c : ManagerClass) (addr : string)
  : result UrlParse.ParseResult :=
  let addr :=
    if negb (PyStr.startswith addr "//" || PyStr.startswith addr "http://"
             || PyStr.startswith addr "https://")
    then "//" ++ addr else addr in
  let addr :=
    if isinstance_Cloud c then PyStr.replace addr "apiserver" "www"
    else addr in
  match UrlParse.urlparse addr with
  | None => Raise (ValueError "Invalid IPv6 URL")
  | Some addrURL =>
      let addrURL :=
        if String.eqb (UrlParse.netloc addrURL) EmptyString
        then UrlParse.replace_netloc
               (UrlParse.replace_path addrURL EmptyString)
               (UrlParse.path addrURL)
        else addrURL in
      let addrURL :=
        if String.eqb (UrlParse.path addrURL) EmptyString
        then UrlParse.replace_path addrURL "/ztp/bootstrap"
        else addrURL in
      let addrURL :=
        if String.eqb (UrlParse.scheme addrURL) EmptyString
        then
          if isinstance_Cloud c
          then UrlParse.replace_scheme addrURL "https"
          else UrlParse.replace_scheme addrURL "http"
        else addrURL in
      Ok addrURL
  end.

Section Script.

Variable w : World.
Variable cfg : Config.

(** [log(msg)]: the message goes to the terminal and, when the logger is
    up, to syslog. *)
Definition log {S : Type} (msg : string) : M S unit := emit (EvLog msg).

Definition print {S : Type} (msg : string) : M S unit :=
  emit (EvPrint msg).

(** [setupLogger()]: the logger is up when the handler finds the log
    socket; a [socket.error] is reported on the terminal and the script goes
    on without a logger. *)
Definition setupLogger {S : Type} : M S unit :=
  if syslog_up w then ret tt else print "Error setting up logger.".

(** [subprocess.check_output(cmd, shell=True, stderr=subprocess.STDOUT)]:
    the captured output, or [CalledProcessError] for a non-zero return
    code. *)
Definition check_output {S : Type} (cmd : string) : M S string :=
  t <- history ;;
  emit (EvShell cmd) ;;
  let '(rc, out) := shell_result w t cmd in
  if (rc =? 0)%Z then ret out else raise (CalledProcessError rc cmd out).

(** [with open(path, "w") as f: f.write(content)]. *)
Definition write_file {S : Type} (path content : string) : M S unit :=
  if can_write w path then emit (EvWriteFile path content)
  else raise (IOError path).

(** *** [CliManager] *)

Record CliManager : Type := mkCliManager { fastCliBinary : string }.

Definition confidenceCheck {S : Type} (cli : CliManager) : M S unit :=
  if isfile w (fastCliBinary cli) then ret tt
  else raise (AssertionError "FastCli Binary Not Found").

(** [CliManager()]. *)
Definition CliManager_init {S : Type} : M S CliManager :=
  let cli := mkCliManager FAST_CLI_BINARY in
  confidenceCheck cli ;;
  ret cli.

(** The command line [runCommands] hands to the shell. *)
Definition fastcli_cmd (cli : CliManager) (cmdList : list string)
  : string :=
  let cmds := PyStr.join (String PyStr.LF EmptyString) cmdList in
  "echo -e '" ++ cmds ++ "' | " ++ fastCliBinary cli.

Definition runCommands {S : Type} (cli : CliManager)
  (cmdList : list string) : M S (Z * string) :=
  let delimiter := " \n " in
  r <- try_except
         (let cmdStr := PyStr.join delimiter cmdList in
          log ("Executing the commands: [" ++ cmdStr ++ "]") ;;
          cmdOutput <- check_output (fastcli_cmd cli cmdList) ;;
          ret (inr cmdOutput))
         (fun e =>
            match e with
            | CalledProcessError rc _ err =>
                Some (log ("Error running commands: ["
                           ++ PyStr.join delimiter cmdList
                           ++ "], err: " ++ err) ;;
                      ret (inl (rc, err)))
            | _ => None
            end) ;;
  match r with
  | inl early => ret early
  | inr cmdOutput =>
      if truthy cmdOutput
         && existsb (fun line => PyStr.startswith line "%")
              (PyStr.split_char PyStr.LF cmdOutput)
      then
        log ("Error running commands: [" ++ PyStr.join delimiter cmdList
             ++ "], err: " ++ cmdOutput) ;;
        ret (1%Z, cmdOutput)
      else ret (0%Z, cmdOutput)
  end.

(** *** [tryImageUpgrade] *)

Definition install_cmds : list string :=
  ["enable";
   "install source " ++ eosUrl cfg ++ " destination flash:/EOS.swi"].

Definition reboot_cmds : list string := ["enable"; "reload all now"].

Definition tryImageUpgrade {S : Type} (e : exn) : M S unit :=
  cli <- CliManager_init ;;
  if String.eqb (eosUrl cfg) EmptyString then
    log "Specify 'eosUrl' for EOS version upgrade" ;;
    raise e
  else
    r <- runCommands cli install_cmds ;;
    let '(rc, cmdOut) := r in
    if negb (rc =? 0)%Z then
      let err := "Failed to upgrade EOS from " ++ eosUrl cfg ++ ", err: "
                 ++ cmdOut ++ ". Aborting." in
      log err ;;
      raise (Exception err)
    else
      r <- runCommands cli reboot_cmds ;;
      let '(rc, cmdOut) := r in
      if negb (rc =? 0)%Z then
        let err := "Failed to reboot for image upgrade, err: " ++ cmdOut
                   ++ ". Aborting." in
        log err ;;
        raise (Exception err)
      else ret tt.

(** *** [BootstrapManager] *)

(** An attribute of a Sysdb entity. *)
Fixpoint getattr (ent : entity) (name : string) : result string :=
  match ent with
  | [] => Raise (AttributeError name)
  | (n, v) :: rest => if String.eqb n name then Ok v else getattr rest name
  end.

(** [BootstrapManager.__init__], for an object of class [c]. *)
Definition BootstrapManager_init (c : ManagerClass) : M unit Manager :=
  mib <- lift (getEntity_result w "hardware/entmib") ;;
  ret (mkManager c None None None None EmptyString EmptyString
         (PyStr.of_Z (cellId w)) mib).

(** [response.raise_for_status()]. *)
Definition raise_for_status {S : Type} (r : Response) : M S unit :=
  if ((400 <=? status_code r) && (status_code r <? 500))%Z then
    raise (HTTPError (PyStr.of_Z (status_code r) ++ " Client Error: "
                      ++ reason r ++ " for url: " ++ url r))
  else if ((500 <=? status_code r) && (status_code r <? 600))%Z then
    raise (HTTPError (PyStr.of_Z (status_code r) ++ " Server Error: "
                      ++ reason r ++ " for url: " ++ url r))
  else ret tt.

Definition requests_post {S : Type} (target data : string)
  (headers : list (string * string)) : M S Response :=
  t <- history ;;
  match post_result w t target data headers with
  | Raise (NameError name) => raise (NameError name)
  | r => emit (EvPost target data headers (cvproxy cfg)) ;; lift r
  end.

Definition requests_get {S : Type} (target : string)
  (headers : list (string * option string)) (cert : string * string)
  : M S Response :=
  t <- history ;;
  match get_result w t target headers cert with
  | Raise (NameError name) => raise (NameError name)
  | r => emit (EvGet target headers cert (cvproxy cfg)) ;; lift r
  end.

(** [json.loads(s)] and [response.json()]. *)
Definition json_loads {S : Type} (s : string) : M S Json.json :=
  match Json.loads s with
  | Some j => ret j
  | None => raise (ValueError "No JSON object could be decoded")
  end.

(** [url.geturl()] for an attribute that may hold [None]. *)
Definition geturl_of {S : Type} (u : option UrlParse.ParseResult)
  : M S string :=
  match u with
  | Some u' => ret (UrlParse.geturl u')
  | None => raise (AttributeError "geturl")
  end.

Definition Q : string := String Json.DQUOTE EmptyString.

(** The body of the redirector request for a serial number. *)
Definition redirector_payload (serialNum : string) : string :=
  "{" ++ Q ++ "key" ++ Q ++ ": {" ++ Q ++ "system_id" ++ Q ++ ": " ++ Q
  ++ serialNum ++ Q ++ "}}".

(** [response.json()[0]["value"]["clusters"]["values"]] and then
    [clusters[0]["hosts"]["values"][0]]. *)
Definition first_host (body : Json.json) : result Json.json :=
  match Json.getitem0 body with
  | Raise e => Raise e
  | Ok first =>
  match Json.getitem first (Some "value") with
  | Raise e => Raise e
  | Ok value =>
  match Json.getitem value (Some "clusters") with
  | Raise e => Raise e
  | Ok clusters =>
  match Json.getitem clusters (Some "values") with
  | Raise e => Raise e
  | Ok clusters =>
  match Json.getitem0 clusters with
  | Raise e => Raise e
  | Ok cluster =>
  match Json.getitem cluster (Some "hosts") with
  | Raise e => Raise e
  | Ok hosts =>
  match Json.getitem hosts (Some "values") with
  | Raise e => Raise e
  | Ok hosts => Json.getitem0 hosts
  end end end end end end end.

(** Step 0: redirect to the correct cluster URL. *)
Definition checkWithRedirector : M Manager unit :=
  m <- self ;;
  match redirectorURL m with
  | None => ret tt
  | Some redirector =>
      response <-
        try_except
          (serialNum <- lift (getattr (mibStatus m) "root.serialNum") ;;
           let payload := redirector_payload serialNum in
           let headers := [("redirector_token", enrollmentToken cfg)] in
           response <- requests_post (UrlParse.geturl redirector) payload
                         headers ;;
           raise_for_status response ;;
           ret response)
          (fun e =>
             match e with
             | SystemExit _ => None
             | _ =>
                 let err := "No assignment found. Error talking to "
                            ++ "redirector: " ++ exn_str e in
                 Some (log err ;; raise (Exception err))
             end) ;;
      body <- json_loads (text response) ;;
      assignment <- lift (first_host body) ;;
      addrURL <- match assignment with
                 | Json.JStr a => lift (getBootstrapURL (class m) a)
                 | _ => raise (AttributeError "startswith")
                 end ;;
      update (set_bootstrapURL (Some addrURL)) ;;
      update (set_enrollAddr (Some (UrlParse.netloc addrURL))) ;;
      (if negb (PyStr.endswith (UrlParse.netloc addrURL) SECURE_HTTPS_PORT)
       then update (set_enrollAddr
                      (Some (UrlParse.netloc addrURL ++ ":"
                             ++ SECURE_HTTPS_PORT)))
       else ret tt) ;;
      m' <- self ;;
      update (set_enrollAddr
                (option_map (fun a => PyStr.replace a "www" "apiserver")
                   (enrollAddr m'))) ;;
      log "Step 0 done, redirected to the correct cluster URL" ;;
      m'' <- self ;;
      log ("enrollAddr - " ++ PyStr.format_opt (enrollAddr m''))
  end.

(** Step 1: get the client certificate using the enrollment token. *)

(** The enrollment command line. *)
Definition enroll_cmd (m : Manager) : string :=
  let cmd := "timeout 60s /usr/bin/TerminAttr" in
  let cmd := cmd ++ " -cvauth " ++ PyStr.format_opt (tokenType m) ++ ","
             ++ TOKEN_FILE_PATH in
  let cmd := cmd ++ " -cvaddr " ++ PyStr.format_opt (enrollAddr m) in
  let cmd := cmd ++ " -enrollonly" in
  if truthy (cvproxy cfg) then cmd ++ " -cvproxy=" ++ cvproxy cfg
  else cmd.

Definition getClientCerficates : M Manager unit :=
  write_file TOKEN_FILE_PATH (enrollmentToken cfg) ;;
  m <- self ;;
  try_except
    (check_output (enroll_cmd m) ;; ret tt)
    (fun e =>
       match e with
       | CalledProcessError returncode _ output =>
           Some
             (if (returncode =? 124)%Z then
                log ("TerminAttr enrollment timed out, err: " ++ output) ;;
                log "Attempting EOS version upgrade" ;;
                tryImageUpgrade e
              else
                log ("Failed to retrieve certs, err: " ++ output) ;;
                raise e)
       | _ => None
       end) ;;
  log "Step 1 done, exchanged enrollment token for client certificates".

Definition FALLBACK_CERTIFICATE : string :=
  "/persist/secure/ssl/terminattr/primary" ++ "/certs/client.crt".
Definition FALLBACK_KEY : string :=
  "/persist/secure/ssl/terminattr/primary" ++ "/keys/client.key".

(** Step 2: get the path of the stored client certificate. *)

(** The command line that asks the agent for the certificate paths. *)
Definition certsconfig_cmd (m : Manager) : string :=
  let cmd := "timeout 60s /usr/bin/TerminAttr" in
  let cmd := cmd ++ " -cvaddr " ++ PyStr.format_opt (enrollAddr m) in
  cmd ++ " -certsconfig".

Definition getCertificatePaths : M Manager unit :=
  m <- self ;;
  try_except
    (response <- check_output (certsconfig_cmd m) ;;
     json_response <- json_loads response ;;
     entry <- lift (Json.getitem json_response (enrollAddr m)) ;;
     certFile <- lift (Json.getitem entry (Some "certFile")) ;;
     update (set_certificate (py_str (repr_text w) certFile)) ;;
     entry <- lift (Json.getitem json_response (enrollAddr m)) ;;
     keyFile <- lift (Json.getitem entry (Some "keyFile")) ;;
     update (set_key (py_str (repr_text w) keyFile)))
    (fun e =>
       match e with
       | CalledProcessError _ _ output =>
           Some
             (log ("Failed to get the path of the stored client certs, "
                   ++ "err: " ++ output) ;;
              log "Using fallback paths for client certs" ;;
              update (set_certificate FALLBACK_CERTIFICATE) ;;
              update (set_key FALLBACK_KEY))
       | _ => None
       end) ;;
  print "step 2 done, obtained client certificates location from TA" ;;
  m' <- self ;;
  print ("ceriticate location: " ++ certificate m') ;;
  print ("key location: " ++ key m').

(** *** [getKeyValueFromFile] *)

Definition is_space (c : ascii) : bool :=
  let n := nat_of_ascii c in
  Nat.eqb n 32 || ((9 <=? n)%nat && (n <=? 13)%nat).

(** [f.readline()] on a file just opened. *)
Fixpoint readline (content : string) : string :=
  match content with
  | EmptyString => EmptyString
  | String c r =>
      if Ascii.eqb c PyStr.LF then String c EmptyString
      else String c (readline r)
  end.

(** [f.readlines()]: every line keeps its line feed. *)
Fixpoint readlines (content : string) : list string :=
  match content with
  | EmptyString => []
  | String c r =>
      if Ascii.eqb c PyStr.LF then String c EmptyString :: readlines r
      else match readlines r with
           | [] => [String c EmptyString]
           | l :: ls => String c l :: ls
           end
  end.

(** [s.split()[0]]. *)
Fixpoint first_word (s : string) : result string :=
  match s with
  | EmptyString => Raise IndexError
  | String c r =>
      if is_space c then first_word r
      else Ok (fst (PyStr.span (fun d => negb (is_space d)) s))
  end.

(** [s.rstrip(c)] for a one-character [c]. *)
Fixpoint rstrip_char (c : ascii) (s : string) : string :=
  match s with
  | EmptyString => EmptyString
  | String d r =>
      match rstrip_char c r with
      | EmptyString =>
          if Ascii.eqb c d then EmptyString else String d EmptyString
      | r' => String d r'
      end
  end.

(** The [for line in lines] loop: the value after [=] on the first line
    that contains [key], [None] when no line does. *)
Fixpoint value_of_key (key : string) (lines : list string)
  : result (option string) :=
  match lines with
  | [] => Ok None
  | line :: rest =>
      match PyStr.find key line with
      | Some _ =>
          match PyStr.split_char "=" line with
          | _ :: v :: _ => Ok (Some (rstrip_char PyStr.LF v))
          | _ => Raise IndexError
          end
      | None => value_of_key key rest
      end
  end.

Definition getKeyValueFromFile {S : Type} (filename key : string)
  : M S (option string) :=
  match file_content w filename with
  | None => raise (IOError filename)
  | Some content =>
      if negb (truthy key)
      then
        word <- lift (first_word (readline content)) ;;
        ret (Some word)
      else lift (value_of_key key (readlines content))
  end.

(** Step 3.1: get the bootstrap script using the certificates. *)

(** The [try] block that reads the TPM status: the headers it has set
    when it ends, and the exception that ended it, if any. *)
Definition tpm_headers (m : Manager)
  : list (string * option string) * option exn :=
  match getEntity_result w
          ("cell/" ++ cellID m ++ "/hardware/tpm/status") with
  | Raise e => ([], Some e)
  | Ok tpmStatus =>
      match getattr tpmStatus "tpmVersion" with
      | Raise e => ([], Some e)
      | Ok v1 =>
          let h1 := [("X-Arista-TpmApi", Some v1)] in
          match getattr tpmStatus "firmwareVersion" with
          | Raise e => (h1, Some e)
          | Ok v2 =>
              let h2 := (h1 ++ [("X-Arista-TpmFwVersion", Some v2)])%list in
              match getattr tpmStatus "boardValidated" with
              | Raise e => (h2, Some e)
              | Ok v3 =>
                  ((h2 ++ [("X-Arista-SecureZtp", Some v3)])%list, None)
              end
          end
      end
  end.

Definition getBootstrapScript : M Manager unit :=
  m <- self ;;
  let cellID' := PyStr.of_Z (cellId w) in
  _ <- lift (getEntity_result w "hardware/entmib") ;;
  _ <- lift (getEntity_result w
               ("cell/" ++ cellID' ++ "/hardware/tpm/status")) ;;
  _ <- lift (getEntity_result w
               ("cell/" ++ cellID' ++ "/hardware/tpm/config")) ;;
  mac <- lift (getattr (mibStatus m) "systemMacAddr") ;;
  modelName <- lift (getattr (mibStatus m) "root.modelName") ;;
  hardwareRev <- lift (getattr (mibStatus m) "root.hardwareRev") ;;
  serialNum <- lift (getattr (mibStatus m) "root.serialNum") ;;
  let headers :=
    [("X-Arista-SystemMAC", Some mac);
     ("X-Arista-ModelName", Some modelName);
     ("X-Arista-HardwareVersion", Some hardwareRev);
     ("X-Arista-Serial", Some serialNum)] in
  let '(tpm, failure) := tpm_headers m in
  match failure with
  | Some (SystemExit code) => raise (SystemExit code)
  | Some e =>
      log ("Exception while getting device tpmStatus: " ++ exn_str e)
  | None => ret tt
  end ;;
  swi <- getKeyValueFromFile "/etc/swi-version" "SWI_VERSION" ;;
  arch <- getKeyValueFromFile "/etc/arch" EmptyString ;;
  let headers :=
    (headers ++ tpm
     ++ [("X-Arista-SoftwareVersion", swi);
         ("X-Arista-Architecture", arch);
         ("X-Arista-CustomBootScriptVersion", Some VERSION)])%list in
  target <- geturl_of (bootstrapURL m) ;;
  response <- requests_get target headers (certificate m, key m) ;;
  raise_for_status response ;;
  write_file BOOT_SCRIPT_PATH (text response) ;;
  log ("Step 3.1 done, bootstrap script fetched and stored at "
       ++ BOOT_SCRIPT_PATH).

(** Step 3.2: execute the downloaded bootstrap script.  [handleSigterm]
    runs when SIGTERM arrives while the script waits for the child. *)
Definition handleSigterm {S A : Type} : M S A :=
  emit EvTerminate ;;
  raise (SystemExit (ExitCode (127 + SIGTERM))).

Definition chmod_cmd : string := "chmod +x " ++ BOOT_SCRIPT_PATH.

Definition executeBootstrap : M Manager unit :=
  try_except
    (check_output chmod_cmd ;; ret tt)
    (fun e =>
       match e with
       | CalledProcessError _ _ output => Some (log output ;; raise e)
       | _ => None
       end) ;;
  log "Step 3.2.1 done, execution permissions for bootstrap script setup" ;;
  let cmd := BOOT_SCRIPT_PATH in
  emit (EvSetenv "CVPROXY" (cvproxy cfg)) ;;
  try_except
    (t <- history ;;
     emit (EvPopen cmd) ;;
     match child_result w t cmd with
     | Sigterm => handleSigterm
     | ChildReturned returncode =>
         if negb (returncode =? 0)%Z then
           log ("Bootstrap script failed with return code "
                ++ PyStr.of_Z returncode) ;;
           raise (SystemExit (ExitCode returncode))
         else ret tt
     end)
    (fun e =>
       match e with
       | CalledProcessError _ _ output => Some (log output ;; raise e)
       | _ => None
       end) ;;
  log "Step 3.2.2 done, executed the fetched bootstrap script".

Definition run : M Manager unit :=
  getClientCerficates ;;
  getCertificatePaths ;;
  getBootstrapScript ;;
  executeBootstrap.

(** *** The two deployments *)

(** [CloudBootstrapManager()]. *)
Definition CloudBootstrapManager_init : M unit Manager :=
  m <- BootstrapManager_init CloudBootstrapManager ;;
  addrURL <- lift (getBootstrapURL CloudBootstrapManager (cvAddr cfg)) ;;
  let m := set_bootstrapURL (Some addrURL) m in
  let m := set_redirectorURL
             (Some (UrlParse.replace_path addrURL REDIRECTOR_PATH)) m in
  let m := set_tokenType (Some SECURE_TOKEN) m in
  let m := set_enrollAddr None m in
  ret m.

(** [OnPremBootstrapManager()]. *)
Definition OnPremBootstrapManager_init : M unit Manager :=
  m <- BootstrapManager_init OnPremBootstrapManager ;;
  addrURL <- lift (getBootstrapURL OnPremBootstrapManager (cvAddr cfg)) ;;
  let m := set_bootstrapURL (Some addrURL) m in
  let m := set_redirectorURL None m in
  let m := set_tokenType (Some INGEST_TOKEN) m in
  let m := set_enrollAddr (Some (UrlParse.netloc addrURL)) m in
  ret m.

(** *** The imports *)

(** [import name]. *)
Definition import_module {S : Type} (name : string) : M S unit :=
  if missing_module w name
  then raise (ImportError ("No module named " ++ name))
  else ret tt.

(** The imports at the head of the file.  The modules of the standard
    library are there; [urlparse] is a module of Python 2 alone. *)
Definition top_imports : M unit unit :=
  import_module "SysdbHelperUtils" ;;
  import_module "Cell" ;;
  if python2 w then import_module "urlparse"
  else raise (ImportError "No module named 'urlparse'").

(** [os.execl(path, ...)] replaces the image of the process.  The new
    image is Python 3 on this very file, and it ends at the head of the
    file, at [import urlparse]. *)
Definition execl {S A : Type} (path : string) (args : list string)
  : M S A :=
  if can_exec w path then
    emit (EvExecl path args) ;;
    raise (ImportError "No module named 'urlparse'")
  else raise (OSError path).

(** The guarded imports, in the [try] block that follows
    [tryImageUpgrade]: the script goes on with [true] when the three names
    are bound, and with [false] after an upgrade attempt that returned,
    which leaves [requests] unbound ([Cell] and [SysdbPathHelper] are bound
    since the head of the file). *)
Definition import_fallback : M unit bool :=
  try_except
    (import_module "Cell" ;;
     import_module "requests" ;;
     import_module "SysdbHelperUtils" ;;
     ret true)
    (fun e =>
       match e with
       | ImportError _ =>
           Some
             (if python2 w && path_exists w "/usr/bin/python3"
              then execl "/usr/bin/python3" ["python3"; script_path w]
              else
                log "Python3 not found. Attempting EOS version upgrade" ;;
                tryImageUpgrade e ;;
                ret false)
       | _ => None
       end).

(** What runs before the [__main__] block.  The import of the name
    [urlparse] between the two does nothing new: under Python 2
    [urllib.parse] is not there and [urlparse] is, since the head of the
    file. *)
Definition prelude : M unit bool :=
  top_imports ;;
  import_fallback.

(** *** The [__main__] block *)

(** The manager the block constructs, once both inputs are present. *)
Definition construct_manager : M unit Manager :=
  match PyStr.find "arista.io" (cvAddr cfg) with
  | Some _ => CloudBootstrapManager_init
  | None => OnPremBootstrapManager_init
  end.

Definition main : M unit unit :=
  setupLogger ;;
  log ("Current Custom Bootstrap Script Version: " ++ VERSION) ;;
  if String.eqb (cvAddr cfg) EmptyString then
    let err := "Error: address to CVP missing" in
    log err ;;
    raise (SystemExit (ExitMessage err))
  else if String.eqb (enrollmentToken cfg) EmptyString then
    raise (SystemExit (ExitMessage "error: enrollment token missing"))
  else
    bm <- construct_manager ;;
    call bm run.

End Script.

(** The world in which the name [requests] is not bound. *)
Definition without_requests (w : World) : World := {|
  isfile := isfile w;
  can_write := can_write w;
  file_content := file_content w;
  shell_result := shell_result w;
  child_result := child_result w;
  post_result := fun _ _ _ _ => Raise (NameError "requests");
  get_result := fun _ _ _ _ => Raise (NameError "requests");
  getEntity_result := getEntity_result w;
  cellId := cellId w;
  repr_text := repr_text w;
  python2 := python2 w;
  missing_module := missing_module w;
  path_exists := path_exists w;
  can_exec := can_exec w;
  script_path := script_path w;
  syslog_up := syslog_up w
|}.

(** The script from its first line: the imports, then the [__main__]
    block. *)
Definition script (w : World) (cfg : Config) : M unit unit :=
  bound <- prelude w cfg ;;
  if (bound : bool) then main w cfg else main (without_requests w) cfg.

(** The script as a process: its trace and its exit status. *)
Definition process (w : World) (cfg : Config) : Z * trace :=
  let '(r, _, t) := script w cfg tt [] in (exit_status r, t).

(* ===================================================================== *)
(** ** Vocabulary of the statements *)
(* ===================================================================== *)

(** *** Traces *)


(** The shell command lines of a trace, oldest first. *)
Definition shell_cmds (t : trace) : list string :=
  rev (flat_map (fun e => match e with
                          | EvShell c => [c]
                          | _ => []
                          end) t).


Definition STEP1_DONE : string :=
  "Step 1 done, exchanged enrollment token for client certificates".

Definition STEP321_DONE : string :=
  "Step 3.2.1 done, execution permissions for bootstrap script setup".

Definition UPGRADE_FAILED (cfg : Config) (cmdOut : string) : string :=
  "Failed to upgrade EOS from " ++ eosUrl cfg ++ ", err: " ++ cmdOut
  ++ ". Aborting.".

Definition REBOOT_FAILED (cmdOut : string) : string :=
  "Failed to reboot for image upgrade, err: " ++ cmdOut ++ ". Aborting.".

(** *** Addresses *)

(** [s] contains [sub]. *)
Definition contains (s sub : string) : Prop :=
  exists p q : string, s = p ++ sub ++ q.

(** A string without the characters that end a network location. *)
Definition no_delims (s : string) : bool :=
  negb (PyStr.has_char "/" s) && negb (PyStr.has_char "?" s)
  && negb (PyStr.has_char "#" s).

(** Square brackets come together or not at all. *)
Definition brackets_paired (s : string) : bool :=
  Bool.eqb (PyStr.has_char "[" s) (PyStr.has_char "]" s).

(** A bare host: no scheme separator, path, query or fragment can start in
    it, and its brackets are paired. *)
Definition bare_host (a : string) : bool :=
  no_delims a && brackets_paired a.

(** A path: it starts with a slash and holds no parameter, query or
    fragment separator. *)
Definition plain_path (p : string) : bool :=
  PyStr.startswith p "/" && negb (PyStr.has_char ";" p)
  && negb (PyStr.has_char "?" p) && negb (PyStr.has_char "#" p).

(** What may follow the path: nothing, a query or a fragment. *)
Definition url_tail (t : string) : bool :=
  match t with
  | EmptyString => true
  | String c _ => Ascii.eqb c "?" || Ascii.eqb c "#"
  end.

(** A scheme name: a letter, then letters, digits and [+-.]. *)
Definition scheme_name (s : string) : bool :=
  match s with
  | EmptyString => false
  | String c _ =>
      (PyStr.is_lower c || PyStr.is_upper c)
      && PyStr.forallb UrlParse.scheme_char s
  end.

(** The rewriting of the cloud variant. *)
Definition cloud_rewrite (c : ManagerClass) (s : string) : string :=
  if isinstance_Cloud c then PyStr.replace s "apiserver" "www" else s.

(** *** The certificate paths *)

(** The ways the lookup of the certificate paths can fail: the command
    exits non-zero, its output is not JSON, or the JSON object has no entry
    for the enrollment host. *)
Inductive lookup_fails (w : World) (m : Manager) (t : trace) : Prop :=
| command_fails (rc : Z) (out : string) :
    shell_result w t (certsconfig_cmd m) = (rc, out) ->
    rc <> 0%Z ->
    lookup_fails w m t
| output_malformed (out : string) :
    shell_result w t (certsconfig_cmd m) = (0%Z, out) ->
    Json.loads out = None ->
    lookup_fails w m t
| host_missing (out : string) (members : list (string * Json.json))
    (host : string) :
    shell_result w t (certsconfig_cmd m) = (0%Z, out) ->
    Json.loads out = Some (Json.JObj members) ->
    enrollAddr m = Some host ->
    Json.lookup host members = None ->
    lookup_fails w m t.

(** The manager with the fallback pair as its credential. *)
Definition with_fallback (m : Manager) : Manager :=
  set_key FALLBACK_KEY (set_certificate FALLBACK_CERTIFICATE m).

(* ===================================================================== *)
(** ** Sample devices *)
(* ===================================================================== *)

Module Sample.

Definition nl : string := String PyStr.LF EmptyString.

(** What the agent prints for [-certsconfig]. *)
Definition certs_json (host : string) : string :=
  "{" ++ Q ++ host ++ Q ++ ": {" ++ Q ++ "certFile" ++ Q ++ ": " ++ Q
  ++ "/persist/secure/c.crt" ++ Q ++ ", " ++ Q ++ "keyFile" ++ Q ++ ": "
  ++ Q ++ "/persist/secure/c.key" ++ Q ++ "}}".

Definition entmib : entity :=
  [("systemMacAddr", "00:1c:73:00:00:01"); ("root.modelName", "DCS-7050");
   ("root.hardwareRev", "01.00"); ("root.serialNum", "JPE12345678");
   ("tpmVersion", "2.0"); ("firmwareVersion", "7.62");
   ("boardValidated", "True")].

(** A device on which every step succeeds: the agent enrolls, reports its
    certificate paths for [10.0.0.5], the server answers 200 and the
    fetched script exits with [child]. *)
Definition device (child : Z) : World := {|
  isfile := fun p => String.eqb p FAST_CLI_BINARY;
  can_write := fun _ => true;
  file_content := fun p =>
    if String.eqb p "/etc/arch" then Some ("i386" ++ nl)
    else Some ("SWI_VERSION=4.27.0F" ++ nl ++ "SWI_ARCH=i386" ++ nl);
  shell_result := fun _ cmd =>
    match PyStr.find "-certsconfig" cmd with
    | Some _ => (0%Z, certs_json "10.0.0.5")
    | None => (0%Z, EmptyString)
    end;
  child_result := fun _ _ => ChildReturned child;
  post_result := fun _ u _ _ => Ok (mkResponse 200 "OK" u "[]");
  get_result := fun _ u _ _ => Ok (mkResponse 200 "OK" u "#!/bin/sh");
  getEntity_result := fun _ => Ok entmib;
  cellId := 1;
  repr_text := fun _ => EmptyString;
  python2 := true;
  missing_module := fun _ => false;
  path_exists := fun _ => false;
  can_exec := fun _ => false;
  script_path := "/mnt/flash/bootstrap.py";
  syslog_up := true
|}.

(** The same device with another answer to every shell command. *)
Definition device_shell (rc : Z) (out : string) : World := {|
  isfile := isfile (device 0);
  can_write := can_write (device 0);
  file_content := file_content (device 0);
  shell_result := fun _ _ => (rc, out);
  child_result := child_result (device 0);
  post_result := post_result (device 0);
  get_result := get_result (device 0);
  getEntity_result := getEntity_result (device 0);
  cellId := cellId (device 0);
  repr_text := repr_text (device 0);
  python2 := python2 (device 0);
  missing_module := missing_module (device 0);
  path_exists := path_exists (device 0);
  can_exec := can_exec (device 0);
  script_path := script_path (device 0);
  syslog_up := syslog_up (device 0)
|}.

(** A device without the FastCli binary. *)
Definition device_no_fastcli : World := {|
  isfile := fun _ => false;
  can_write := can_write (device 0);
  file_content := file_content (device 0);
  shell_result := shell_result (device 0);
  child_result := child_result (device 0);
  post_result := post_result (device 0);
  get_result := get_result (device 0);
  getEntity_result := getEntity_result (device 0);
  cellId := cellId (device 0);
  repr_text := repr_text (device 0);
  python2 := python2 (device 0);
  missing_module := missing_module (device 0);
  path_exists := path_exists (device 0);
  can_exec := can_exec (device 0);
  script_path := script_path (device 0);
  syslog_up := syslog_up (device 0)
|}.

(** A device that receives SIGTERM while the fetched script runs. *)
Definition device_sigterm : World := {|
  isfile := isfile (device 0);
  can_write := can_write (device 0);
  file_content := file_content (device 0);
  shell_result := shell_result (device 0);
  child_result := fun _ _ => Sigterm;
  post_result := post_result (device 0);
  get_result := get_result (device 0);
  getEntity_result := getEntity_result (device 0);
  cellId := cellId (device 0);
  repr_text := repr_text (device 0);
  python2 := python2 (device 0);
  missing_module := missing_module (device 0);
  path_exists := path_exists (device 0);
  can_exec := can_exec (device 0);
  script_path := script_path (device 0);
  syslog_up := syslog_up (device 0)
|}.

(** A cloud device whose redirector answers with one host. *)
Definition redirector_json (host : string) : string :=
  "[{" ++ Q ++ "value" ++ Q ++ ": {" ++ Q ++ "clusters" ++ Q ++ ": {" ++ Q
  ++ "values" ++ Q ++ ": [{" ++ Q ++ "hosts" ++ Q ++ ": {" ++ Q ++ "values"
  ++ Q ++ ": [" ++ Q ++ host ++ Q ++ "]}}]}}}]".

Definition device_redirected (host : string) : World := {|
  isfile := isfile (device 0);
  can_write := can_write (device 0);
  file_content := file_content (device 0);
  shell_result := shell_result (device 0);
  child_result := child_result (device 0);
  post_result := fun _ u _ _ =>
    Ok (mkResponse 200 "OK" u (redirector_json host));
  get_result := get_result (device 0);
  getEntity_result := getEntity_result (device 0);
  cellId := cellId (device 0);
  repr_text := repr_text (device 0);
  python2 := python2 (device 0);
  missing_module := missing_module (device 0);
  path_exists := path_exists (device 0);
  can_exec := can_exec (device 0);
  script_path := script_path (device 0);
  syslog_up := syslog_up (device 0)
|}.

Definition onprem_config : Config :=
  mkConfig "10.0.0.5" "abc.def.ghi" EmptyString EmptyString.

Definition cloud_config : Config :=
  mkConfig "apiserver.arista.io" "abc.def.ghi" EmptyString EmptyString.

Definition upgrade_config : Config :=
  mkConfig "10.0.0.5" "abc.def.ghi" EmptyString "http://10.0.0.9/EOS.swi".

(** The on-prem manager for [10.0.0.5]. *)
Definition onprem_manager : Manager :=
  mkManager OnPremBootstrapManager
    (Some (UrlParse.mkParseResult "http" "10.0.0.5" "/ztp/bootstrap"
             EmptyString EmptyString EmptyString))
    None (Some INGEST_TOKEN) (Some "10.0.0.5") EmptyString EmptyString
    "1" entmib.

(** The cloud manager for [apiserver.arista.io]. *)
Definition cloud_manager : Manager :=
  mkManager CloudBootstrapManager
    (Some (UrlParse.mkParseResult "https" "www.arista.io" "/ztp/bootstrap"
             EmptyString EmptyString EmptyString))
    (Some (UrlParse.mkParseResult "https" "www.arista.io" REDIRECTOR_PATH
             EmptyString EmptyString EmptyString))
    (Some SECURE_TOKEN) None EmptyString EmptyString "1" entmib.

End Sample.

(* ===================================================================== *)
(** ** Vocabulary of the further properties *)
(* ===================================================================== *)

(** *** What a computation does to the trace and to the object *)

(** The computation only adds events to the trace, and every event it adds
    satisfies [P]. *)
Definition emits {S A : Type} (P : event -> bool) (c : M S A) : Prop :=
  forall (s : S) (t : trace),
  exists new : trace,
    snd (c s t) = (new ++ t)%list /\ forallb P new = true.

(** The object after the computation is related by [R] to the object
    before it. *)
Definition relates {S A : Type} (R : S -> S -> Prop) (c : M S A) : Prop :=
  forall (s : S) (t : trace), R s (snd (fst (c s t))).

(** The events of steps 1, 2 and 3.1: messages, shell commands, files
    written and GET requests. *)
Definition step_event (e : event) : bool :=
  match e with
  | EvLog _ | EvPrint _ | EvShell _ | EvWriteFile _ _ | EvGet _ _ _ _ =>
      true
  | _ => false
  end.

(** The events of the workflow: all but a POST request. *)
Definition run_event (e : event) : bool :=
  match e with
  | EvPost _ _ _ _ => false
  | _ => true
  end.

(** The events of a CLI session: messages and shell commands. *)
Definition cli_event (e : event) : bool :=
  match e with
  | EvLog _ | EvShell _ => true
  | _ => false
  end.

(** The events of step 0: messages and POST requests. *)
Definition redirector_event (e : event) : bool :=
  match e with
  | EvLog _ | EvPost _ _ _ _ => true
  | _ => false
  end.

(** The events of step 3.2: messages, the [chmod] command, the
    environment, the start of the script and its termination. *)
Definition exec_event (e : event) : bool :=
  match e with
  | EvLog _ | EvShell _ | EvSetenv _ _ | EvPopen _ | EvTerminate => true
  | _ => false
  end.

(** The events of steps 1 and 2: messages, shell commands and files
    written, no request. *)
Definition local_event (e : event) : bool :=
  match e with
  | EvLog _ | EvPrint _ | EvShell _ | EvWriteFile _ _ => true
  | _ => false
  end.

(** A GET request presents the client credential [cert]. *)
Definition get_cert_is (cert : string * string) (e : event) : Prop :=
  match e with
  | EvGet _ _ c _ => c = cert
  | _ => True
  end.

Definition is_popen (e : event) : bool :=
  match e with
  | EvPopen _ => true
  | _ => false
  end.


Definition is_get (e : event) : bool :=
  match e with
  | EvGet _ _ _ _ => true
  | _ => false
  end.

(** Two managers that differ at most in the credential. *)
Definition same_but_credential (m m' : Manager) : Prop :=
  class m' = class m
  /\ bootstrapURL m' = bootstrapURL m
  /\ redirectorURL m' = redirectorURL m
  /\ tokenType m' = tokenType m
  /\ enrollAddr m' = enrollAddr m
  /\ cellID m' = cellID m
  /\ mibStatus m' = mibStatus m.

(** *** The start of the script *)




(** The device [w] without some modules. *)
Definition without_modules (w : World) (missing : string -> bool)
  : World := {|
  isfile := isfile w;
  can_write := can_write w;
  file_content := file_content w;
  shell_result := shell_result w;
  child_result := child_result w;
  post_result := post_result w;
  get_result := get_result w;
  getEntity_result := getEntity_result w;
  cellId := cellId w;
  repr_text := repr_text w;
  python2 := python2 w;
  missing_module := missing;
  path_exists := path_exists w;
  can_exec := can_exec w;
  script_path := script_path w;
  syslog_up := syslog_up w
|}.

(** *** The CLI session *)

(** A line of output that reports an error. *)
Definition percent_line (line : string) : bool := PyStr.startswith line "%".

(** *** Devices for the examples *)

(** The device [w] with other files. *)
Definition with_files (w : World) (f : string -> option string) : World := {|
  isfile := isfile w;
  can_write := can_write w;
  file_content := f;
  shell_result := shell_result w;
  child_result := child_result w;
  post_result := post_result w;
  get_result := get_result w;
  getEntity_result := getEntity_result w;
  cellId := cellId w;
  repr_text := repr_text w;
  python2 := python2 w;
  missing_module := missing_module w;
  path_exists := path_exists w;
  can_exec := can_exec w;
  script_path := script_path w;
  syslog_up := syslog_up w
|}.


(** The device [w] with another answer to every POST request. *)
Definition with_post (w : World) (r : result Response) : World := {|
  isfile := isfile w;
  can_write := can_write w;
  file_content := file_content w;
  shell_result := shell_result w;
  child_result := child_result w;
  post_result := fun _ _ _ _ => r;
  get_result := get_result w;
  getEntity_result := getEntity_result w;
  cellId := cellId w;
  repr_text := repr_text w;
  python2 := python2 w;
  missing_module := missing_module w;
  path_exists := path_exists w;
  can_exec := can_exec w;
  script_path := script_path w;
  syslog_up := syslog_up w
|}.

(** The device [w] with another Sysdb. *)
Definition with_sysdb (w : World) (f : string -> result entity) : World := {|
  isfile := isfile w;
  can_write := can_write w;
  file_content := file_content w;
  shell_result := shell_result w;
  child_result := child_result w;
  post_result := post_result w;
  get_result := get_result w;
  getEntity_result := f;
  cellId := cellId w;
  repr_text := repr_text w;
  python2 := python2 w;
  missing_module := missing_module w;
  path_exists := path_exists w;
  can_exec := can_exec w;
  script_path := script_path w;
  syslog_up := syslog_up w
|}.

(** The device [w] on which no file can be written. *)
Definition read_only (w : World) : World := {|
  isfile := isfile w;
  can_write := fun _ => false;
  file_content := file_content w;
  shell_result := shell_result w;
  child_result := child_result w;
  post_result := post_result w;
  get_result := get_result w;
  getEntity_result := getEntity_result w;
  cellId := cellId w;
  repr_text := repr_text w;
  python2 := python2 w;
  missing_module := missing_module w;
  path_exists := path_exists w;
  can_exec := can_exec w;
  script_path := script_path w;
  syslog_up := syslog_up w
|}.

(** The end-to-end scenario of the spec, on-prem: address [10.0.0.5], every
    step succeeds and the script exits with 0. *)
Example onprem_scenario :
  fst (process (Sample.device 0) Sample.onprem_config) = 0%Z
  /\ shell_cmds (snd (process (Sample.device 0) Sample.onprem_config))
     = ["timeout 60s /usr/bin/TerminAttr -cvauth token,/tmp/token.tok"
        ++ " -cvaddr 10.0.0.5 -enrollonly";
        "timeout 60s /usr/bin/TerminAttr -cvaddr 10.0.0.5 -certsconfig";
        "chmod +x /tmp/bootstrap-script"]
  /\ OnPremBootstrapManager_init (Sample.device 0) Sample.onprem_config tt []
     = (Ok Sample.onprem_manager, tt, []).
Proof. vm_compute. repeat split. Qed.

(* ===================================================================== *)
(** ** Startup checks and the choice of the deployment *)
(* ===================================================================== *)

Lemma eqb_empty (s : string) :
  s = EmptyString -> String.eqb s EmptyString = true.
Proof. intros ->. reflexivity. Qed.

Lemma eqb_nonempty (s : string) :
  s <> EmptyString -> String.eqb s EmptyString = false.
Proof. intros H. apply String.eqb_neq. exact H. Qed.

(** *** Step 0 on an on-prem manager *)

Lemma BootstrapManager_init_fields :
  forall (w : World) (c : ManagerClass) (m : Manager) (t t' : trace),
    BootstrapManager_init w c tt t = (Ok m, tt, t') ->
    t' = t
    /\ m = mkManager c None None None None EmptyString EmptyString
             (PyStr.of_Z (cellId w)) (mibStatus m).
Proof.
  intros w c m t t'. unfold BootstrapManager_init, bind, lift, ret.
  destruct (getEntity_result w "hardware/entmib"); intros H; inversion H.
  subst. split; reflexivity.
Qed.

Lemma OnPremBootstrapManager_init_fields :
  forall (w : World) (cfg : Config) (m : Manager) (t t' : trace),
    OnPremBootstrapManager_init w cfg tt t = (Ok m, tt, t') ->
    exists addrURL : UrlParse.ParseResult,
      getBootstrapURL OnPremBootstrapManager (cvAddr cfg) = Ok addrURL
      /\ class m = OnPremBootstrapManager
      /\ bootstrapURL m = Some addrURL
      /\ redirectorURL m = None
      /\ tokenType m = Some INGEST_TOKEN
      /\ enrollAddr m = Some (UrlParse.netloc addrURL).
Proof.
  intros w cfg m t t'. unfold OnPremBootstrapManager_init, bind.
  destruct (BootstrapManager_init w OnPremBootstrapManager tt t)
    as [[[m0 | e] []] t0] eqn:Hinit; [| discriminate].
  unfold lift, ret.
  destruct (getBootstrapURL OnPremBootstrapManager (cvAddr cfg))
    as [addrURL | e] eqn:Hurl; [| discriminate].
  intros H. inversion H. subst. exists addrURL.
  destruct (BootstrapManager_init_fields _ _ _ _ _ Hinit) as [_ Hm0].
  rewrite Hm0. repeat split; auto.
Qed.

Lemma CloudBootstrapManager_init_fields :
  forall (w : World) (cfg : Config) (m : Manager) (t t' : trace),
    CloudBootstrapManager_init w cfg tt t = (Ok m, tt, t') ->
    exists addrURL : UrlParse.ParseResult,
      getBootstrapURL CloudBootstrapManager (cvAddr cfg) = Ok addrURL
      /\ class m = CloudBootstrapManager
      /\ bootstrapURL m = Some addrURL
      /\ redirectorURL m
         = Some (UrlParse.replace_path addrURL REDIRECTOR_PATH)
      /\ tokenType m = Some SECURE_TOKEN
      /\ enrollAddr m = None.
Proof.
  intros w cfg m t t'. unfold CloudBootstrapManager_init, bind.
  destruct (BootstrapManager_init w CloudBootstrapManager tt t)
    as [[[m0 | e] []] t0] eqn:Hinit; [| discriminate].
  unfold lift, ret.
  destruct (getBootstrapURL CloudBootstrapManager (cvAddr cfg))
    as [addrURL | e] eqn:Hurl; [| discriminate].
  intros H. inversion H. subst. exists addrURL.
  destruct (BootstrapManager_init_fields _ _ _ _ _ Hinit) as [_ Hm0].
  rewrite Hm0. repeat split; auto.
Qed.

(** C7: on a manager without a redirector URL [checkWithRedirector]
    returns at once, with the manager and the trace as they were (so no
    request is sent and no attribute changes); the on-prem constructor
    builds such a manager, whose [bootstrapURL] and [enrollAddr] are the
    ones derived from the configured address. *)
Theorem checkWithRedirector_onprem_is_noop :
  forall (w : World) (cfg : Config) (m : Manager),
    (redirectorURL m = None ->
     forall t : trace, checkWithRedirector w cfg m t = (Ok tt, m, t))
    /\ (forall t0 t1 : trace,
          OnPremBootstrapManager_init w cfg tt t0 = (Ok m, tt, t1) ->
          redirectorURL m = None
          /\ exists addrURL : UrlParse.ParseResult,
               getBootstrapURL OnPremBootstrapManager (cvAddr cfg)
               = Ok addrURL
               /\ bootstrapURL m = Some addrURL
               /\ enrollAddr m = Some (UrlParse.netloc addrURL)).
Proof.
  intros w cfg m. split.
  - intros Hr t. unfold checkWithRedirector, bind, self. rewrite Hr.
    reflexivity.
  - intros t0 t1 Hinit.
    destruct (OnPremBootstrapManager_init_fields _ _ _ _ _ Hinit)
      as (addrURL & Hurl & _ & Hb & Hr & _ & He).
    split; [exact Hr |]. exists addrURL. auto.
Qed.

Lemma checkWithRedirector_onprem_witness :
  checkWithRedirector (Sample.device 0) Sample.onprem_config
    Sample.onprem_manager []
  = (Ok tt, Sample.onprem_manager, []).
Proof.
  apply (proj1 (checkWithRedirector_onprem_is_noop (Sample.device 0)
                  Sample.onprem_config Sample.onprem_manager)).
  apply (proj2 (checkWithRedirector_onprem_is_noop (Sample.device 0)
                  Sample.onprem_config Sample.onprem_manager) [] []).
  reflexivity.
Defined.

(* ===================================================================== *)
(** ** Step 1: enrollment and the upgrade fallback *)
(* ===================================================================== *)

(** C2: the three outcomes of the enrollment command.  With return code 0
    the step ends normally; with 124 control goes to [tryImageUpgrade],
    called with the command's own error; with any other code that error is
    raised again and nothing else happens, so the upgrade fallback is not
    invoked. *)
Theorem getClientCerficates_exit_codes :
  forall (w : World) (cfg : Config) (m : Manager) (t : trace)
         (rc : Z) (out : string),
    can_write w TOKEN_FILE_PATH = true ->
    shell_result w (EvWriteFile TOKEN_FILE_PATH (enrollmentToken cfg) :: t)
      (enroll_cmd cfg m) = (rc, out) ->
    let t1 := EvShell (enroll_cmd cfg m)
              :: EvWriteFile TOKEN_FILE_PATH (enrollmentToken cfg) :: t in
    let e := CalledProcessError rc (enroll_cmd cfg m) out in
    (rc = 0%Z ->
     getClientCerficates w cfg m t = (Ok tt, m, EvLog STEP1_DONE :: t1))
    /\ (rc = 124%Z ->
        getClientCerficates w cfg m t
        = (tryImageUpgrade w cfg e ;; log STEP1_DONE) m
            (EvLog "Attempting EOS version upgrade"
             :: EvLog ("TerminAttr enrollment timed out, err: " ++ out)
             :: t1))
    /\ (rc <> 0%Z -> rc <> 124%Z ->
        getClientCerficates w cfg m t
        = (Raise e, m,
           EvLog ("Failed to retrieve certs, err: " ++ out) :: t1)).
Proof.
  intros w cfg m t rc out Hw Hsh t1 e.
  unfold getClientCerficates, write_file, check_output, try_except, bind,
    history, self, emit, ret, raise.
  rewrite Hw, Hsh.
  repeat split.
  - intros ->. reflexivity.
  - intros ->. reflexivity.
  - intros H0 H124.
    apply Z.eqb_neq in H0. apply Z.eqb_neq in H124.
    rewrite H0, H124. reflexivity.
Qed.

Lemma getClientCerficates_exit_codes_witness :
  getClientCerficates (Sample.device_shell 2 "flag provided but not defined")
    Sample.onprem_config Sample.onprem_manager []
  = (Raise (CalledProcessError 2
              (enroll_cmd Sample.onprem_config Sample.onprem_manager)
              "flag provided but not defined"),
     Sample.onprem_manager,
     [EvLog "Failed to retrieve certs, err: flag provided but not defined";
      EvShell (enroll_cmd Sample.onprem_config Sample.onprem_manager);
      EvWriteFile TOKEN_FILE_PATH "abc.def.ghi"]).
Proof.
  apply (getClientCerficates_exit_codes
           (Sample.device_shell 2 "flag provided but not defined")
           Sample.onprem_config Sample.onprem_manager [] 2
           "flag provided but not defined" eq_refl eq_refl);
    discriminate.
Defined.

(** The capability gap without an upgrade image: the enrollment command
    times out, [eosUrl] is empty, and the script ends with the command's
    own error, exit status 1. *)
Example enrollment_timeout_scenario :
  let w := Sample.device_shell 124 EmptyString in
  fst (fst (getClientCerficates w Sample.onprem_config
              Sample.onprem_manager []))
  = Raise (CalledProcessError 124
             (enroll_cmd Sample.onprem_config Sample.onprem_manager)
             EmptyString)
  /\ fst (process w Sample.onprem_config) = 1%Z.
Proof. vm_compute. split; reflexivity. Qed.

(** What [runCommands] does: it never raises, it hands one command line to
    the shell, and it reports the shell's return code, or 1 for an output
    with a line that starts with a percent sign. *)
Lemma runCommands_run :
  forall (S : Type) (w : World) (cli : CliManager) (cmdList : list string)
         (s : S) (t : trace),
  exists (rc : Z) (out : string) (t' : trace),
    runCommands w cli cmdList s t = (Ok (rc, out), s, t')
    /\ shell_cmds t' = (shell_cmds t ++ [fastcli_cmd cli cmdList])%list
    /\ (fst (shell_result w
               (EvLog ("Executing the commands: ["
                       ++ PyStr.join " \n " cmdList ++ "]") :: t)
               (fastcli_cmd cli cmdList)) <> 0%Z -> rc <> 0%Z).
Proof.
  intros S w cli cmdList s t.
  unfold runCommands, try_except, bind, log, check_output, bind, history,
    emit, ret, raise.
  destruct (shell_result w _ (fastcli_cmd cli cmdList)) as [rc out] eqn:Hsh.
  cbn [fst].
  destruct (rc =? 0)%Z eqn:Hrc.
  - destruct (truthy out
              && existsb (fun line => PyStr.startswith line "%")
                   (PyStr.split_char PyStr.LF out)).
    + exists 1%Z, out. eexists. split; [reflexivity |]. split.
      * unfold shell_cmds. cbn. reflexivity.
      * intros _. discriminate.
    + exists 0%Z, out. eexists. split; [reflexivity |]. split.
      * unfold shell_cmds. cbn. reflexivity.
      * apply Z.eqb_eq in Hrc. intros H. contradiction.
  - exists rc, out. eexists. split; [reflexivity |]. split.
    + unfold shell_cmds. cbn. reflexivity.
    + intros H. exact H.
Qed.

(* ===================================================================== *)
(** ** The upgrade fallback *)
(* ===================================================================== *)

Lemma tryImageUpgrade_masks_fastcli :
  forall (S : Type) (w : World) (cfg : Config) (e : exn) (s : S)
         (t : trace),
    isfile w FAST_CLI_BINARY = false ->
    tryImageUpgrade w cfg e s t
    = (Raise (AssertionError "FastCli Binary Not Found"), s, t).
Proof.
  intros S w cfg e s t Hfile.
  unfold tryImageUpgrade, CliManager_init, confidenceCheck, bind, raise.
  cbn [fastCliBinary]. rewrite Hfile. reflexivity.
Qed.

(** C3: [tryImageUpgrade] constructs a [CliManager] before it looks at
    [eosUrl], and the constructor asserts that the FastCli binary is
    there.  On a device without the binary the exception received is
    therefore not raised back, whether [eosUrl] is empty or not: the call
    ends with the assertion error, no message and no command.  This is
    against the function's own documentation, "Raises the received
    exception back if eosUrl is not specified". *)
Theorem tryImageUpgrade_masks_received_exception :
  forall (S : Type) (w : World) (cfg : Config) (e : exn) (s : S)
         (t : trace),
    isfile w FAST_CLI_BINARY = false ->
    tryImageUpgrade w cfg e s t
    = (Raise (AssertionError "FastCli Binary Not Found"), s, t).
Proof.
  intros S w cfg e s t Hfile.
  exact (tryImageUpgrade_masks_fastcli S w cfg e s t Hfile).
Qed.

Lemma tryImageUpgrade_masks_received_exception_witness :
  tryImageUpgrade Sample.device_no_fastcli Sample.onprem_config
    (CalledProcessError 124 "timeout 60s /usr/bin/TerminAttr" EmptyString)
    tt []
  = (Raise (AssertionError "FastCli Binary Not Found"), tt, []).
Proof.
  apply (tryImageUpgrade_masks_received_exception unit
           Sample.device_no_fastcli Sample.onprem_config
           (CalledProcessError 124 "timeout 60s /usr/bin/TerminAttr"
              EmptyString) tt []).
  reflexivity.
Defined.

(** What [tryImageUpgrade] does on a device that has the FastCli
    binary. *)
Lemma tryImageUpgrade_cases :
  forall (S : Type) (w : World) (cfg : Config) (e : exn) (s : S)
         (t : trace),
    isfile w FAST_CLI_BINARY = true ->
    let cli := mkCliManager FAST_CLI_BINARY in
    (eosUrl cfg = EmptyString ->
     tryImageUpgrade w cfg e s t
     = (Raise e, s, EvLog "Specify 'eosUrl' for EOS version upgrade" :: t))
    /\ (eosUrl cfg <> EmptyString ->
        exists (rc1 : Z) (out1 : string) (t1 : trace),
          runCommands w cli (install_cmds cfg) s t = (Ok (rc1, out1), s, t1)
          /\ shell_cmds t1
             = (shell_cmds t ++ [fastcli_cmd cli (install_cmds cfg)])%list
          /\ ((rc1 <> 0%Z
               /\ tryImageUpgrade w cfg e s t
                  = (Raise (Exception (UPGRADE_FAILED cfg out1)), s,
                     EvLog (UPGRADE_FAILED cfg out1) :: t1))
              \/ (rc1 = 0%Z
                  /\ exists (rc2 : Z) (out2 : string) (t2 : trace),
                       runCommands w cli reboot_cmds s t1
                       = (Ok (rc2, out2), s, t2)
                       /\ shell_cmds t2
                          = (shell_cmds t
                             ++ [fastcli_cmd cli (install_cmds cfg);
                                 fastcli_cmd cli reboot_cmds])%list
                       /\ ((rc2 <> 0%Z
                            /\ tryImageUpgrade w cfg e s t
                               = (Raise (Exception (REBOOT_FAILED out2)), s,
                                  EvLog (REBOOT_FAILED out2) :: t2))
                           \/ (rc2 = 0%Z
                               /\ tryImageUpgrade w cfg e s t
                                  = (Ok tt, s, t2)))))).
Proof.
  intros S w cfg e s t Hfile cli. split.
  - intros Hurl.
    unfold tryImageUpgrade, CliManager_init, confidenceCheck, bind, log,
      emit, ret, raise.
    cbn [fastCliBinary]. rewrite Hfile, (eqb_empty _ Hurl). reflexivity.
  - intros Hurl.
    destruct (runCommands_run S w cli (install_cmds cfg) s t)
      as (rc1 & out1 & t1 & Hrun1 & Hcmds1 & _).
    exists rc1, out1, t1. split; [exact Hrun1 |]. split; [exact Hcmds1 |].
    assert (Hstart :
              tryImageUpgrade w cfg e s t
              = (if negb (rc1 =? 0)%Z
                 then (log (UPGRADE_FAILED cfg out1) ;;
                       raise (Exception (UPGRADE_FAILED cfg out1)))
                 else
                   (r <- runCommands w cli reboot_cmds ;;
                    let '(rc, cmdOut) := r in
                    if negb (rc =? 0)%Z
                    then (log (REBOOT_FAILED cmdOut) ;;
                          raise (Exception (REBOOT_FAILED cmdOut)))
                    else ret tt)) s t1).
    { unfold tryImageUpgrade, CliManager_init, confidenceCheck.
      unfold bind at 1 2. cbn [fastCliBinary]. rewrite Hfile.
      unfold ret at 1 2. rewrite (eqb_nonempty _ Hurl).
      unfold bind at 1. fold cli. rewrite Hrun1. reflexivity. }
    destruct (rc1 =? 0)%Z eqn:Hrc1; cbn [negb] in Hstart.
    + right. split; [apply Z.eqb_eq; exact Hrc1 |].
      destruct (runCommands_run S w cli reboot_cmds s t1)
        as (rc2 & out2 & t2 & Hrun2 & Hcmds2 & _).
      exists rc2, out2, t2. split; [exact Hrun2 |]. split.
      * rewrite Hcmds2, Hcmds1, <- app_assoc. reflexivity.
      * unfold bind at 1 in Hstart. rewrite Hrun2 in Hstart.
        destruct (rc2 =? 0)%Z eqn:Hrc2; cbn [negb] in Hstart.
        -- right. split; [apply Z.eqb_eq; exact Hrc2 | exact Hstart].
        -- left. split; [apply Z.eqb_neq; exact Hrc2 | exact Hstart].
    + left. split; [apply Z.eqb_neq; exact Hrc1 | exact Hstart].
Qed.

(** X19: [tryImageUpgrade] on a device that has the FastCli binary.  With
    an empty [eosUrl] the exception received is raised again, unchanged,
    after one log message and no command; with a non-empty [eosUrl] the
    install command is issued, then, if it succeeded, the reboot command,
    and a non-zero result of either raises a new [Exception] that names
    the failure. *)
Theorem tryImageUpgrade_outcomes :
  forall (S : Type) (w : World) (cfg : Config) (e : exn) (s : S)
         (t : trace),
    isfile w FAST_CLI_BINARY = true ->
    let cli := mkCliManager FAST_CLI_BINARY in
    (eosUrl cfg = EmptyString ->
     tryImageUpgrade w cfg e s t
     = (Raise e, s, EvLog "Specify 'eosUrl' for EOS version upgrade" :: t))
    /\ (eosUrl cfg <> EmptyString ->
        exists (rc1 : Z) (out1 : string) (t1 : trace),
          runCommands w cli (install_cmds cfg) s t = (Ok (rc1, out1), s, t1)
          /\ shell_cmds t1
             = (shell_cmds t ++ [fastcli_cmd cli (install_cmds cfg)])%list
          /\ ((rc1 <> 0%Z
               /\ tryImageUpgrade w cfg e s t
                  = (Raise (Exception (UPGRADE_FAILED cfg out1)), s,
                     EvLog (UPGRADE_FAILED cfg out1) :: t1))
              \/ (rc1 = 0%Z
                  /\ exists (rc2 : Z) (out2 : string) (t2 : trace),
                       runCommands w cli reboot_cmds s t1
                       = (Ok (rc2, out2), s, t2)
                       /\ shell_cmds t2
                          = (shell_cmds t
                             ++ [fastcli_cmd cli (install_cmds cfg);
                                 fastcli_cmd cli reboot_cmds])%list
                       /\ ((rc2 <> 0%Z
                            /\ tryImageUpgrade w cfg e s t
                               = (Raise (Exception (REBOOT_FAILED out2)), s,
                                  EvLog (REBOOT_FAILED out2) :: t2))
                           \/ (rc2 = 0%Z
                               /\ tryImageUpgrade w cfg e s t
                                  = (Ok tt, s, t2)))))).
Proof.
  intros S w cfg e s t Hfile. exact (tryImageUpgrade_cases S w cfg e s t Hfile).
Qed.

Lemma tryImageUpgrade_outcomes_witness :
  tryImageUpgrade (Sample.device 0) Sample.onprem_config
    (CalledProcessError 124 "timeout 60s /usr/bin/TerminAttr" EmptyString)
    tt []
  = (Raise (CalledProcessError 124 "timeout 60s /usr/bin/TerminAttr"
              EmptyString),
     tt, [EvLog "Specify 'eosUrl' for EOS version upgrade"]).
Proof.
  apply (tryImageUpgrade_outcomes unit (Sample.device 0)
           Sample.onprem_config
           (CalledProcessError 124 "timeout 60s /usr/bin/TerminAttr"
              EmptyString) tt [] eq_refl).
  reflexivity.
Defined.

(** The exception received is not raised again on every device. *)
Lemma tryImageUpgrade_without_fastcli :
  ~ (forall (w : World) (cfg : Config) (e : exn) (t : trace),
        eosUrl cfg = EmptyString ->
        fst (fst (tryImageUpgrade w cfg e tt t)) = Raise e).
Proof.
  intros H.
  specialize (H Sample.device_no_fastcli Sample.onprem_config
                (CalledProcessError 124 "timeout 60s /usr/bin/TerminAttr"
                   EmptyString) [] eq_refl).
  vm_compute in H. discriminate H.
Qed.

(** An upgrade with an image configured, on a device where both commands
    succeed: install, then reboot. *)
Example tryImageUpgrade_upgrade_run :
  let r := tryImageUpgrade (Sample.device 0) Sample.upgrade_config
             (CalledProcessError 124 "timeout 60s /usr/bin/TerminAttr"
                EmptyString) tt [] in
  fst (fst r) = Ok tt
  /\ shell_cmds (snd r)
     = ["echo -e 'enable" ++ Sample.nl
        ++ "install source http://10.0.0.9/EOS.swi destination "
        ++ "flash:/EOS.swi' | /usr/bin/FastCli";
        "echo -e 'enable" ++ Sample.nl
        ++ "reload all now' | /usr/bin/FastCli"].
Proof. vm_compute. split; reflexivity. Qed.

(* ===================================================================== *)
(** ** Step 2: the certificate paths *)
(* ===================================================================== *)

(** The fallback: what the handler of the command's error does. *)
Lemma getCertificatePaths_command_error :
  forall (w : World) (m : Manager) (t : trace) (rc : Z) (out : string),
    shell_result w t (certsconfig_cmd m) = (rc, out) ->
    rc <> 0%Z ->
    getCertificatePaths w m t
    = (Ok tt, with_fallback m,
       [EvPrint ("key location: " ++ FALLBACK_KEY);
        EvPrint ("ceriticate location: " ++ FALLBACK_CERTIFICATE);
        EvPrint "step 2 done, obtained client certificates location from TA";
        EvLog "Using fallback paths for client certs";
        EvLog ("Failed to get the path of the stored client certs, err: "
               ++ out);
        EvShell (certsconfig_cmd m)] ++ t)%list.
Proof.
  intros w m t rc out Hsh Hrc.
  apply Z.eqb_neq in Hrc.
  unfold getCertificatePaths, try_except, check_output, print, log, bind,
    history, self, emit, update, ret, raise.
  rewrite Hsh, Hrc. reflexivity.
Qed.

(** When the command succeeds, only its own error is handled: output that
    is not JSON raises the decoder's [ValueError] ... *)
Lemma getCertificatePaths_malformed_output :
  forall (w : World) (m : Manager) (t : trace) (out : string),
    shell_result w t (certsconfig_cmd m) = (0%Z, out) ->
    Json.loads out = None ->
    getCertificatePaths w m t
    = (Raise (ValueError "No JSON object could be decoded"), m,
       EvShell (certsconfig_cmd m) :: t).
Proof.
  intros w m t out Hsh Hj.
  unfold getCertificatePaths, try_except, check_output, json_loads, bind,
    history, self, emit, ret, raise.
  rewrite Hsh. cbn. rewrite Hj. reflexivity.
Qed.

(** ... and an object without the enrollment host raises [KeyError]. *)
Lemma getCertificatePaths_missing_host :
  forall (w : World) (m : Manager) (t : trace) (out host : string)
         (members : list (string * Json.json)),
    shell_result w t (certsconfig_cmd m) = (0%Z, out) ->
    Json.loads out = Some (Json.JObj members) ->
    enrollAddr m = Some host ->
    Json.lookup host members = None ->
    getCertificatePaths w m t
    = (Raise (KeyError host), m, EvShell (certsconfig_cmd m) :: t).
Proof.
  intros w m t out host members Hsh Hj Hhost Hlook.
  unfold getCertificatePaths, try_except, check_output, json_loads, bind,
    history, self, emit, lift, ret, raise.
  rewrite Hsh. cbn. rewrite Hj, Hhost. cbn. rewrite Hlook. reflexivity.
Qed.

(** C1, as the code has it: when the agent command exits non-zero,
    [getCertificatePaths] does not abort; it logs the failure, sets the
    certificate and the key to the fallback pair and goes on to print
    them.  When the command succeeds, output that is not JSON and an
    object without the enrollment host abort the step with the error of
    the decoder or of the lookup, the manager left as it was. *)
Theorem getCertificatePaths_lookup_outcomes :
  forall (w : World) (m : Manager) (t : trace) (rc : Z) (out : string),
    shell_result w t (certsconfig_cmd m) = (rc, out) ->
    (rc <> 0%Z ->
     (exists t' : trace,
         getCertificatePaths w m t = (Ok tt, with_fallback m, t'))
     /\ certificate (with_fallback m)
        = "/persist/secure/ssl/terminattr/primary/certs/client.crt"
     /\ key (with_fallback m)
        = "/persist/secure/ssl/terminattr/primary/keys/client.key")
    /\ (rc = 0%Z ->
        Json.loads out = None ->
        getCertificatePaths w m t
        = (Raise (ValueError "No JSON object could be decoded"), m,
           EvShell (certsconfig_cmd m) :: t))
    /\ (rc = 0%Z ->
        forall (members : list (string * Json.json)) (host : string),
          Json.loads out = Some (Json.JObj members) ->
          enrollAddr m = Some host ->
          Json.lookup host members = None ->
          getCertificatePaths w m t
          = (Raise (KeyError host), m, EvShell (certsconfig_cmd m) :: t)).
Proof.
  intros w m t rc out Hsh. repeat split.
  - eexists. apply (getCertificatePaths_command_error w m t rc out Hsh H).
  - intros -> Hj. apply (getCertificatePaths_malformed_output _ _ _ _ Hsh Hj).
  - intros -> members host Hj Hh Hl.
    apply (getCertificatePaths_missing_host _ _ _ _ _ _ Hsh Hj Hh Hl).
Qed.

Lemma getCertificatePaths_lookup_outcomes_witness :
  exists t' : trace,
    getCertificatePaths (Sample.device_shell 1 "unknown flag")
      Sample.onprem_manager []
    = (Ok tt, with_fallback Sample.onprem_manager, t').
Proof.
  exact (proj1 (proj1 (getCertificatePaths_lookup_outcomes
                         (Sample.device_shell 1 "unknown flag")
                         Sample.onprem_manager [] 1 "unknown flag" eq_refl)
                  ltac:(discriminate))).
Defined.

(** Every failure of the lookup but the command's own aborts the step. *)
Lemma getCertificatePaths_aborts :
  forall (w : World) (m : Manager) (t : trace),
    lookup_fails w m t ->
    (exists rc out, shell_result w t (certsconfig_cmd m) = (rc, out)
                    /\ rc <> 0%Z)
    \/ (exists e, getCertificatePaths w m t
                  = (Raise e, m, EvShell (certsconfig_cmd m) :: t)).
Proof.
  intros w m t [rc out Hsh Hrc | out Hsh Hj | out members host Hsh Hj Hh Hl].
  - left. eauto.
  - right. eexists.
    apply (getCertificatePaths_malformed_output _ _ _ _ Hsh Hj).
  - right. eexists.
    apply (getCertificatePaths_missing_host _ _ _ _ _ _ Hsh Hj Hh Hl).
Qed.

(** Not every failure of the lookup ends in the fallback pair: on output
    that is not JSON the step aborts with the decoder's error. *)
Lemma getCertificatePaths_malformed_output_aborts :
  ~ (forall (w : World) (m : Manager) (t : trace),
        lookup_fails w m t ->
        exists (m' : Manager) (t' : trace),
          getCertificatePaths w m t = (Ok tt, m', t')
          /\ certificate m' = FALLBACK_CERTIFICATE
          /\ key m' = FALLBACK_KEY).
Proof.
  intros H.
  destruct (H (Sample.device_shell 0 "not json") Sample.onprem_manager [])
    as (m' & t' & Hrun & _).
  - apply output_malformed with (out := "not json"); reflexivity.
  - vm_compute in Hrun. discriminate Hrun.
Qed.

Example getCertificatePaths_malformed_run :
  getCertificatePaths (Sample.device_shell 0 "not json")
    Sample.onprem_manager []
  = (Raise (ValueError "No JSON object could be decoded"),
     Sample.onprem_manager,
     [EvShell "timeout 60s /usr/bin/TerminAttr -cvaddr 10.0.0.5 -certsconfig"]).
Proof. reflexivity. Qed.

Example getCertificatePaths_missing_host_run :
  getCertificatePaths
    (Sample.device_shell 0 (Sample.certs_json "10.0.0.6"))
    Sample.onprem_manager []
  = (Raise (KeyError "10.0.0.5"), Sample.onprem_manager,
     [EvShell "timeout 60s /usr/bin/TerminAttr -cvaddr 10.0.0.5 -certsconfig"]).
Proof. reflexivity. Qed.

(** An entry with a certificate path and no key path: the certificate is
    set before the missing key aborts the step. *)
Example getCertificatePaths_partial_run :
  getCertificatePaths
    (Sample.device_shell 0
       ("{" ++ Q ++ "10.0.0.5" ++ Q ++ ": {" ++ Q ++ "certFile" ++ Q ++ ": "
        ++ Q ++ "/persist/secure/c.crt" ++ Q ++ "}}"))
    Sample.onprem_manager []
  = (Raise (KeyError "keyFile"),
     set_certificate "/persist/secure/c.crt" Sample.onprem_manager,
     [EvShell "timeout 60s /usr/bin/TerminAttr -cvaddr 10.0.0.5 -certsconfig"]).
Proof. reflexivity. Qed.

(* ===================================================================== *)
(** ** The choice of the deployment *)
(* ===================================================================== *)

Lemma prefix_iff_app (p s : string) :
  String.prefix p s = true <-> exists q : string, s = p ++ q.
Proof.
  revert s. induction p as [| c p IH]; intros s.
  - split; [intros _; exists s; reflexivity | intros _; destruct s; reflexivity].
  - destruct s as [| d s]; cbn.
    + split; [discriminate | intros [q Hq]; discriminate].
    + destruct (ascii_dec c d) as [-> | Hcd].
      * rewrite IH. split; intros [q Hq]; exists q.
        -- rewrite Hq. reflexivity.
        -- inversion Hq. reflexivity.
      * split; [discriminate |].
        intros [q Hq]. inversion Hq. congruence.
Qed.

(** [s.find(sub) != -1] says that [s] contains [sub]. *)
Lemma find_iff_contains (sub s : string) :
  (exists i : nat, PyStr.find sub s = Some i) <-> contains s sub.
Proof.
  split.
  - intros [i Hi]. revert i Hi.
    induction s as [| c s IH]; intros i; cbn [PyStr.find option_map].
    + destruct (String.prefix sub EmptyString) eqn:Hp; [| discriminate].
      intros _. apply prefix_iff_app in Hp. destruct Hp as [q Hq].
      exists EmptyString, q. exact Hq.
    + destruct (String.prefix sub (String c s)) eqn:Hp.
      * intros _. apply prefix_iff_app in Hp. destruct Hp as [q Hq].
        exists EmptyString, q. exact Hq.
      * destruct (PyStr.find sub s) as [j |] eqn:Hj; [| discriminate].
        intros _. destruct (IH j eq_refl) as (p & q & Hpq).
        exists (String c p), q. rewrite Hpq. reflexivity.
  - intros (p & q & Hpq). subst s.
    induction p as [| c p IH]; cbn [append PyStr.find option_map].
    + assert (Hp : String.prefix sub (sub ++ q) = true)
        by (apply prefix_iff_app; exists q; reflexivity).
      destruct (sub ++ q); cbn [PyStr.find]; rewrite Hp; exists O;
        reflexivity.
    + destruct (String.prefix sub (String c (p ++ sub ++ q))).
      * exists O. reflexivity.
      * destruct IH as [i Hi]. rewrite Hi. exists (S i). reflexivity.
Qed.

(** X20: the manager the [__main__] block constructs.  The block runs
    the cloud constructor exactly when the configured address contains
    [arista.io], and the on-prem constructor otherwise.  On a device whose
    Sysdb can be read and for an address that parses, the cloud
    constructor returns a manager with the secure token type, the
    redirector URL (the bootstrap URL with the redirector path) and no
    enrollment address; the on-prem constructor returns one with the plain
    ingest token type, no redirector URL and the host of the bootstrap URL
    as the enrollment address.  Neither logs anything. *)
Theorem construct_manager_selects_constructor :
  forall (w : World) (cfg : Config) (t : trace),
    (contains (cvAddr cfg) "arista.io" ->
     construct_manager w cfg tt t = CloudBootstrapManager_init w cfg tt t)
    /\ (~ contains (cvAddr cfg) "arista.io" ->
        construct_manager w cfg tt t = OnPremBootstrapManager_init w cfg tt t)
    /\ (forall (mib : entity) (u : UrlParse.ParseResult),
          getEntity_result w "hardware/entmib" = Ok mib ->
          getBootstrapURL CloudBootstrapManager (cvAddr cfg) = Ok u ->
          CloudBootstrapManager_init w cfg tt t
          = (Ok (mkManager CloudBootstrapManager (Some u)
                   (Some (UrlParse.replace_path u REDIRECTOR_PATH))
                   (Some SECURE_TOKEN) None EmptyString EmptyString
                   (PyStr.of_Z (cellId w)) mib), tt, t))
    /\ (forall (mib : entity) (u : UrlParse.ParseResult),
          getEntity_result w "hardware/entmib" = Ok mib ->
          getBootstrapURL OnPremBootstrapManager (cvAddr cfg) = Ok u ->
          OnPremBootstrapManager_init w cfg tt t
          = (Ok (mkManager OnPremBootstrapManager (Some u) None
                   (Some INGEST_TOKEN) (Some (UrlParse.netloc u))
                   EmptyString EmptyString (PyStr.of_Z (cellId w)) mib),
             tt, t)).
Proof.
  intros w cfg t. unfold construct_manager.
  split; [| split; [| split]].
  - intros Hc. apply find_iff_contains in Hc. destruct Hc as [i ->].
    reflexivity.
  - intros Hc.
    destruct (PyStr.find "arista.io" (cvAddr cfg)) as [i |] eqn:Hfind;
      [| reflexivity].
    exfalso. apply Hc, find_iff_contains. now exists i.
  - intros mib u Hmib Hu.
    unfold CloudBootstrapManager_init, BootstrapManager_init, bind, lift,
      ret.
    rewrite Hmib, Hu. reflexivity.
  - intros mib u Hmib Hu.
    unfold OnPremBootstrapManager_init, BootstrapManager_init, bind, lift,
      ret.
    rewrite Hmib, Hu. reflexivity.
Qed.

Lemma construct_manager_selects_constructor_witness :
  construct_manager (Sample.device 0) Sample.cloud_config tt []
  = CloudBootstrapManager_init (Sample.device 0) Sample.cloud_config tt []
  /\ CloudBootstrapManager_init (Sample.device 0) Sample.cloud_config tt []
     = (Ok Sample.cloud_manager, tt, []).
Proof.
  destruct (construct_manager_selects_constructor (Sample.device 0)
              Sample.cloud_config []) as (Hcloud & _ & Hinit & _).
  split.
  - apply Hcloud. exists "apiserver.", EmptyString. reflexivity.
  - apply (Hinit Sample.entmib
             (UrlParse.mkParseResult "https" "www.arista.io"
                "/ztp/bootstrap" EmptyString EmptyString EmptyString)).
    + reflexivity.
    + reflexivity.
Defined.

Example construct_manager_cloud_run :
  let r := construct_manager (Sample.device 0) Sample.cloud_config tt [] in
  match fst (fst r) with
  | Ok m => Some (class m, tokenType m,
                  option_map UrlParse.geturl (redirectorURL m),
                  enrollAddr m)
  | Raise _ => None
  end
  = Some (CloudBootstrapManager, Some "token-secure",
          Some ("https://www.arista.io/api/v3/services/"
                ++ "arista.redirector.v1.AssignmentService/GetOne"),
          None).
Proof. reflexivity. Qed.

(* ===================================================================== *)
(** ** Step 3.2 and the exit status of the script *)
(* ===================================================================== *)

(** What [executeBootstrap] does once [chmod] has succeeded and the child
    has been reaped with return code [c]. *)
Lemma executeBootstrap_child_returned :
  forall (w : World) (cfg : Config) (m : Manager) (t : trace)
         (out : string) (c : Z),
    shell_result w t chmod_cmd = (0%Z, out) ->
    child_result w
      (EvSetenv "CVPROXY" (cvproxy cfg) :: EvLog STEP321_DONE
       :: EvShell chmod_cmd :: t) BOOT_SCRIPT_PATH = ChildReturned c ->
    exists t' : trace,
      executeBootstrap w cfg m t
      = (if (c =? 0)%Z then Ok tt else Raise (SystemExit (ExitCode c)),
         m, t').
Proof.
  intros w cfg m t out c Hsh Hchild.
  unfold executeBootstrap, try_except, check_output, log, bind, history,
    emit, ret, raise.
  rewrite Hsh. cbn -[chmod_cmd BOOT_SCRIPT_PATH].
  fold STEP321_DONE. rewrite Hchild.
  destruct (c =? 0)%Z; cbn -[chmod_cmd BOOT_SCRIPT_PATH]; eexists;
    reflexivity.
Qed.

(** C8: when the workflow reaches the execution of the fetched script
    (the imports succeed, both inputs are configured, the manager is
    constructed, steps 1 to 3.1 end normally and [chmod] succeeds) and the
    script exits with code [c], the exit status of the process is [c]:
    [sys.exit(c)] for a non-zero [c], a run to the end for 0. *)
Theorem process_exit_status_is_child_exit_code :
  forall (w : World) (cfg : Config) (bm m1 m2 m3 : Manager)
         (tp tl t0 t1 t2 t3 : trace) (out : string) (c : Z),
    prelude w cfg tt [] = (Ok true, tt, tp) ->
    setupLogger w tt tp = (Ok tt, tt, tl) ->
    cvAddr cfg <> EmptyString ->
    enrollmentToken cfg <> EmptyString ->
    construct_manager w cfg tt
      (EvLog ("Current Custom Bootstrap Script Version: " ++ VERSION) :: tl)
    = (Ok bm, tt, t0) ->
    getClientCerficates w cfg bm t0 = (Ok tt, m1, t1) ->
    getCertificatePaths w m1 t1 = (Ok tt, m2, t2) ->
    getBootstrapScript w cfg m2 t2 = (Ok tt, m3, t3) ->
    shell_result w t3 chmod_cmd = (0%Z, out) ->
    child_result w
      (EvSetenv "CVPROXY" (cvproxy cfg) :: EvLog STEP321_DONE
       :: EvShell chmod_cmd :: t3) BOOT_SCRIPT_PATH = ChildReturned c ->
    (0 <= c < 256)%Z ->
    fst (process w cfg) = c
    /\ fst (fst (main w cfg tt tp))
       = (if (c =? 0)%Z then Ok tt else Raise (SystemExit (ExitCode c))).
Proof.
  intros w cfg bm m1 m2 m3 tp tl t0 t1 t2 t3 out c Hpre Hlog Haddr Htok Hbm
    H1 H2 H3 Hchmod Hchild Hc.
  destruct (executeBootstrap_child_returned w cfg m3 t3 out c Hchmod Hchild)
    as [t4 H4].
  assert (Hmain :
            main w cfg tt tp
            = (if (c =? 0)%Z then Ok tt else Raise (SystemExit (ExitCode c)),
               tt, t4)).
  { unfold main, log.
    unfold bind at 1. rewrite Hlog.
    unfold bind at 1. unfold emit at 1.
    rewrite (eqb_nonempty _ Haddr), (eqb_nonempty _ Htok).
    unfold bind at 1. rewrite Hbm.
    unfold call, run.
    unfold bind at 1. rewrite H1.
    unfold bind at 1. rewrite H2.
    unfold bind at 1. rewrite H3.
    rewrite H4. reflexivity. }
  unfold process, script. unfold bind at 1. rewrite Hpre, Hmain.
  destruct (c =? 0)%Z eqn:Hz; cbn.
  - apply Z.eqb_eq in Hz. split; [symmetry; exact Hz | reflexivity].
  - split; [apply Z.mod_small; exact Hc | reflexivity].
Qed.

Lemma process_exit_status_witness :
  fst (process (Sample.device 3) Sample.onprem_config) = 3%Z.
Proof.
  eapply (proj1 (process_exit_status_is_child_exit_code (Sample.device 3)
                   Sample.onprem_config _ _ _ _ _ _ _ _ _ _ _ 3
                   _ _ ltac:(discriminate) ltac:(discriminate) _ _ _ _ _ _
                   ltac:(lia))).
  Unshelve.
  all: try (vm_compute; reflexivity).
Defined.

(** A child killed by a signal has a negative return code, and the exit
    status is its low eight bits; SIGTERM during the run ends the script
    with 127 + 15. *)
Example process_exit_status_signals :
  fst (process (Sample.device (-9)) Sample.onprem_config) = 247%Z
  /\ fst (process Sample.device_sigterm Sample.onprem_config) = 142%Z.
Proof. vm_compute. split; reflexivity. Qed.

(* ===================================================================== *)
(** ** Facts about the string methods *)
(* ===================================================================== *)

Section StringFacts.
Import PyStr.

Lemma has_char_app (c : ascii) (a b : string) :
  has_char c (a ++ b) = has_char c a || has_char c b.
Proof.
  induction a as [| d a IH]; cbn; [reflexivity |].
  rewrite IH. apply orb_assoc.
Qed.

Lemma length_app (a b : string) :
  String.length (a ++ b) = String.length a + String.length b.
Proof. induction a as [| d a IH]; cbn; [reflexivity | now rewrite IH]. Qed.

Lemma app_assoc (a b c : string) : (a ++ b) ++ c = a ++ b ++ c.
Proof. induction a as [| d a IH]; cbn; [reflexivity | now rewrite IH]. Qed.

Lemma drop_app_length (a b : string) : drop (String.length a) (a ++ b) = b.
Proof. induction a as [| d a IH]; cbn; [destruct b; reflexivity | exact IH]. Qed.

Lemma length_drop (n : nat) (s : string) :
  String.length (drop n s) = String.length s - n.
Proof.
  revert s. induction n as [| n IH]; intros s.
  - destruct s; cbn; [reflexivity | reflexivity].
  - destruct s as [| d s]; cbn; [reflexivity | apply IH].
Qed.

(** A character that is not in [old] stops every match of [old]. *)
Lemma prefix_app_sep (old x y : string) (c : ascii) :
  has_char c old = false ->
  String.prefix old (x ++ String c y) = String.prefix old x.
Proof.
  revert x. induction old as [| o old IH]; intros x Hc.
  - destruct x; reflexivity.
  - cbn in Hc. apply orb_false_elim in Hc. destruct Hc as [Hco Hc].
    destruct x as [| d x]; cbn.
    + destruct (ascii_dec o c) as [-> | Hoc]; [| reflexivity].
      rewrite Ascii.eqb_refl in Hco. discriminate.
    + destruct (ascii_dec o d); [apply IH; exact Hc | reflexivity].
Qed.

Section Replace.
Variables old new : string.
Hypothesis old_nonempty : old <> EmptyString.

Lemma old_length : 1 <= String.length old.
Proof. destruct old; [contradiction | cbn; lia]. Qed.

Lemma replace_from_enough (n m : nat) (s : string) :
  String.length s <= n -> String.length s <= m ->
  replace_from n old new s = replace_from m old new s.
Proof.
  revert m s. induction n as [| n IH]; intros m s Hn Hm.
  - destruct s; [| cbn in Hn; lia]. destruct m; reflexivity.
  - destruct m as [| m].
    + destruct s; [reflexivity | cbn in Hm; lia].
    + destruct s as [| d s]; [reflexivity |].
      cbn [replace_from]. cbn [String.length] in Hn, Hm.
      destruct (String.prefix old (String d s)).
      * f_equal. apply IH; rewrite length_drop; cbn [String.length];
          pose proof old_length; lia.
      * f_equal. apply IH; lia.
Qed.

(** The two equations of [replace]. *)
Lemma replace_empty : replace EmptyString old new = EmptyString.
Proof. reflexivity. Qed.

Lemma replace_cons (d : ascii) (s : string) :
  replace (String d s) old new
  = if String.prefix old (String d s)
    then new ++ replace (drop (String.length old) (String d s)) old new
    else String d (replace s old new).
Proof.
  unfold replace. cbn [String.length replace_from].
  destruct (String.prefix old (String d s)).
  - f_equal. apply replace_from_enough; [| lia].
    rewrite length_drop. cbn [String.length]. pose proof old_length. lia.
  - reflexivity.
Qed.

(** A character that is in neither [old] nor [new] is in the result
    exactly when it is in the string. *)
Lemma has_char_replace (c : ascii) (s : string) :
  has_char c old = false -> has_char c new = false ->
  has_char c (replace s old new) = has_char c s.
Proof.
  intros Hold Hnew.
  remember (String.length s) as n eqn:Hn.
  assert (Hle : String.length s <= n) by lia. clear Hn.
  revert s Hle. induction n as [| n IH]; intros s Hle.
  - destruct s; [reflexivity | cbn in Hle; lia].
  - destruct s as [| d s]; [reflexivity |].
    rewrite replace_cons.
    destruct (String.prefix old (String d s)) eqn:Hp.
    + apply prefix_iff_app in Hp. destruct Hp as [q Hq].
      rewrite Hq, drop_app_length, !has_char_app, Hold, Hnew.
      cbn [orb]. apply IH.
      assert (Hlen : String.length (String d s)
                     = String.length old + String.length q)
        by (rewrite Hq; apply length_app).
      pose proof old_length. lia.
    + cbn [has_char]. f_equal. apply IH. cbn in Hle. lia.
Qed.

(** Replacing on both sides of a character that is not in [old]. *)
Lemma replace_app_sep (c : ascii) (a b : string) :
  has_char c old = false ->
  replace (a ++ String c b) old new
  = replace a old new ++ String c (replace b old new).
Proof.
  intros Hold.
  remember (String.length a) as n eqn:Hn.
  assert (Hle : String.length a <= n) by lia. clear Hn.
  revert a Hle. induction n as [| n IH]; intros a Hle.
  - destruct a; [| cbn in Hle; lia].
    cbn [append]. rewrite replace_cons.
    assert (Hp : String.prefix old (String c b) = false).
    { change (String c b) with (EmptyString ++ String c b).
      rewrite prefix_app_sep by exact Hold.
      destruct old; [contradiction | reflexivity]. }
    rewrite Hp. reflexivity.
  - destruct a as [| d a].
    + apply (IH EmptyString). cbn. lia.
    + change (String d a ++ String c b) with (String d (a ++ String c b)).
      rewrite !replace_cons.
      change (String d (a ++ String c b)) with (String d a ++ String c b).
      rewrite prefix_app_sep by exact Hold.
      destruct (String.prefix old (String d a)) eqn:Hp.
      * apply prefix_iff_app in Hp. destruct Hp as [q Hq].
        rewrite Hq, app_assoc, !drop_app_length, app_assoc.
        f_equal. apply IH.
        assert (Hlen : String.length (String d a)
                       = String.length old + String.length q)
          by (rewrite Hq; apply length_app).
        pose proof old_length. lia.
      * cbn [append]. f_equal. apply IH. cbn in Hle. lia.
Qed.

(** Without an occurrence of [old] nothing changes. *)
Lemma replace_no_occurrence (s : string) :
  find old s = None -> replace s old new = s.
Proof.
  induction s as [| d s IH]; intros Hf; [reflexivity |].
  rewrite replace_cons. cbn [find] in Hf.
  destruct (String.prefix old (String d s)); [discriminate |].
  destruct (find old s); [discriminate |].
  f_equal. apply IH. reflexivity.
Qed.

End Replace.
End StringFacts.

(* ===================================================================== *)
(** ** Step 0 and the address: [getBootstrapURL] *)
(* ===================================================================== *)

Section UrlFacts.
Import PyStr UrlParse.

Lemma startswith_app (p s : string) : startswith (p ++ s) p = true.
Proof. apply prefix_iff_app. exists s. reflexivity. Qed.

Lemma app_empty_r (s : string) : s ++ EmptyString = s.
Proof. induction s as [| d s IH]; cbn; congruence. Qed.

Lemma no_delims_cons (d : ascii) (s : string) :
  no_delims (String d s) = true ->
  netloc_delim d = false /\ no_delims s = true.
Proof.
  unfold no_delims, netloc_delim. cbn [has_char]. intros H.
  apply andb_prop in H. destruct H as [H H3].
  apply andb_prop in H. destruct H as [H1 H2].
  apply negb_true_iff, orb_false_elim in H1, H2, H3.
  destruct H1 as [H1 H1'], H2 as [H2 H2'], H3 as [H3 H3'].
  rewrite !(Ascii.eqb_sym d), H1, H2, H3, H1', H2', H3'.
  split; reflexivity.
Qed.

Lemma no_delims_has_char (s : string) :
  no_delims s = true ->
  has_char "/" s = false /\ has_char "?" s = false
  /\ has_char "#" s = false.
Proof.
  unfold no_delims.
  destruct (has_char "/" s), (has_char "?" s), (has_char "#" s);
    cbn; intros H; try discriminate; auto.
Qed.

(** The network location runs up to the first delimiter. *)
Lemma splitnetloc_host (h r : string) :
  no_delims h = true ->
  match r with
  | EmptyString => true
  | String d _ => netloc_delim d
  end = true ->
  splitnetloc (h ++ r) = (h, r).
Proof.
  intros Hh Hr. unfold splitnetloc.
  induction h as [| d h IH]; cbn [append span].
  - destruct r as [| d r]; [reflexivity |]. cbn [span]. rewrite Hr.
    reflexivity.
  - apply no_delims_cons in Hh. destruct Hh as [Hd Hh].
    rewrite Hd. cbn [negb]. rewrite (IH Hh). reflexivity.
Qed.

Lemma brackets_check (h : string) :
  brackets_paired h = true ->
  (has_char "[" h && negb (has_char "]" h))
  || (has_char "]" h && negb (has_char "[" h)) = false.
Proof.
  unfold brackets_paired.
  destruct (has_char "[" h), (has_char "]" h); cbn;
    intros H; try discriminate; reflexivity.
Qed.

Lemma split_after_scheme_host (sch h : string) :
  bare_host h = true ->
  split_after_scheme sch ("//" ++ h)
  = Some (sch, h, EmptyString, EmptyString, EmptyString).
Proof.
  unfold bare_host. intros Hb. apply andb_prop in Hb.
  destruct Hb as [Hd Hb].
  unfold split_after_scheme.
  rewrite (startswith_app "//" h).
  change (drop 2 ("//" ++ h)) with h.
  rewrite <- (app_empty_r h) at 1.
  rewrite (splitnetloc_host h EmptyString Hd eq_refl).
  rewrite (brackets_check h Hb). reflexivity.
Qed.

(** After two slashes no scheme is read. *)
Lemma urlsplit_slashes (x : string) :
  urlsplit ("//" ++ x) = split_after_scheme EmptyString ("//" ++ x).
Proof.
  unfold urlsplit.
  destruct (find_char ":" ("//" ++ x)) as [[| i] |]; reflexivity.
Qed.

Lemma urlparse_bare_host (h : string) :
  bare_host h = true ->
  urlparse ("//" ++ h)
  = Some (mkParseResult EmptyString h EmptyString EmptyString EmptyString
            EmptyString).
Proof.
  intros Hb. unfold urlparse.
  rewrite urlsplit_slashes, (split_after_scheme_host _ _ Hb).
  reflexivity.
Qed.

Lemma bare_host_not_prefixed (a : string) :
  no_delims a = true ->
  startswith a "//" || startswith a "http://" || startswith a "https://"
  = false.
Proof.
  intros Hd. apply no_delims_has_char in Hd. destruct Hd as [Hs _].
  unfold startswith.
  assert (H : forall p, has_char "/" p = true -> String.prefix p a = false).
  { intros p Hp. destruct (String.prefix p a) eqn:Hpre; [| reflexivity].
    apply prefix_iff_app in Hpre. destruct Hpre as [q Hq].
    rewrite Hq, has_char_app, Hp in Hs. discriminate. }
  rewrite !H by reflexivity. reflexivity.
Qed.

Lemma bare_host_replace (a old new : string) :
  old <> EmptyString ->
  bare_host new = true ->
  no_delims old = true ->
  has_char "[" old = false -> has_char "]" old = false ->
  has_char "[" new = false -> has_char "]" new = false ->
  bare_host a = true ->
  bare_host (replace a old new) = true.
Proof.
  intros Hne Hnew Hold Hob Hob' Hnb Hnb'.
  unfold bare_host in Hnew. apply andb_prop in Hnew.
  destruct Hnew as [Hnd _].
  apply no_delims_has_char in Hold. destruct Hold as (Ho1 & Ho2 & Ho3).
  apply no_delims_has_char in Hnd. destruct Hnd as (Hn1 & Hn2 & Hn3).
  unfold bare_host, no_delims, brackets_paired.
  rewrite !(has_char_replace old new Hne) by assumption.
  auto.
Qed.

End UrlFacts.

(** The URL of a bare host. *)
Lemma getBootstrapURL_of_bare_host :
  forall (c : ManagerClass) (a : string),
    bare_host a = true ->
    getBootstrapURL c a
    = Ok (UrlParse.mkParseResult
            (if isinstance_Cloud c then "https" else "http")
            (if isinstance_Cloud c then PyStr.replace a "apiserver" "www"
             else a)
            "/ztp/bootstrap" EmptyString EmptyString EmptyString).
Proof.
  intros c a Hb.
  unfold getBootstrapURL.
  assert (Hd : no_delims a = true)
    by (unfold bare_host in Hb; apply andb_prop in Hb; tauto).
  rewrite (bare_host_not_prefixed a Hd). cbn [negb].
  destruct (isinstance_Cloud c).
  - assert (Hr : PyStr.replace ("//" ++ a) "apiserver" "www"
                 = "//" ++ PyStr.replace a "apiserver" "www").
    { change ("//" ++ a) with (String "/" (String "/" a)).
      rewrite !replace_cons by discriminate. reflexivity. }
    rewrite Hr.
    rewrite urlparse_bare_host
      by (apply bare_host_replace; try reflexivity; try discriminate;
          exact Hb).
    cbn [UrlParse.netloc UrlParse.path UrlParse.scheme
         UrlParse.replace_netloc UrlParse.replace_path
         UrlParse.replace_scheme UrlParse.params UrlParse.query
         UrlParse.fragment].
    destruct (String.eqb (PyStr.replace a "apiserver" "www") EmptyString)
      eqn:He.
    + apply String.eqb_eq in He. rewrite He. reflexivity.
    + reflexivity.
  - rewrite (urlparse_bare_host a Hb).
    cbn [UrlParse.netloc UrlParse.path UrlParse.scheme
         UrlParse.replace_netloc UrlParse.replace_path
         UrlParse.replace_scheme UrlParse.params UrlParse.query
         UrlParse.fragment].
    destruct (String.eqb a EmptyString) eqn:He.
    + apply String.eqb_eq in He. rewrite He. reflexivity.
    + reflexivity.
Qed.

(** C4, as the code has it: for a bare host the scheme is [https] in the
    cloud variant and [http] otherwise, the path is [/ztp/bootstrap], and
    the host is the input, in which the cloud variant has replaced every
    [apiserver] by [www]; so the host is the input itself on-prem, and in
    the cloud variant when the input does not contain [apiserver]. *)
Theorem getBootstrapURL_bare_host :
  forall (c : ManagerClass) (a : string),
    bare_host a = true ->
    getBootstrapURL c a
    = Ok (UrlParse.mkParseResult
            (if isinstance_Cloud c then "https" else "http")
            (if isinstance_Cloud c then PyStr.replace a "apiserver" "www"
             else a)
            "/ztp/bootstrap" EmptyString EmptyString EmptyString)
    /\ (PyStr.find "apiserver" a = None ->
        PyStr.replace a "apiserver" "www" = a).
Proof.
  intros c a Hb. split.
  - apply getBootstrapURL_of_bare_host. exact Hb.
  - apply replace_no_occurrence. discriminate.
Qed.

Lemma getBootstrapURL_bare_host_witness :
  getBootstrapURL OnPremBootstrapManager "10.0.0.5"
  = Ok (UrlParse.mkParseResult "http" "10.0.0.5" "/ztp/bootstrap"
          EmptyString EmptyString EmptyString).
Proof.
  exact (proj1 (getBootstrapURL_bare_host OnPremBootstrapManager "10.0.0.5"
                  eq_refl)).
Defined.

(** The host of the result is not always the input: the cloud variant
    changes an input that contains [apiserver]. *)
Lemma getBootstrapURL_cloud_host_rewritten :
  ~ (forall (c : ManagerClass) (a : string),
        bare_host a = true ->
        exists u : UrlParse.ParseResult,
          getBootstrapURL c a = Ok u
          /\ UrlParse.scheme u
             = (if isinstance_Cloud c then "https" else "http")
          /\ UrlParse.netloc u = a
          /\ UrlParse.path u = "/ztp/bootstrap").
Proof.
  intros H.
  destruct (H CloudBootstrapManager "apiserver.arista.io" eq_refl)
    as (u & Hu & _ & Hn & _).
  vm_compute in Hu. inversion Hu. subst u. discriminate Hn.
Qed.

Section UrlFacts2.
Import PyStr UrlParse.

Lemma replace_nonempty (s old new : string) :
  old <> EmptyString -> new <> EmptyString -> s <> EmptyString ->
  replace s old new <> EmptyString.
Proof.
  intros Ho Hn Hs. destruct s as [| d s]; [contradiction |].
  rewrite replace_cons by exact Ho.
  destruct (String.prefix old (String d s)); [| discriminate].
  destruct new; [contradiction | discriminate].
Qed.

Lemma plain_path_inv (p : string) :
  plain_path p = true ->
  exists p0 : string,
    p = String "/" p0 /\ has_char ";" p0 = false
    /\ has_char "?" p0 = false /\ has_char "#" p0 = false.
Proof.
  unfold plain_path, startswith. intros H.
  apply andb_prop in H. destruct H as [H H3].
  apply andb_prop in H. destruct H as [H H2].
  apply andb_prop in H. destruct H as [H0 H1].
  apply prefix_iff_app in H0. destruct H0 as [p0 Hp]. subst p.
  exists p0. apply negb_true_iff in H1, H2, H3.
  cbn in H1, H2, H3. auto.
Qed.

Lemma split1_app (c : ascii) (x y : string) :
  has_char c x = false ->
  split1 c (x ++ y) = (x ++ fst (split1 c y), snd (split1 c y)).
Proof.
  induction x as [| d x IH]; cbn [append has_char split1]; intros H.
  - destruct (split1 c y). reflexivity.
  - apply orb_false_elim in H. destruct H as [Hd Hx].
    rewrite Hd, (IH Hx). reflexivity.
Qed.

(** What is left of [path ++ tail] once the fragment and the query are
    split off is the path. *)
Lemma path_before_tail (p t : string) :
  has_char "?" p = false -> has_char "#" p = false ->
  url_tail t = true ->
  let u1 := if has_char "#" (p ++ t) then fst (split1 "#" (p ++ t))
            else p ++ t in
  (if has_char "?" u1 then fst (split1 "?" u1) else u1) = p.
Proof.
  intros Hq Hf Ht. cbv zeta.
  rewrite has_char_app, Hf, (split1_app "#" p t Hf). cbn [orb fst].
  destruct t as [| d t].
  - cbn [has_char]. rewrite app_empty_r, Hq. reflexivity.
  - cbn [url_tail] in Ht. apply orb_prop in Ht.
    destruct Ht as [Hd | Hd]; apply Ascii.eqb_eq in Hd; subst d.
    + (* the tail is a query, with or without a fragment *)
      cbn [has_char split1].
      replace (Ascii.eqb "#" "?") with false by reflexivity. cbn [orb].
      destruct (has_char "#" t).
      * destruct (split1 "#" t) as [q f]. cbn [fst].
        rewrite has_char_app, (split1_app "?" p _ Hq).
        cbn [has_char split1]. rewrite Ascii.eqb_refl, orb_true_r.
        cbn [fst]. apply app_empty_r.
      * rewrite has_char_app, (split1_app "?" p _ Hq).
        cbn [has_char split1]. rewrite Ascii.eqb_refl, orb_true_r.
        cbn [fst]. apply app_empty_r.
    + (* the tail is a fragment *)
      cbn [has_char split1]. rewrite Ascii.eqb_refl. cbn [orb fst].
      rewrite app_empty_r, Hq. reflexivity.
Qed.

(** Scheme, host and path of [scheme://host/path], whatever query and
    fragment follow. *)
Lemma split_after_scheme_host_path (sch h p0 t : string) :
  bare_host h = true ->
  has_char "?" p0 = false -> has_char "#" p0 = false ->
  url_tail t = true ->
  exists q f : string,
    split_after_scheme sch ("//" ++ h ++ String "/" p0 ++ t)
    = Some (sch, h, String "/" p0, q, f).
Proof.
  unfold bare_host. intros Hb Hq Hf Ht. apply andb_prop in Hb.
  destruct Hb as [Hd Hb].
  assert (Hq' : has_char "?" (String "/" p0) = false) by exact Hq.
  assert (Hf' : has_char "#" (String "/" p0) = false) by exact Hf.
  pose proof (path_before_tail (String "/" p0) t Hq' Hf' Ht) as Hpath.
  cbv zeta in Hpath.
  unfold split_after_scheme.
  rewrite (startswith_app "//" (h ++ String "/" p0 ++ t)).
  change (drop 2 ("//" ++ h ++ String "/" p0 ++ t))
    with (h ++ String "/" (p0 ++ t)).
  rewrite (splitnetloc_host h (String "/" (p0 ++ t)) Hd eq_refl).
  rewrite (brackets_check h Hb).
  change (String "/" (p0 ++ t)) with (String "/" p0 ++ t).
  destruct (has_char "#" (String "/" p0 ++ t)).
  - destruct (split1 "#" (String "/" p0 ++ t)) as [u1 f]. cbn [fst] in Hpath.
    destruct (has_char "?" u1).
    + destruct (split1 "?" u1) as [u2 q]. cbn [fst] in Hpath. subst u2.
      exists q, f. reflexivity.
    + subst u1. exists EmptyString, f. reflexivity.
  - destruct (has_char "?" (String "/" p0 ++ t)).
    + destruct (split1 "?" (String "/" p0 ++ t)) as [u2 q].
      cbn [fst] in Hpath. subst u2. exists q, EmptyString. reflexivity.
    + rewrite Hpath. exists EmptyString, EmptyString. reflexivity.
Qed.

Lemma urlparse_http_host_path (s h p0 t : string) :
  s = "http" \/ s = "https" ->
  bare_host h = true ->
  has_char ";" p0 = false ->
  has_char "?" p0 = false -> has_char "#" p0 = false ->
  url_tail t = true ->
  exists q f : string,
    urlparse (s ++ "://" ++ h ++ String "/" p0 ++ t)
    = Some (mkParseResult s h (String "/" p0) EmptyString q f).
Proof.
  intros Hs Hb Hp Hq Hf Ht. unfold urlparse.
  assert (Hsplit :
            urlsplit (s ++ "://" ++ h ++ String "/" p0 ++ t)
            = split_after_scheme s ("//" ++ h ++ String "/" p0 ++ t)).
  { destruct Hs as [-> | ->]; reflexivity. }
  destruct (split_after_scheme_host_path s h p0 t Hb Hq Hf Ht)
    as (q & f & Hsp).
  rewrite Hsplit, Hsp. exists q, f.
  cbn [has_char]. rewrite Hp.
  replace (Ascii.eqb ";" "/") with false by reflexivity.
  rewrite andb_false_r. reflexivity.
Qed.

Lemma http_prefixed (s x : string) :
  s = "http" \/ s = "https" ->
  startswith (s ++ "://" ++ x) "//"
  || startswith (s ++ "://" ++ x) "http://"
  || startswith (s ++ "://" ++ x) "https://" = true.
Proof.
  intros [-> | ->].
  - change ("http" ++ "://" ++ x) with ("http://" ++ x).
    rewrite (startswith_app "http://" x), orb_true_r. reflexivity.
  - change ("https" ++ "://" ++ x) with ("https://" ++ x).
    rewrite (startswith_app "https://" x). apply orb_true_r.
Qed.

(** The cloud rewriting acts on the host and on what follows it apart. *)
Lemma replace_http_host_path (s h r : string) :
  s = "http" \/ s = "https" ->
  replace (s ++ "://" ++ h ++ String "/" r) "apiserver" "www"
  = s ++ "://" ++ replace h "apiserver" "www"
    ++ String "/" (replace r "apiserver" "www").
Proof.
  intros [-> | ->]; cbn [append];
    rewrite !replace_cons by discriminate; cbn [String.prefix];
    repeat (destruct (ascii_dec _ _); [discriminate |]);
    rewrite replace_app_sep by (discriminate || reflexivity);
    reflexivity.
Qed.

(** ... and on the path and on the query or fragment apart. *)
Lemma replace_path_tail (p0 t : string) :
  url_tail t = true ->
  exists t' : string,
    url_tail t' = true
    /\ replace (p0 ++ t) "apiserver" "www"
       = replace p0 "apiserver" "www" ++ t'.
Proof.
  intros Ht. destruct t as [| d t].
  - exists EmptyString. rewrite !app_empty_r. split; reflexivity.
  - cbn [url_tail] in Ht. apply orb_prop in Ht.
    destruct Ht as [Hd | Hd]; apply Ascii.eqb_eq in Hd; subst d;
      eexists; (split; [| apply replace_app_sep;
                           (discriminate || reflexivity)]);
      reflexivity.
Qed.

End UrlFacts2.

(** C5, as the code has it: for an address [scheme://host/path], with or
    without a query and a fragment after the path, whose scheme is [http]
    or [https], the scheme of the result is the scheme of the input and
    its path is the path of the input, in which the cloud variant has
    replaced every [apiserver] by [www]. *)
Theorem getBootstrapURL_scheme_and_path :
  forall (c : ManagerClass) (s h p t : string),
    s = "http" \/ s = "https" ->
    bare_host h = true ->
    h <> EmptyString ->
    plain_path p = true ->
    url_tail t = true ->
    exists u : UrlParse.ParseResult,
      getBootstrapURL c (s ++ "://" ++ h ++ p ++ t) = Ok u
      /\ UrlParse.scheme u = s
      /\ UrlParse.netloc u = cloud_rewrite c h
      /\ UrlParse.path u = cloud_rewrite c p.
Proof.
  intros c s h p t Hs Hb Hh Hp Ht.
  destruct (plain_path_inv p Hp) as (p0 & -> & Hsemi & Hq & Hf).
  unfold getBootstrapURL, cloud_rewrite.
  rewrite (http_prefixed s (h ++ String "/" p0 ++ t) Hs). cbn [negb].
  destruct (isinstance_Cloud c).
  - change (String "/" p0 ++ t) with (String "/" (p0 ++ t)).
    rewrite (replace_http_host_path s h (p0 ++ t) Hs).
    destruct (replace_path_tail p0 t Ht) as (t' & Ht' & ->).
    destruct (urlparse_http_host_path s (PyStr.replace h "apiserver" "www")
                (PyStr.replace p0 "apiserver" "www") t' Hs)
      as (q & f & Hparse);
      [ apply bare_host_replace; try reflexivity; try discriminate; exact Hb
      | rewrite has_char_replace by (discriminate || reflexivity);
        exact Hsemi
      | rewrite has_char_replace by (discriminate || reflexivity); exact Hq
      | rewrite has_char_replace by (discriminate || reflexivity); exact Hf
      | exact Ht' |].
    change (String "/" (PyStr.replace p0 "apiserver" "www" ++ t'))
      with (String "/" (PyStr.replace p0 "apiserver" "www") ++ t').
    rewrite Hparse.
    cbn [UrlParse.netloc UrlParse.path UrlParse.scheme].
    rewrite (eqb_nonempty (PyStr.replace h "apiserver" "www"))
      by (apply replace_nonempty; try discriminate; exact Hh).
    replace (PyStr.replace (String "/" p0) "apiserver" "www")
      with (String "/" (PyStr.replace p0 "apiserver" "www"))
      by (rewrite replace_cons by discriminate; reflexivity).
    destruct Hs as [-> | ->]; eexists; repeat split.
  - destruct (urlparse_http_host_path s h p0 t Hs Hb Hsemi Hq Hf Ht)
      as (q & f & Hparse).
    rewrite Hparse.
    cbn [UrlParse.netloc UrlParse.path UrlParse.scheme].
    rewrite (eqb_nonempty h Hh).
    destruct Hs as [-> | ->]; eexists; repeat split.
Qed.

Lemma getBootstrapURL_scheme_and_path_witness :
  exists u : UrlParse.ParseResult,
    getBootstrapURL CloudBootstrapManager
      "https://apiserver.arista.io/ztp/v2?site=lab"
    = Ok u
    /\ UrlParse.scheme u = "https"
    /\ UrlParse.netloc u = "www.arista.io"
    /\ UrlParse.path u = "/ztp/v2".
Proof.
  exact (getBootstrapURL_scheme_and_path CloudBootstrapManager "https"
           "apiserver.arista.io" "/ztp/v2" "?site=lab" (or_intror eq_refl)
           eq_refl ltac:(discriminate) eq_refl eq_refl).
Defined.

(** Scheme and path are not always kept: a scheme other than [http] and
    [https] is taken for a host (and the cloud variant rewrites
    [apiserver] in the path as well). *)
Lemma getBootstrapURL_scheme_or_path_changed :
  ~ (forall (c : ManagerClass) (s h p : string),
        scheme_name s = true ->
        bare_host h = true ->
        h <> EmptyString ->
        plain_path p = true ->
        exists u : UrlParse.ParseResult,
          getBootstrapURL c (s ++ "://" ++ h ++ p) = Ok u
          /\ UrlParse.scheme u = s
          /\ UrlParse.path u = p).
Proof.
  intros H.
  destruct (H OnPremBootstrapManager "ftp" "10.0.0.5" "/ztp/bootstrap"
              eq_refl eq_refl ltac:(discriminate) eq_refl)
    as (u & Hu & Hs & _).
  vm_compute in Hu. inversion Hu. subst u. discriminate Hs.
Qed.

Example getBootstrapURL_other_scheme_run :
  getBootstrapURL OnPremBootstrapManager "ftp://10.0.0.5/ztp/bootstrap"
  = Ok (UrlParse.mkParseResult "http" "ftp:" "//10.0.0.5/ztp/bootstrap"
          EmptyString EmptyString EmptyString).
Proof. reflexivity. Qed.

Example getBootstrapURL_cloud_path_run :
  getBootstrapURL CloudBootstrapManager "https://www.arista.io/apiserver/x"
  = Ok (UrlParse.mkParseResult "https" "www.arista.io" "/www/x"
          EmptyString EmptyString EmptyString).
Proof. reflexivity. Qed.

(* ===================================================================== *)
(** ** Step 0: the redirector *)
(* ===================================================================== *)

Example cloud_manager_constructed :
  CloudBootstrapManager_init (Sample.device 0) Sample.cloud_config tt []
  = (Ok Sample.cloud_manager, tt, []).
Proof. reflexivity. Qed.







Example checkWithRedirector_port_run :
  let r := checkWithRedirector (Sample.device_redirected "www.foo.com:8443")
             Sample.cloud_config Sample.cloud_manager [] in
  enrollAddr (snd (fst r)) = Some "apiserver.foo.com:8443".
Proof. reflexivity. Qed.

Example checkWithRedirector_digits_run :
  let r := checkWithRedirector (Sample.device_redirected "www.pod443")
             Sample.cloud_config Sample.cloud_manager [] in
  enrollAddr (snd (fst r)) = Some "apiserver.pod443".
Proof. reflexivity. Qed.

Example getBootstrapURL_cloud_domain_run :
  getBootstrapURL CloudBootstrapManager "apiserver.apiserver-lab.io"
  = Ok (UrlParse.mkParseResult "https" "www.www-lab.io" "/ztp/bootstrap"
          EmptyString EmptyString EmptyString).
Proof. reflexivity. Qed.

(* ===================================================================== *)
(** ** The JSON decoder does not depend on its counter *)
(* ===================================================================== *)

Section JsonFacts.
Import PyStr Json.

Lemma skip_ws_length (s : string) :
  String.length (skip_ws s) <= String.length s.
Proof.
  induction s as [| c s IH]; cbn; [lia |].
  destruct (is_ws c); cbn; lia.
Qed.

Lemma span_length (p : ascii -> bool) (s a b : string) :
  span p s = (a, b) ->
  String.length a + String.length b = String.length s.
Proof.
  revert a b. induction s as [| c s IH]; cbn; intros a b H.
  - inversion H. reflexivity.
  - destruct (p c).
    + destruct (span p s) as [a' b']. inversion H. subst.
      cbn. rewrite (IH a' b eq_refl). reflexivity.
    + inversion H. reflexivity.
Qed.

Lemma prepend_inv (p : string) (r : option (string * string))
  (body rest : string) :
  prepend p r = Some (body, rest) ->
  exists body' : string, r = Some (body', rest).
Proof.
  destruct r as [[b r'] |]; cbn; intros H; inversion H. eauto.
Qed.

(** A string scan ends after the closing quote. *)
Lemma scan_string_progress (n : nat) :
  forall (s : string) (pending : option N) (body r : string),
    String.length s <= n ->
    scan_string pending s = Some (body, r) ->
    String.length r < String.length s.
Proof.
  induction n as [| n IH]; intros s pending body r Hn H.
  - destruct s; [discriminate | cbn in Hn; lia].
  - destruct s as [| c s]; [discriminate |].
    cbn [scan_string] in H. cbn [String.length] in *.
    destruct (Ascii.eqb c DQUOTE).
    { inversion H. lia. }
    destruct (Ascii.eqb c BACKSLASH).
    { destruct s as [| e s]; [discriminate |].
      cbn [String.length] in *.
      destruct (Ascii.eqb e "u").
      - destruct s as [| h1 [| h2 [| h3 [| h4 s]]]]; try discriminate.
        cbn [String.length] in *.
        destruct (hex4 h1 h2 h3 h4) as [x |]; [| discriminate].
        assert (Hrec : forall pending' p,
                   prepend p (scan_string pending' s) = Some (body, r) ->
                   String.length r < String.length s).
        { intros pending' p Hp. apply prepend_inv in Hp.
          destruct Hp as [body' Hp]. apply (IH s pending' body' r); [lia |].
          exact Hp. }
        destruct pending as [hi |].
        + destruct (is_low_surrogate x);
            [apply Hrec in H; lia |].
          destruct (is_high_surrogate x); apply Hrec in H; lia.
        + destruct (is_high_surrogate x).
          * apply (IH s _ body r) in H; lia.
          * apply Hrec in H; lia.
      - destruct (unescape e); [| discriminate].
        apply prepend_inv in H. destruct H as [body' H].
        apply (IH s _ body' r) in H; lia. }
    destruct (nat_of_ascii c <? 32)%nat; [discriminate |].
    apply prepend_inv in H. destruct H as [body' H].
    apply (IH s _ body' r) in H; lia.
Qed.

Lemma scan_frac_length (s f r : string) :
  scan_frac s = (f, r) -> String.length r <= String.length s.
Proof.
  unfold scan_frac. destruct s as [| c s]; intros H.
  - inversion H. cbn. lia.
  - destruct (Ascii.eqb c ".").
    + destruct (span is_digit s) as [ds r'] eqn:Hs.
      apply span_length in Hs.
      destruct ds; inversion H; subst; cbn in *; lia.
    + inversion H. lia.
Qed.

Lemma scan_exp_length (s f r : string) :
  scan_exp s = (f, r) -> String.length r <= String.length s.
Proof.
  unfold scan_exp. destruct s as [| c s]; intros H.
  - inversion H. cbn. lia.
  - destruct (Ascii.eqb c "e" || Ascii.eqb c "E").
    + destruct s as [| g s'].
      * cbn in H. inversion H. lia.
      * destruct (Ascii.eqb g "+" || Ascii.eqb g "-").
        -- destruct (span is_digit s') as [ds r'] eqn:Hs.
           apply span_length in Hs.
           destruct ds; inversion H; subst; cbn in *; lia.
        -- destruct (span is_digit (String g s')) as [ds r'] eqn:Hs.
           apply span_length in Hs.
           destruct ds; inversion H; subst; cbn in *; lia.
    + inversion H. lia.
Qed.

Lemma scan_unsigned_progress (sign s : string) (v : json) (r : string) :
  scan_unsigned sign s = Some (v, r) -> String.length r < String.length s.
Proof.
  unfold scan_unsigned.
  destruct (scan_int s) as [[ds r0] |] eqn:Hi; [| discriminate].
  assert (H0 : String.length r0 < String.length s).
  { unfold scan_int in Hi. destruct s as [| c s0]; [discriminate |].
    destruct (Ascii.eqb c "0").
    - inversion Hi. cbn. lia.
    - destruct (is_digit c) eqn:Hc; [| discriminate].
      inversion Hi as [Hs]. cbn [span] in Hs. rewrite Hc in Hs.
      destruct (span is_digit s0) as [a b] eqn:Hsp.
      apply span_length in Hsp. inversion Hs. subst. cbn. lia. }
  destruct (scan_frac r0) as [frac r1] eqn:Hf.
  destruct (scan_exp r1) as [ex r2] eqn:He.
  apply scan_frac_length in Hf. apply scan_exp_length in He.
  destruct (String.eqb frac EmptyString && String.eqb ex EmptyString);
    intros H; inversion H; subst; lia.
Qed.

Lemma scan_number_progress (s : string) (v : json) (r : string) :
  scan_number s = Some (v, r) -> String.length r < String.length s.
Proof.
  unfold scan_number. destruct s as [| c s0]; [discriminate |].
  destruct (Ascii.eqb c "-"); intros H;
    apply scan_unsigned_progress in H; cbn in *; lia.
Qed.

Lemma drop_prefix_length (p s : string) :
  startswith s p = true -> p <> EmptyString ->
  String.length (drop (String.length p) s) < String.length s.
Proof.
  unfold startswith. intros H Hp. apply prefix_iff_app in H.
  destruct H as [q ->]. rewrite drop_app_length, length_app.
  destruct p; [contradiction | cbn; lia].
Qed.

Lemma scan_constant_progress (s : string) (v : json) (r : string) :
  scan_constant s = Some (v, r) -> String.length r < String.length s.
Proof.
  unfold scan_constant.
  destruct (startswith s "null") eqn:H1.
  { intros H. inversion H. apply (drop_prefix_length "null"); easy. }
  destruct (startswith s "true") eqn:H2.
  { intros H. inversion H. apply (drop_prefix_length "true"); easy. }
  destruct (startswith s "false") eqn:H3.
  { intros H. inversion H. apply (drop_prefix_length "false"); easy. }
  destruct (scan_number s) as [[v' r'] |] eqn:Hn.
  { intros H. inversion H. subst. apply (scan_number_progress _ _ _ Hn). }
  destruct (startswith s "NaN") eqn:H4.
  { intros H. inversion H. apply (drop_prefix_length "NaN"); easy. }
  destruct (startswith s "Infinity") eqn:H5.
  { intros H. inversion H. apply (drop_prefix_length "Infinity"); easy. }
  destruct (startswith s "-Infinity") eqn:H6.
  { intros H. inversion H. apply (drop_prefix_length "-Infinity"); easy. }
  discriminate.
Qed.

(** Case analysis on what follows the white space. *)
Ltac after_ws x :=
  let H := fresh "Hws" in
  pose proof (skip_ws_length x) as H;
  destruct (skip_ws x) as [| ? ?]; cbn [String.length] in H.

(** Every value, member list and item list that is read takes at least
    one character. *)
Lemma parse_progress (n : nat) :
  (forall s v r,
      parse_value n s = Some (v, r) -> String.length r < String.length s)
  /\ (forall acc s v r,
         parse_members n acc s = Some (v, r) ->
         String.length r < String.length s)
  /\ (forall acc s v r,
         parse_items n acc s = Some (v, r) ->
         String.length r < String.length s).
Proof.
  induction n as [| n (IHv & IHm & IHi)].
  - repeat split; intros; discriminate.
  - repeat split.
    + intros s v r. cbn [parse_value].
      destruct s as [| c s0]; [discriminate |].
      destruct (Ascii.eqb c DQUOTE).
      { destruct (scan_string None s0) as [[body r'] |] eqn:Hs;
          [| discriminate].
        apply (scan_string_progress _ _ _ _ _ (le_n _)) in Hs.
        intros H. inversion H. subst. cbn. lia. }
      destruct (Ascii.eqb c "{").
      { after_ws s0; [discriminate |].
        destruct (Ascii.eqb _ "}").
        - intros H. inversion H. subst. cbn. lia.
        - destruct (Ascii.eqb _ DQUOTE); [| discriminate].
          intros H. apply IHm in H. cbn. lia. }
      destruct (Ascii.eqb c "[").
      { after_ws s0; [discriminate |].
        destruct (Ascii.eqb _ "]").
        - intros H. inversion H. subst. cbn. lia.
        - intros H. apply IHi in H. cbn in *. lia. }
      apply scan_constant_progress.
    + intros acc s v r. cbn [parse_members].
      destruct (scan_string None s) as [[key r0] |] eqn:Hs; [| discriminate].
      apply (scan_string_progress _ _ _ _ _ (le_n _)) in Hs.
      after_ws r0; [discriminate |].
      destruct (Ascii.eqb _ ":"); [| discriminate].
      match goal with
      | |- context [parse_value n (skip_ws ?x)] =>
          pose proof (skip_ws_length x) as Hws1;
          destruct (parse_value n (skip_ws x)) as [[v0 r2] |] eqn:Hv;
          [| discriminate]
      end.
      apply IHv in Hv.
      after_ws r2; [discriminate |].
      destruct (Ascii.eqb _ "}").
      { intros H. inversion H. subst. lia. }
      destruct (Ascii.eqb _ ","); [| discriminate].
      match goal with
      | |- context [skip_ws ?x] => after_ws x; [discriminate |]
      end.
      destruct (Ascii.eqb _ DQUOTE); [| discriminate].
      intros H. apply IHm in H. lia.
    + intros acc s v r. cbn [parse_items].
      destruct (parse_value n s) as [[v0 r0] |] eqn:Hv; [| discriminate].
      apply IHv in Hv.
      after_ws r0; [discriminate |].
      destruct (Ascii.eqb _ "]").
      { intros H. inversion H. subst. lia. }
      destruct (Ascii.eqb _ ","); [| discriminate].
      match goal with
      | |- context [parse_items n _ (skip_ws ?x)] =>
          pose proof (skip_ws_length x) as Hws1
      end.
      intros H. apply IHi in H. lia.
Qed.

(** Above two units per character the counter does not matter. *)
Lemma parse_stable (n : nat) :
  (forall m s,
      2 * String.length s < n -> 2 * String.length s < m ->
      parse_value n s = parse_value m s)
  /\ (forall m acc s,
         2 * String.length s < n -> 2 * String.length s < m ->
         parse_members n acc s = parse_members m acc s)
  /\ (forall m acc s,
         2 * String.length s + 1 < n -> 2 * String.length s + 1 < m ->
         parse_items n acc s = parse_items m acc s).
Proof.
  induction n as [| n (IHv & IHm & IHi)].
  - repeat split; intros; lia.
  - repeat split.
    + intros m s Hn Hm. destruct m as [| m]; [lia |].
      cbn [parse_value].
      destruct s as [| c s0]; [reflexivity |].
      cbn [String.length] in Hn, Hm.
      destruct (Ascii.eqb c DQUOTE); [reflexivity |].
      destruct (Ascii.eqb c "{").
      { after_ws s0; [reflexivity |].
        destruct (Ascii.eqb _ "}"); [reflexivity |].
        destruct (Ascii.eqb _ DQUOTE); [| reflexivity].
        apply IHm; lia. }
      destruct (Ascii.eqb c "[").
      { after_ws s0; [reflexivity |].
        destruct (Ascii.eqb _ "]"); [reflexivity |].
        apply IHi; cbn [String.length]; lia. }
      reflexivity.
    + intros m acc s Hn Hm. destruct m as [| m]; [lia |].
      cbn [parse_members].
      destruct (scan_string None s) as [[key r0] |] eqn:Hs; [| reflexivity].
      apply (scan_string_progress _ _ _ _ _ (le_n _)) in Hs.
      after_ws r0; [reflexivity |].
      destruct (Ascii.eqb _ ":"); [| reflexivity].
      match goal with
      | |- context [parse_value n (skip_ws ?x)] =>
          pose proof (skip_ws_length x) as Hws1;
          rewrite (IHv m (skip_ws x)) by lia;
          destruct (parse_value m (skip_ws x)) as [[v0 r2] |] eqn:Hv;
          [| reflexivity]
      end.
      apply (proj1 (parse_progress m)) in Hv.
      after_ws r2; [reflexivity |].
      destruct (Ascii.eqb _ "}"); [reflexivity |].
      destruct (Ascii.eqb _ ","); [| reflexivity].
      match goal with
      | |- context [skip_ws ?x] => after_ws x; [reflexivity |]
      end.
      destruct (Ascii.eqb _ DQUOTE); [| reflexivity].
      apply IHm; lia.
    + intros m acc s Hn Hm. destruct m as [| m]; [lia |].
      cbn [parse_items].
      rewrite (IHv m s) by lia.
      destruct (parse_value m s) as [[v0 r0] |] eqn:Hv; [| reflexivity].
      apply (proj1 (parse_progress m)) in Hv.
      after_ws r0; [reflexivity |].
      destruct (Ascii.eqb _ "]"); [reflexivity |].
      destruct (Ascii.eqb _ ","); [| reflexivity].
      match goal with
      | |- context [parse_items n _ (skip_ws ?x)] =>
          pose proof (skip_ws_length x) as Hws1
      end.
      apply IHi; lia.
Qed.

(** [json.loads] is the decoder with any counter above twice the length
    of the input: where it answers [None] the input is not JSON, whatever
    the counter. *)
Lemma loads_any_counter (s : string) (fuel : nat) :
  2 * String.length s < fuel -> loads_with fuel s = loads s.
Proof.
  intros H. unfold loads, loads_with.
  pose proof (skip_ws_length s) as Hws.
  rewrite (proj1 (parse_stable fuel) (S (2 * String.length s)) (skip_ws s))
    by lia.
  reflexivity.
Qed.

End JsonFacts.

(* ===================================================================== *)
(** ** The trace and the object through the combinators *)
(* ===================================================================== *)

Section Effects.
Context {S : Type}.

Lemma emits_weaken {A : Type} (P Q : event -> bool) (c : M S A) :
  (forall e, P e = true -> Q e = true) -> emits P c -> emits Q c.
Proof.
  intros HPQ Hc s t. destruct (Hc s t) as (new & Heq & HP).
  exists new. split; [exact Heq |].
  rewrite forallb_forall in *. auto.
Qed.

Lemma emits_ret {A : Type} (P : event -> bool) (a : A) :
  emits P (@ret S A a).
Proof. intros s t. exists []. split; reflexivity. Qed.

Lemma emits_raise {A : Type} (P : event -> bool) (e : exn) :
  emits P (@raise S A e).
Proof. intros s t. exists []. split; reflexivity. Qed.

Lemma emits_lift {A : Type} (P : event -> bool) (r : result A) :
  emits P (@lift S A r).
Proof. intros s t. exists []. split; reflexivity. Qed.

Lemma emits_self (P : event -> bool) : emits P (@self S).
Proof. intros s t. exists []. split; reflexivity. Qed.

Lemma emits_history (P : event -> bool) : emits P (@history S).
Proof. intros s t. exists []. split; reflexivity. Qed.

Lemma emits_update (P : event -> bool) (f : S -> S) : emits P (update f).
Proof. intros s t. exists []. split; reflexivity. Qed.

Lemma emits_emit (P : event -> bool) (e : event) :
  P e = true -> emits P (@emit S e).
Proof.
  intros He s t. exists [e]. split; [reflexivity |].
  cbn. rewrite He. reflexivity.
Qed.

Lemma emits_bind {A B : Type} (P : event -> bool) (c : M S A)
  (k : A -> M S B) :
  emits P c -> (forall a, emits P (k a)) -> emits P (bind c k).
Proof.
  intros Hc Hk s t. unfold bind.
  destruct (Hc s t) as (new & Heq & HP).
  destruct (c s t) as [[[a | e] s'] t']; cbn [snd] in Heq; subst t'.
  - destruct (Hk a s' (new ++ t)%list) as (new' & Heq' & HP').
    exists (new' ++ new)%list. split.
    + rewrite Heq'. apply List.app_assoc.
    + rewrite forallb_app, HP, HP'. reflexivity.
  - exists new. split; [reflexivity | exact HP].
Qed.

Lemma emits_try {A : Type} (P : event -> bool) (body : M S A)
  (handler : exn -> option (M S A)) :
  emits P body ->
  (forall e h, handler e = Some h -> emits P h) ->
  emits P (try_except body handler).
Proof.
  intros Hb Hh s t. unfold try_except.
  destruct (Hb s t) as (new & Heq & HP).
  destruct (body s t) as [[[a | e] s'] t']; cbn [snd] in Heq; subst t'.
  - exists new. split; [reflexivity | exact HP].
  - destruct (handler e) as [h |] eqn:He.
    + destruct (Hh e h He s' (new ++ t)%list) as (new' & Heq' & HP').
      exists (new' ++ new)%list. split.
      * rewrite Heq'. apply List.app_assoc.
      * rewrite forallb_app, HP, HP'. reflexivity.
    + exists new. split; [reflexivity | exact HP].
Qed.

Variable R : S -> S -> Prop.
Hypothesis R_refl : forall s, R s s.
Hypothesis R_trans : forall s1 s2 s3, R s1 s2 -> R s2 s3 -> R s1 s3.

Lemma relates_ret {A : Type} (a : A) : relates R (@ret S A a).
Proof. intros s t. apply R_refl. Qed.

Lemma relates_raise {A : Type} (e : exn) : relates R (@raise S A e).
Proof. intros s t. apply R_refl. Qed.

Lemma relates_lift {A : Type} (r : result A) : relates R (@lift S A r).
Proof. intros s t. apply R_refl. Qed.

Lemma relates_self : relates R (@self S).
Proof. intros s t. apply R_refl. Qed.

Lemma relates_history : relates R (@history S).
Proof. intros s t. apply R_refl. Qed.

Lemma relates_emit (e : event) : relates R (@emit S e).
Proof. intros s t. apply R_refl. Qed.

Lemma relates_update (f : S -> S) :
  (forall s, R s (f s)) -> relates R (update f).
Proof. intros Hf s t. apply Hf. Qed.

Lemma relates_bind {A B : Type} (c : M S A) (k : A -> M S B) :
  relates R c -> (forall a, relates R (k a)) -> relates R (bind c k).
Proof.
  intros Hc Hk s t. unfold bind. specialize (Hc s t).
  destruct (c s t) as [[[a | e] s'] t']; cbn [fst snd] in *.
  - apply (R_trans _ s'); [exact Hc | apply Hk].
  - exact Hc.
Qed.

Lemma relates_try {A : Type} (body : M S A)
  (handler : exn -> option (M S A)) :
  relates R body ->
  (forall e h, handler e = Some h -> relates R h) ->
  relates R (try_except body handler).
Proof.
  intros Hb Hh s t. unfold try_except. specialize (Hb s t).
  destruct (body s t) as [[[a | e] s'] t']; cbn [fst snd] in *.
  - exact Hb.
  - destruct (handler e) as [h |] eqn:He.
    + apply (R_trans _ s'); [exact Hb | apply (Hh e h He)].
    + exact Hb.
Qed.

End Effects.

(** One step through a computation, for either property. *)
Ltac handler_cases :=
  let e := fresh "e" in
  let h := fresh "h" in
  let H := fresh "H" in
  intros e h H; destruct e; try discriminate H; inversion H; subst; clear H.

Create HintDb effects discriminated.

Ltac emits_auto :=
  repeat first
    [ solve [auto 1 with effects]
    | apply emits_ret | apply emits_raise | apply emits_lift
    | apply emits_self | apply emits_history | apply emits_update
    | apply emits_emit; reflexivity
    | apply emits_bind; [| intros ?]
    | apply emits_try; [| handler_cases]
    | match goal with
      | |- emits _ (if ?b then _ else _) => destruct b
      | |- emits _ (match ?x with _ => _ end) => destruct x
      | |- emits _ (let '(_, _) := ?x in _) => destruct x
      end ].

(* ===================================================================== *)
(** ** What each step does to the trace *)
(* ===================================================================== *)

Lemma cli_event_step_event (e : event) :
  cli_event e = true -> step_event e = true.
Proof. destruct e; cbn; auto. Qed.

Lemma step_event_run_event (e : event) :
  step_event e = true -> run_event e = true.
Proof. destruct e; cbn; auto. Qed.

Lemma runCommands_emits :
  forall (S : Type) (w : World) (cli : CliManager) (cmdList : list string),
    emits cli_event (@runCommands w S cli cmdList).
Proof.
  intros S w cli cmdList.
  unfold runCommands, log, check_output. emits_auto.
Qed.

#[local] Hint Resolve runCommands_emits : effects.

Lemma tryImageUpgrade_emits :
  forall (S : Type) (w : World) (cfg : Config) (e : exn),
    emits cli_event (@tryImageUpgrade w cfg S e).
Proof.
  intros S w cfg e.
  unfold tryImageUpgrade, CliManager_init, confidenceCheck, log.
  emits_auto.
Qed.

Lemma tryImageUpgrade_emits_step :
  forall (S : Type) (w : World) (cfg : Config) (e : exn),
    emits step_event (@tryImageUpgrade w cfg S e).
Proof.
  intros S w cfg e.
  apply (emits_weaken _ _ _ cli_event_step_event), tryImageUpgrade_emits.
Qed.

#[local] Hint Resolve tryImageUpgrade_emits_step : effects.

Lemma getClientCerficates_emits :
  forall (w : World) (cfg : Config),
    emits step_event (getClientCerficates w cfg).
Proof.
  intros w cfg.
  unfold getClientCerficates, write_file, check_output, log.
  emits_auto.
Qed.

Lemma getCertificatePaths_emits :
  forall w : World, emits step_event (getCertificatePaths w).
Proof.
  intros w.
  unfold getCertificatePaths, check_output, json_loads, log, print.
  emits_auto.
Qed.

Lemma getKeyValueFromFile_emits :
  forall (S : Type) (w : World) (filename key : string),
    emits step_event (@getKeyValueFromFile w S filename key).
Proof.
  intros S w filename key. unfold getKeyValueFromFile. emits_auto.
Qed.

#[local] Hint Resolve getKeyValueFromFile_emits : effects.

Lemma getBootstrapScript_emits :
  forall (w : World) (cfg : Config),
    emits step_event (getBootstrapScript w cfg).
Proof.
  intros w cfg.
  unfold getBootstrapScript, geturl_of, requests_get, raise_for_status,
    write_file, log.
  emits_auto.
Qed.

Lemma executeBootstrap_emits :
  forall (w : World) (cfg : Config),
    emits run_event (executeBootstrap w cfg).
Proof.
  intros w cfg.
  unfold executeBootstrap, handleSigterm, check_output, log.
  emits_auto.
Qed.

Lemma checkWithRedirector_emits :
  forall (w : World) (cfg : Config),
    emits redirector_event (checkWithRedirector w cfg).
Proof.
  intros w cfg.
  unfold checkWithRedirector, requests_post, raise_for_status, json_loads,
    log.
  emits_auto.
Qed.

(* ===================================================================== *)
(** ** What each step does to the manager *)
(* ===================================================================== *)

Lemma same_but_credential_refl (m : Manager) : same_but_credential m m.
Proof. unfold same_but_credential. repeat split. Qed.

Lemma same_but_credential_trans (m1 m2 m3 : Manager) :
  same_but_credential m1 m2 -> same_but_credential m2 m3 ->
  same_but_credential m1 m3.
Proof.
  unfold same_but_credential.
  intros (A1 & A2 & A3 & A4 & A5 & A6 & A7) (B1 & B2 & B3 & B4 & B5 & B6 & B7).
  repeat split; congruence.
Qed.

Lemma same_but_credential_eq (m m' : Manager) :
  m = m' -> same_but_credential m m'.
Proof. intros ->. apply same_but_credential_refl. Qed.

Lemma eq_trans3 {S : Type} (s1 s2 s3 : S) : s1 = s2 -> s2 = s3 -> s1 = s3.
Proof. congruence. Qed.

#[local] Hint Resolve same_but_credential_refl same_but_credential_trans
  eq_trans3 : effects.

Ltac rel_side := solve [intros; reflexivity | eauto 2 with effects].

Ltac relates_auto :=
  repeat first
    [ solve [auto 1 with effects]
    | apply relates_ret; rel_side | apply relates_raise; rel_side
    | apply relates_lift; rel_side | apply relates_self; rel_side
    | apply relates_history; rel_side | apply relates_emit; rel_side
    | apply relates_update;
      intros ?; unfold same_but_credential; repeat split
    | apply relates_bind; [rel_side | | intros ?]
    | apply relates_try; [rel_side | | handler_cases]
    | match goal with
      | |- relates _ (if ?b then _ else _) => destruct b
      | |- relates _ (match ?x with _ => _ end) => destruct x
      | |- relates _ (let '(_, _) := ?x in _) => destruct x
      end ].

Lemma runCommands_keeps :
  forall (S : Type) (w : World) (cli : CliManager) (cmdList : list string),
    relates eq (@runCommands w S cli cmdList).
Proof.
  intros S w cli cmdList.
  unfold runCommands, log, check_output. relates_auto.
Qed.

#[local] Hint Resolve runCommands_keeps : effects.

Lemma tryImageUpgrade_keeps :
  forall (S : Type) (w : World) (cfg : Config) (e : exn),
    relates eq (@tryImageUpgrade w cfg S e).
Proof.
  intros S w cfg e.
  unfold tryImageUpgrade, CliManager_init, confidenceCheck, log.
  relates_auto.
Qed.

#[local] Hint Resolve tryImageUpgrade_keeps : effects.

Lemma getClientCerficates_keeps :
  forall (w : World) (cfg : Config),
    relates eq (getClientCerficates w cfg).
Proof.
  intros w cfg.
  unfold getClientCerficates, write_file, check_output, log.
  relates_auto.
Qed.

Lemma getKeyValueFromFile_keeps :
  forall (S : Type) (w : World) (filename key : string),
    relates eq (@getKeyValueFromFile w S filename key).
Proof.
  intros S w filename key. unfold getKeyValueFromFile. relates_auto.
Qed.

#[local] Hint Resolve getKeyValueFromFile_keeps : effects.

Lemma getBootstrapScript_keeps :
  forall (w : World) (cfg : Config),
    relates eq (getBootstrapScript w cfg).
Proof.
  intros w cfg.
  unfold getBootstrapScript, geturl_of, requests_get, raise_for_status,
    write_file, log.
  relates_auto.
Qed.

Lemma executeBootstrap_keeps :
  forall (w : World) (cfg : Config),
    relates eq (executeBootstrap w cfg).
Proof.
  intros w cfg.
  unfold executeBootstrap, handleSigterm, check_output, log.
  relates_auto.
Qed.

Lemma getCertificatePaths_credential_only :
  forall w : World, relates same_but_credential (getCertificatePaths w).
Proof.
  intros w.
  unfold getCertificatePaths, check_output, json_loads, log, print.
  relates_auto.
Qed.

Lemma relates_eq_credential {A : Type} (c : M Manager A) :
  relates eq c -> relates same_but_credential c.
Proof.
  intros H s t. apply same_but_credential_eq, H.
Qed.

(* ===================================================================== *)
(** ** The start of the script *)
(* ===================================================================== *)











Lemma prelude_emits :
  forall (w : World) (cfg : Config), emits run_event (prelude w cfg).
Proof.
  intros w cfg.
  assert (Hup : forall e : exn,
             emits run_event (@tryImageUpgrade w cfg unit e)).
  { intros e. apply (emits_weaken cli_event); [| apply tryImageUpgrade_emits].
    intros ev. destruct ev; cbn; auto. }
  unfold prelude, top_imports, import_fallback, import_module, execl, log.
  emits_auto.
Qed.





Example missing_input_after_upgrade_run :
  let p := process (without_modules (Sample.device 0)
                      (fun name => String.eqb name "requests"))
             (mkConfig EmptyString "abc.def.ghi" EmptyString
                "http://10.0.0.9/EOS.swi") in
  fst p = 1%Z
  /\ shell_cmds (snd p)
     = ["echo -e 'enable" ++ Sample.nl
        ++ "install source http://10.0.0.9/EOS.swi destination "
        ++ "flash:/EOS.swi' | /usr/bin/FastCli";
        "echo -e 'enable" ++ Sample.nl
        ++ "reload all now' | /usr/bin/FastCli"].
Proof. vm_compute. split; reflexivity. Qed.

(* ===================================================================== *)
(** ** The workflow as a whole *)
(* ===================================================================== *)

Lemma emits_call {S A : Type} (P : event -> bool) (obj : S) (c : M S A) :
  emits P c -> emits P (call obj c).
Proof.
  intros Hc [] t. unfold call. destruct (Hc obj t) as (new & Heq & HP).
  destruct (c obj t) as [[r s'] t']. cbn [snd] in *.
  exists new. split; [exact Heq | exact HP].
Qed.

Lemma run_emits :
  forall (w : World) (cfg : Config), emits run_event (run w cfg).
Proof.
  intros w cfg. unfold run.
  pose proof (emits_weaken _ _ _ step_event_run_event
                (getClientCerficates_emits w cfg)) as H1.
  pose proof (emits_weaken _ _ _ step_event_run_event
                (getCertificatePaths_emits w)) as H2.
  pose proof (emits_weaken _ _ _ step_event_run_event
                (getBootstrapScript_emits w cfg)) as H3.
  pose proof (executeBootstrap_emits w cfg) as H4.
  repeat (apply emits_bind; [assumption | intros _]). exact H4.
Qed.

Lemma construct_manager_emits :
  forall (w : World) (cfg : Config),
    emits run_event (construct_manager w cfg).
Proof.
  intros w cfg.
  unfold construct_manager, CloudBootstrapManager_init,
    OnPremBootstrapManager_init, BootstrapManager_init.
  emits_auto.
Qed.

Lemma main_emits :
  forall (w : World) (cfg : Config), emits run_event (main w cfg).
Proof.
  intros w cfg. unfold main, setupLogger, print, log.
  pose proof (construct_manager_emits w cfg) as Hc.
  pose proof (run_emits w cfg) as Hr.
  apply emits_bind.
  { destruct (syslog_up w);
      [apply emits_ret | apply emits_emit; reflexivity]. }
  intros _.
  apply emits_bind; [apply emits_emit; reflexivity | intros _].
  destruct (String.eqb (cvAddr cfg) EmptyString).
  - apply emits_bind; [apply emits_emit; reflexivity | intros _].
    apply emits_raise.
  - destruct (String.eqb (enrollmentToken cfg) EmptyString).
    + apply emits_raise.
    + apply emits_bind; [exact Hc | intros bm].
      apply emits_call, Hr.
Qed.

Lemma script_emits :
  forall (w : World) (cfg : Config), emits run_event (script w cfg).
Proof.
  intros w cfg. unfold script.
  apply emits_bind; [apply prelude_emits |].
  intros [|]; apply main_emits.
Qed.

Lemma process_emits :
  forall (w : World) (cfg : Config),
    forallb run_event (snd (process w cfg)) = true.
Proof.
  intros w cfg. unfold process.
  destruct (script_emits w cfg tt []) as (new & Heq & HP).
  destruct (script w cfg tt []) as [[r u] t]. cbn [snd] in *.
  rewrite Heq, List.app_nil_r. exact HP.
Qed.

(** X1: the script never sends a POST request, whatever the configuration
    and the outside world: every event of a run of the whole script, from
    its imports to its end, is a message, a shell command, a file written,
    a GET request, the start of the fetched script or the replacement of
    the process.  So the redirector, which is asked by POST, is not
    consulted by the workflow. *)
Theorem process_never_posts :
  forall (w : World) (cfg : Config),
    forallb run_event (snd (process w cfg)) = true.
Proof. exact process_emits. Qed.

Lemma run_keeps_but_credential :
  forall (w : World) (cfg : Config),
    relates same_but_credential (run w cfg).
Proof.
  intros w cfg. unfold run.
  pose proof (relates_eq_credential _ (getClientCerficates_keeps w cfg))
    as H1.
  pose proof (getCertificatePaths_credential_only w) as H2.
  pose proof (relates_eq_credential _ (getBootstrapScript_keeps w cfg))
    as H3.
  pose proof (relates_eq_credential _ (executeBootstrap_keeps w cfg))
    as H4.
  repeat (apply relates_bind;
          [exact same_but_credential_trans | assumption | intros _]).
  exact H4.
Qed.

(** X2: [run] changes nothing of the manager but the certificate and the
    key: class, bootstrap URL, redirector URL, token type and enrollment
    address after the run, however it ends, are those before it. *)
Theorem run_changes_credential_only :
  forall (w : World) (cfg : Config) (m : Manager) (t : trace),
    same_but_credential m (snd (fst (run w cfg m t))).
Proof.
  intros w cfg m t. exact (run_keeps_but_credential w cfg m t).
Qed.

(** C9: a run of the cloud deployment has no redirector step.  For every
    address that contains [arista.io] the [__main__] block runs the cloud
    constructor, and the manager it returns carries the secure token type,
    a redirector URL and no enrollment address yet: step 0 is what would
    assign one.  But [run] goes from step 1 to step 3.2 and does not call
    [checkWithRedirector]: the whole process sends no POST request, and a
    manager without an enrollment address still has none when [run]
    ends. *)
Theorem cloud_run_has_no_redirector_step :
  forall (w : World) (cfg : Config),
    contains (cvAddr cfg) "arista.io" ->
    (forall t : trace,
        construct_manager w cfg tt t = CloudBootstrapManager_init w cfg tt t)
    /\ (forall (bm : Manager) (t t' : trace),
          construct_manager w cfg tt t = (Ok bm, tt, t') ->
          class bm = CloudBootstrapManager
          /\ tokenType bm = Some SECURE_TOKEN
          /\ redirectorURL bm <> None
          /\ enrollAddr bm = None
          /\ forall t1 : trace,
               enrollAddr (snd (fst (run w cfg bm t1))) = None)
    /\ forallb run_event (snd (process w cfg)) = true.
Proof.
  intros w cfg Hc.
  assert (Hsel : forall t : trace,
             construct_manager w cfg tt t
             = CloudBootstrapManager_init w cfg tt t).
  { intros t. unfold construct_manager.
    apply find_iff_contains in Hc. destruct Hc as [i ->]. reflexivity. }
  split; [exact Hsel |]. split; [| apply process_emits].
  intros bm t t' Hbm. rewrite Hsel in Hbm.
  destruct (CloudBootstrapManager_init_fields _ _ _ _ _ Hbm)
    as (u & _ & Hclass & _ & Hred & Htok & Haddr).
  split; [exact Hclass |]. split; [exact Htok |].
  split; [rewrite Hred; discriminate |]. split; [exact Haddr |].
  intros t1.
  destruct (run_keeps_but_credential w cfg bm t1)
    as (_ & _ & _ & _ & H & _).
  now rewrite H.
Qed.

Lemma cloud_run_has_no_redirector_step_witness :
  construct_manager (Sample.device 0) Sample.cloud_config tt []
  = (Ok Sample.cloud_manager, tt, [])
  /\ redirectorURL Sample.cloud_manager <> None
  /\ enrollAddr
       (snd (fst (run (Sample.device 0) Sample.cloud_config
                    Sample.cloud_manager [])))
     = None
  /\ forallb run_event
       (snd (process (Sample.device 0) Sample.cloud_config)) = true
  /\ shell_cmds (snd (process (Sample.device 0) Sample.cloud_config))
     = ["timeout 60s /usr/bin/TerminAttr -cvauth token-secure,"
        ++ "/tmp/token.tok -cvaddr None -enrollonly";
        "timeout 60s /usr/bin/TerminAttr -cvaddr None -certsconfig"].
Proof.
  destruct (cloud_run_has_no_redirector_step (Sample.device 0)
              Sample.cloud_config) as (_ & Hbm & Hpost).
  { exists "apiserver.", EmptyString. reflexivity. }
  destruct (Hbm Sample.cloud_manager [] [] eq_refl)
    as (_ & _ & Hred & _ & Hrun).
  split; [reflexivity |]. split; [exact Hred |].
  split; [exact (Hrun []) |]. split; [exact Hpost |].
  vm_compute. reflexivity.
Defined.

(* ===================================================================== *)
(** ** Reading a key from a file *)
(* ===================================================================== *)

Section FileFacts.
Import PyStr.

Lemma space_of_LF (c : ascii) : Ascii.eqb c LF = true -> is_space c = true.
Proof. intros H. apply Ascii.eqb_eq in H. subst c. reflexivity. Qed.

Lemma not_LF_of_not_space (c : ascii) :
  is_space c = false -> Ascii.eqb c LF = false.
Proof.
  intros H. destruct (Ascii.eqb c LF) eqn:E; [| reflexivity].
  apply space_of_LF in E. congruence.
Qed.

Lemma string_app_empty_r (s : string) : s ++ EmptyString = s.
Proof. induction s as [| c s IH]; cbn; [reflexivity | now rewrite IH]. Qed.

(** *** Lines *)

Lemma readlines_nonempty (c : ascii) (s : string) :
  readlines (String c s) <> [].
Proof.
  cbn [readlines]. destruct (Ascii.eqb c LF); [discriminate |].
  destruct (readlines s); discriminate.
Qed.

(** A text without a line feed, followed by a line feed, is one line. *)
Lemma readlines_line (line rest : string) :
  has_char LF line = false ->
  readlines (line ++ String LF rest)
  = (line ++ String LF EmptyString) :: readlines rest.
Proof.
  induction line as [| c line IH]; intros H.
  - cbn. reflexivity.
  - cbn [has_char] in H. apply orb_false_elim in H. destruct H as [Hc H].
    cbn [append readlines]. rewrite Ascii.eqb_sym in Hc. rewrite Hc.
    rewrite (IH H). reflexivity.
Qed.

(** A last line without a line feed. *)
Lemma readlines_step (c : ascii) (s : string) :
  readlines (String c s)
  = if Ascii.eqb c LF then String c EmptyString :: readlines s
    else match readlines s with
         | [] => [String c EmptyString]
         | l :: ls => String c l :: ls
         end.
Proof. reflexivity. Qed.

Lemma readlines_last (c : ascii) (line : string) :
  has_char LF (String c line) = false ->
  readlines (String c line) = [String c line].
Proof.
  revert c. induction line as [| d line IH]; intros c H.
  - cbn [has_char] in H. apply orb_false_elim in H. destruct H as [Hc _].
    rewrite readlines_step. rewrite Ascii.eqb_sym in Hc. rewrite Hc.
    reflexivity.
  - cbn [has_char] in H. apply orb_false_elim in H. destruct H as [Hc H].
    rewrite readlines_step. rewrite Ascii.eqb_sym in Hc. rewrite Hc.
    rewrite (IH d H). reflexivity.
Qed.

(** Complete lines split off. *)
Lemma readlines_app (p x : string) :
  readlines ((p ++ String LF EmptyString) ++ x)
  = (readlines (p ++ String LF EmptyString) ++ readlines x)%list.
Proof.
  induction p as [| c p IH].
  - cbn. reflexivity.
  - cbn [append readlines]. destruct (Ascii.eqb c LF).
    + fold (readlines ((p ++ String LF EmptyString) ++ x)).
      fold (readlines (p ++ String LF EmptyString)).
      rewrite IH. reflexivity.
    + fold (readlines ((p ++ String LF EmptyString) ++ x)).
      fold (readlines (p ++ String LF EmptyString)).
      rewrite IH.
      destruct (readlines (p ++ String LF EmptyString)) as [| l ls] eqn:E.
      * exfalso. destruct p; cbn in E.
        -- discriminate.
        -- revert E. apply readlines_nonempty.
      * reflexivity.
Qed.

(** The lines, put together, are the text. *)
Lemma readlines_concat (s : string) :
  fold_right append EmptyString (readlines s) = s.
Proof.
  induction s as [| c s IH]; [reflexivity |].
  cbn [readlines]. destruct (Ascii.eqb c LF).
  - cbn. now rewrite IH.
  - destruct (readlines s) as [| l ls] eqn:E.
    + destruct s; [reflexivity |].
      exfalso. revert E. apply readlines_nonempty.
    + cbn in IH |- *. now rewrite IH.
Qed.

Lemma in_concat (x : string) (l : list string) :
  In x l -> contains (fold_right append EmptyString l) x.
Proof.
  induction l as [| y l IH]; intros Hin; [destruct Hin |].
  destruct Hin as [-> | Hin].
  - exists EmptyString, (fold_right append EmptyString l). reflexivity.
  - destruct (IH Hin) as (p & q & Hpq).
    exists (y ++ p), q. cbn. rewrite Hpq. now rewrite app_assoc.
Qed.

(** Every line is a piece of the text. *)
Lemma readlines_contains (s line : string) :
  In line (readlines s) -> contains s line.
Proof.
  intros Hin. apply in_concat in Hin. now rewrite readlines_concat in Hin.
Qed.

Lemma contains_trans (s x y : string) :
  contains s x -> contains x y -> contains s y.
Proof.
  intros (p & q & ->) (p' & q' & ->).
  exists (p ++ p'), (q' ++ q). now rewrite !app_assoc.
Qed.

Lemma find_none_iff (sub s : string) :
  find sub s = None <-> ~ contains s sub.
Proof.
  split.
  - intros H Hc. apply find_iff_contains in Hc. destruct Hc as [i Hi].
    congruence.
  - intros H. destruct (find sub s) as [i |] eqn:E; [| reflexivity].
    exfalso. apply H, find_iff_contains. now exists i.
Qed.

(** *** The loop over the lines *)

(** Lines without the key are passed over. *)
Lemma value_of_key_skip (key : string) (l1 l2 : list string) :
  (forall line, In line l1 -> find key line = None) ->
  value_of_key key (l1 ++ l2)%list = value_of_key key l2.
Proof.
  induction l1 as [| x l1 IH]; intros H; [reflexivity |].
  cbn [List.app value_of_key]. rewrite (H x (or_introl eq_refl)).
  apply IH. intros line Hin. apply H. now right.
Qed.

Lemma value_of_key_absent (key s : string) :
  find key s = None -> value_of_key key (readlines s) = Ok None.
Proof.
  intros H.
  rewrite <- (List.app_nil_r (readlines s)), value_of_key_skip.
  - reflexivity.
  - intros line Hin. apply find_none_iff. intros Hc.
    apply find_none_iff in H. apply H.
    apply (contains_trans s line key); [| exact Hc].
    now apply readlines_contains.
Qed.

Lemma split_char_no_sep (c : ascii) (s : string) :
  has_char c s = false -> split_char c s = [s].
Proof.
  induction s as [| d s IH]; intros H; [reflexivity |].
  cbn [has_char] in H. apply orb_false_elim in H. destruct H as [Hc H].
  cbn [split_char]. rewrite Hc, (IH H). reflexivity.
Qed.

Lemma split_char_first (c : ascii) (a b : string) :
  has_char c a = false ->
  split_char c (a ++ String c b) = a :: split_char c b.
Proof.
  induction a as [| d a IH]; intros H.
  - cbn. now rewrite Ascii.eqb_refl.
  - cbn [has_char] in H. apply orb_false_elim in H. destruct H as [Hc H].
    cbn [append split_char]. rewrite Hc, (IH H). reflexivity.
Qed.

Lemma rstrip_char_keep (c : ascii) (v : string) :
  has_char c v = false -> rstrip_char c v = v.
Proof.
  induction v as [| d v IH]; intros H; [reflexivity |].
  cbn [has_char] in H. apply orb_false_elim in H. destruct H as [Hc H].
  cbn [rstrip_char]. rewrite (IH H). destruct v; [| reflexivity].
  now rewrite Hc.
Qed.

Lemma rstrip_char_one (c : ascii) (v : string) :
  has_char c v = false -> rstrip_char c (v ++ String c EmptyString) = v.
Proof.
  induction v as [| d v IH]; intros H.
  - cbn. now rewrite Ascii.eqb_refl.
  - cbn [has_char] in H. apply orb_false_elim in H. destruct H as [Hc H].
    cbn [append rstrip_char]. rewrite (IH H). destruct v; [| reflexivity].
    now rewrite Hc.
Qed.

(** The line [key=v], with or without its line feed, gives [v]. *)
Lemma value_of_key_here (key v eol : string) (rest : list string) :
  has_char "=" key = false ->
  has_char "=" v = false ->
  has_char LF v = false ->
  eol = EmptyString \/ eol = String LF EmptyString ->
  value_of_key key ((key ++ String "=" (v ++ eol)) :: rest) = Ok (Some v).
Proof.
  intros Hk Hv Hlf Heol. cbn [value_of_key].
  assert (Hfind : exists i, find key (key ++ String "=" (v ++ eol)) = Some i).
  { apply find_iff_contains. exists EmptyString. eexists. reflexivity. }
  destruct Hfind as [i ->].
  rewrite (split_char_first "=" key _ Hk).
  assert (Heq : has_char "=" (v ++ eol) = false).
  { rewrite has_char_app, Hv. destruct Heol as [-> | ->]; reflexivity. }
  rewrite (split_char_no_sep "=" _ Heq).
  destruct Heol as [-> | ->].
  - rewrite string_app_empty_r, (rstrip_char_keep _ _ Hlf). reflexivity.
  - rewrite (rstrip_char_one _ _ Hlf). reflexivity.
Qed.

End FileFacts.

Section FirstWord.
Import PyStr.

Lemma readline_step (c : ascii) (s : string) :
  readline (String c s)
  = if Ascii.eqb c LF then String c EmptyString
    else String c (readline s).
Proof. reflexivity. Qed.

Lemma first_word_step (c : ascii) (s : string) :
  first_word (String c s)
  = if is_space c then first_word s
    else Ok (fst (span (fun d => negb (is_space d)) (String c s))).
Proof. reflexivity. Qed.

(** Leading blanks of the first line are passed over. *)
Lemma first_word_skip (pad x : string) :
  forallb is_space pad = true ->
  has_char LF pad = false ->
  first_word (readline (pad ++ x)) = first_word (readline x).
Proof.
  induction pad as [| c pad IH]; intros Hsp Hlf; [reflexivity |].
  cbn [forallb] in Hsp. apply andb_prop in Hsp. destruct Hsp as [Hc Hsp].
  cbn [has_char] in Hlf. apply orb_false_elim in Hlf.
  destruct Hlf as [Hlc Hlf].
  cbn [append]. rewrite readline_step.
  rewrite Ascii.eqb_sym in Hlc. rewrite Hlc.
  rewrite first_word_step, Hc. apply IH; assumption.
Qed.

(** The word ends where the first blank or the text ends. *)
Lemma span_word (word rest : string) :
  forallb (fun d => negb (is_space d)) word = true ->
  rest = EmptyString
  \/ (exists (d : ascii) (r : string),
        rest = String d r /\ is_space d = true) ->
  fst (span (fun d => negb (is_space d)) (readline (word ++ rest))) = word.
Proof.
  intros Hw Hrest. induction word as [| c word IH].
  - cbn [append]. destruct Hrest as [-> | (d & r & -> & Hd)];
      [reflexivity |].
    rewrite readline_step.
    destruct (Ascii.eqb d LF); cbn [span]; rewrite Hd; reflexivity.
  - cbn [forallb] in Hw. apply andb_prop in Hw. destruct Hw as [Hc Hw].
    cbn [append]. rewrite readline_step.
    rewrite (not_LF_of_not_space c);
      [| now apply negb_true_iff in Hc].
    cbn [span]. rewrite Hc.
    specialize (IH Hw).
    destruct (span (fun d => negb (is_space d)) (readline (word ++ rest)))
      as [a b].
    cbn [fst] in *. now rewrite IH.
Qed.

Lemma first_word_of_line (pad word rest : string) :
  forallb is_space pad = true ->
  has_char LF pad = false ->
  word <> EmptyString ->
  forallb (fun d => negb (is_space d)) word = true ->
  rest = EmptyString
  \/ (exists (d : ascii) (r : string),
        rest = String d r /\ is_space d = true) ->
  first_word (readline (pad ++ word ++ rest)) = Ok word.
Proof.
  intros Hpad Hlf Hne Hw Hrest.
  rewrite (first_word_skip pad _ Hpad Hlf).
  destruct word as [| c word]; [contradiction |].
  pose proof (span_word (String c word) rest Hw Hrest) as Hspan.
  cbn [forallb] in Hw. apply andb_prop in Hw. destruct Hw as [Hc _].
  apply negb_true_iff in Hc.
  cbn [append] in Hspan |- *. rewrite readline_step in Hspan |- *.
  rewrite (not_LF_of_not_space c Hc) in Hspan |- *.
  rewrite first_word_step, Hc. now rewrite Hspan.
Qed.

(** A first line of blanks only has no first word. *)
Lemma first_word_blank (pad rest : string) :
  forallb is_space pad = true ->
  has_char LF pad = false ->
  rest = EmptyString
  \/ (exists r : string, rest = String LF r) ->
  first_word (readline (pad ++ rest)) = Raise IndexError.
Proof.
  intros Hpad Hlf Hrest.
  rewrite (first_word_skip pad _ Hpad Hlf).
  destruct Hrest as [-> | (r & ->)]; reflexivity.
Qed.

End FirstWord.

(** X3: the value of a key.  When the file holds the line [key=v] after
    complete lines in which the key does not occur, the key and the value
    holding no equals sign and no line feed, [getKeyValueFromFile] returns
    [v]: the text after the equals sign without the line feed, whether the
    line is the last one without a line feed or not.  Nothing is logged
    and no exception is raised. *)
Theorem getKeyValueFromFile_finds_value :
  forall (S : Type) (w : World) (filename key pre v tail : string)
         (s : S) (t : trace),
    key <> EmptyString ->
    PyStr.has_char "=" key = false ->
    PyStr.has_char PyStr.LF key = false ->
    PyStr.has_char "=" v = false ->
    PyStr.has_char PyStr.LF v = false ->
    pre = EmptyString
    \/ (exists p : string, pre = p ++ String PyStr.LF EmptyString) ->
    PyStr.find key pre = None ->
    tail = EmptyString
    \/ (exists rest : string, tail = String PyStr.LF rest) ->
    file_content w filename = Some (pre ++ key ++ String "=" (v ++ tail)) ->
    getKeyValueFromFile w filename key s t = (Ok (Some v), s, t).
Proof.
  intros S w filename key pre v tail s t Hne Hk Hkl Hv Hvl Hpre Hfind Htail
    Hfile.
  unfold getKeyValueFromFile. rewrite Hfile.
  unfold truthy. rewrite (eqb_nonempty _ Hne). cbn [negb].
  unfold lift. f_equal. f_equal.
  assert (Hline :
            PyStr.has_char PyStr.LF (key ++ String "=" v) = false).
  { rewrite has_char_app, Hkl. cbn [PyStr.has_char orb].
    rewrite Hvl. reflexivity. }
  assert (Hlines :
            exists (eol : string) (rest : list string),
              (eol = EmptyString \/ eol = String PyStr.LF EmptyString)
              /\ readlines (key ++ String "=" (v ++ tail))
                 = (key ++ String "=" (v ++ eol)) :: rest).
  { destruct Htail as [-> | (rest & ->)].
    - exists EmptyString, []. split; [now left |].
      rewrite string_app_empty_r.
      destruct key as [| c key]; [contradiction |].
      apply (readlines_last c (key ++ String "=" v)). exact Hline.
    - exists (String PyStr.LF EmptyString), (readlines rest).
      split; [now right |].
      pose proof (readlines_line (key ++ String "=" v) rest Hline) as H.
      rewrite (app_assoc key (String "=" v) (String PyStr.LF rest)) in H.
      cbn [append] in H.
      rewrite !app_assoc in H. exact H. }
  destruct Hlines as (eol & rest & Heol & Hlines).
  destruct Hpre as [-> | (p & ->)].
  - cbn [append]. rewrite Hlines.
    apply value_of_key_here; assumption.
  - rewrite readlines_app, Hlines, value_of_key_skip.
    + apply value_of_key_here; assumption.
    + intros line Hin. apply find_none_iff. intros Hc.
      apply find_none_iff in Hfind. apply Hfind.
      apply (contains_trans _ line key); [| exact Hc].
      now apply readlines_contains.
Qed.

Lemma getKeyValueFromFile_finds_value_witness :
  getKeyValueFromFile (Sample.device 0) "/etc/swi-version" "SWI_ARCH"
    tt []
  = (Ok (Some "i386"), tt, []).
Proof.
  apply (getKeyValueFromFile_finds_value unit (Sample.device 0)
           "/etc/swi-version" "SWI_ARCH"
           ("SWI_VERSION=4.27.0F" ++ Sample.nl) "i386" Sample.nl tt []).
  - discriminate.
  - reflexivity.
  - reflexivity.
  - reflexivity.
  - reflexivity.
  - right. exists "SWI_VERSION=4.27.0F". reflexivity.
  - reflexivity.
  - right. exists EmptyString. reflexivity.
  - reflexivity.
Defined.

(** The first line of a text that starts with a non-empty line. *)
Lemma readlines_first_line (line tail : string) :
  line <> EmptyString ->
  PyStr.has_char PyStr.LF line = false ->
  tail = EmptyString
  \/ (exists rest : string, tail = String PyStr.LF rest) ->
  exists (eol : string) (rest : list string),
    (eol = EmptyString \/ eol = String PyStr.LF EmptyString)
    /\ readlines (line ++ tail) = (line ++ eol) :: rest.
Proof.
  intros Hne Hline [-> | (rest & ->)].
  - exists EmptyString, []. split; [now left |].
    rewrite string_app_empty_r.
    destruct line as [| c line]; [contradiction |].
    now apply readlines_last.
  - exists (String PyStr.LF EmptyString), (readlines rest).
    split; [now right |]. now apply readlines_line.
Qed.

(** X4: a key that occurs nowhere in the file has no value:
    [getKeyValueFromFile] returns [None], without an exception and without
    a message. *)
Theorem getKeyValueFromFile_absent_key :
  forall (S : Type) (w : World) (filename key content : string)
         (s : S) (t : trace),
    key <> EmptyString ->
    file_content w filename = Some content ->
    PyStr.find key content = None ->
    getKeyValueFromFile w filename key s t = (Ok None, s, t).
Proof.
  intros S w filename key content s t Hne Hfile Hfind.
  unfold getKeyValueFromFile. rewrite Hfile.
  unfold truthy. rewrite (eqb_nonempty _ Hne). cbn [negb].
  unfold lift. now rewrite (value_of_key_absent key content Hfind).
Qed.

Lemma getKeyValueFromFile_absent_key_witness :
  getKeyValueFromFile (Sample.device 0) "/etc/swi-version" "SWI_RELEASE"
    tt []
  = (Ok None, tt, []).
Proof.
  apply (getKeyValueFromFile_absent_key unit (Sample.device 0)
           "/etc/swi-version" "SWI_RELEASE"
           ("SWI_VERSION=4.27.0F" ++ Sample.nl ++ "SWI_ARCH=i386"
            ++ Sample.nl) tt []).
  - discriminate.
  - reflexivity.
  - reflexivity.
Defined.

(** X5: a line that holds the key but no equals sign is not passed over:
    when it comes after complete lines in which the key does not occur,
    [getKeyValueFromFile] ends with [IndexError], whatever the later lines
    hold. *)
Theorem getKeyValueFromFile_key_without_equals :
  forall (S : Type) (w : World) (filename key pre line tail : string)
         (s : S) (t : trace),
    key <> EmptyString ->
    pre = EmptyString
    \/ (exists p : string, pre = p ++ String PyStr.LF EmptyString) ->
    PyStr.find key pre = None ->
    contains line key ->
    PyStr.has_char "=" line = false ->
    PyStr.has_char PyStr.LF line = false ->
    tail = EmptyString
    \/ (exists rest : string, tail = String PyStr.LF rest) ->
    file_content w filename = Some (pre ++ line ++ tail) ->
    getKeyValueFromFile w filename key s t = (Raise IndexError, s, t).
Proof.
  intros S w filename key pre line tail s t Hne Hpre Hfind Hin Heq Hlf Htail
    Hfile.
  unfold getKeyValueFromFile. rewrite Hfile.
  unfold truthy. rewrite (eqb_nonempty _ Hne). cbn [negb].
  unfold lift. f_equal. f_equal.
  assert (Hline : line <> EmptyString).
  { intros ->. destruct Hin as (p & q & Hpq).
    destruct p; [| discriminate]. destruct key; [contradiction |].
    discriminate. }
  destruct (readlines_first_line line tail Hline Hlf Htail)
    as (eol & rest & Heol & Hlines).
  assert (Hhere : value_of_key key ((line ++ eol) :: rest)
                  = Raise IndexError).
  { cbn [value_of_key].
    assert (Hsome : exists i, PyStr.find key (line ++ eol) = Some i).
    { apply find_iff_contains.
      apply (contains_trans _ line key); [| exact Hin].
      exists EmptyString, eol. reflexivity. }
    destruct Hsome as [i ->].
    rewrite split_char_no_sep; [reflexivity |].
    rewrite has_char_app, Heq. destruct Heol as [-> | ->]; reflexivity. }
  destruct Hpre as [-> | (p & ->)].
  - cbn [append]. now rewrite Hlines.
  - rewrite readlines_app, Hlines, value_of_key_skip; [exact Hhere |].
    intros l Hl. apply find_none_iff. intros Hc.
    apply find_none_iff in Hfind. apply Hfind.
    apply (contains_trans _ l key); [| exact Hc].
    now apply readlines_contains.
Qed.

Lemma getKeyValueFromFile_key_without_equals_witness :
  getKeyValueFromFile (Sample.device 0) "/etc/arch" "386" tt []
  = (Raise IndexError, tt, []).
Proof.
  apply (getKeyValueFromFile_key_without_equals unit (Sample.device 0)
           "/etc/arch" "386" EmptyString "i386" Sample.nl tt []).
  - discriminate.
  - left. reflexivity.
  - reflexivity.
  - exists "i", EmptyString. reflexivity.
  - reflexivity.
  - reflexivity.
  - right. exists EmptyString. reflexivity.
  - reflexivity.
Defined.

(** X6: without a key, [getKeyValueFromFile] returns the first word of the
    first line: what stands between the leading blanks of the line and the
    next blank or the end of the file. *)
Theorem getKeyValueFromFile_first_word :
  forall (S : Type) (w : World) (filename pad word rest : string)
         (s : S) (t : trace),
    PyStr.forallb is_space pad = true ->
    PyStr.has_char PyStr.LF pad = false ->
    word <> EmptyString ->
    PyStr.forallb (fun d => negb (is_space d)) word = true ->
    rest = EmptyString
    \/ (exists (d : ascii) (r : string),
          rest = String d r /\ is_space d = true) ->
    file_content w filename = Some (pad ++ word ++ rest) ->
    getKeyValueFromFile w filename EmptyString s t = (Ok (Some word), s, t).
Proof.
  intros S w filename pad word rest s t Hpad Hlf Hne Hw Hrest Hfile.
  unfold getKeyValueFromFile. rewrite Hfile.
  cbn [truthy String.eqb negb].
  unfold bind, lift, ret.
  now rewrite (first_word_of_line pad word rest Hpad Hlf Hne Hw Hrest).
Qed.

Lemma getKeyValueFromFile_first_word_witness :
  getKeyValueFromFile (Sample.device 0) "/etc/arch" EmptyString tt []
  = (Ok (Some "i386"), tt, []).
Proof.
  apply (getKeyValueFromFile_first_word unit (Sample.device 0)
           "/etc/arch" EmptyString "i386" Sample.nl tt []).
  - reflexivity.
  - reflexivity.
  - discriminate.
  - reflexivity.
  - right. exists PyStr.LF, EmptyString. split; reflexivity.
  - reflexivity.
Defined.

(** X7: without a key, a file whose first line is empty or holds blanks
    only gives no word: [getKeyValueFromFile] ends with [IndexError]. *)
Theorem getKeyValueFromFile_blank_first_line :
  forall (S : Type) (w : World) (filename pad rest : string)
         (s : S) (t : trace),
    PyStr.forallb is_space pad = true ->
    PyStr.has_char PyStr.LF pad = false ->
    rest = EmptyString
    \/ (exists r : string, rest = String PyStr.LF r) ->
    file_content w filename = Some (pad ++ rest) ->
    getKeyValueFromFile w filename EmptyString s t
    = (Raise IndexError, s, t).
Proof.
  intros S w filename pad rest s t Hpad Hlf Hrest Hfile.
  unfold getKeyValueFromFile. rewrite Hfile.
  cbn [truthy String.eqb negb].
  unfold bind, lift, ret.
  now rewrite (first_word_blank pad rest Hpad Hlf Hrest).
Qed.

Lemma getKeyValueFromFile_blank_first_line_witness :
  getKeyValueFromFile
    (with_files (Sample.device 0) (fun _ => Some ("  " ++ Sample.nl)))
    "/etc/arch" EmptyString tt []
  = (Raise IndexError, tt, []).
Proof.
  apply (getKeyValueFromFile_blank_first_line unit
           (with_files (Sample.device 0) (fun _ => Some ("  " ++ Sample.nl)))
           "/etc/arch" "  " Sample.nl tt []).
  - reflexivity.
  - reflexivity.
  - right. exists EmptyString. reflexivity.
  - reflexivity.
Defined.

(* ===================================================================== *)
(** ** The CLI session *)
(* ===================================================================== *)

Section CliFacts.
Import PyStr.

Lemma contains_cons (d : ascii) (s sub : string) :
  contains (String d s) sub
  <-> String.prefix sub (String d s) = true \/ contains s sub.
Proof.
  split.
  - intros (p & q & H). destruct p as [| c p].
    + left. apply prefix_iff_app. exists q. exact H.
    + right. injection H as _ H. exists p, q. exact H.
  - intros [H | (p & q & H)].
    + apply prefix_iff_app in H. destruct H as [q H].
      exists EmptyString, q. exact H.
    + exists (String d p), q. cbn. now rewrite H.
Qed.

Lemma contains_empty (sub : string) :
  sub <> EmptyString -> ~ contains EmptyString sub.
Proof.
  intros Hne (p & q & H). destruct p; [| discriminate].
  destruct sub; [contradiction | discriminate].
Qed.

(** The first piece of [split] starts as the text does, and a later piece
    starts with a percent sign exactly when the text has one right after a
    line feed. *)
Lemma percent_line_cons (d : ascii) (x y : string) :
  percent_line (String d x) = percent_line (String d y).
Proof.
  unfold percent_line, startswith. cbn [String.prefix].
  destruct (ascii_dec "%" d); [| reflexivity]. destruct x, y; reflexivity.
Qed.

Lemma percent_line_LF (s : string) : percent_line (String LF s) = false.
Proof.
  unfold percent_line, startswith. cbn [String.prefix].
  destruct (ascii_dec "%" LF) as [H | H]; [discriminate H | reflexivity].
Qed.

Lemma percent_line_iff (s : string) :
  percent_line s = true <-> exists q : string, s = String "%" q.
Proof. unfold percent_line, startswith. apply prefix_iff_app. Qed.

Lemma split_char_percent (s : string) :
  exists (x : string) (l : list string),
    split_char LF s = x :: l
    /\ percent_line x = percent_line s
    /\ (existsb percent_line l = true
        <-> contains s (String LF "%")).
Proof.
  induction s as [| d s (x & l & Hsplit & Hfirst & Hrest)].
  - exists EmptyString, []. split; [reflexivity |].
    split; [reflexivity |]. split.
    + discriminate.
    + intros H. exfalso. revert H. apply contains_empty. discriminate.
  - cbn [split_char]. destruct (Ascii.eqb LF d) eqn:Ed.
    + apply Ascii.eqb_eq in Ed. subst d.
      exists EmptyString, (split_char LF s). split; [reflexivity |].
      split; [now rewrite percent_line_LF |].
      rewrite Hsplit. cbn [existsb]. rewrite Hfirst. split.
      * intros H. apply contains_cons. apply orb_prop in H.
        destruct H as [H | H].
        -- left. apply percent_line_iff in H. destruct H as [q ->].
           apply prefix_iff_app. exists q. reflexivity.
        -- right. now apply Hrest.
      * intros H. apply contains_cons in H. apply orb_true_iff.
        destruct H as [H | H].
        -- left. apply prefix_iff_app in H. destruct H as [q H].
           injection H as ->. apply percent_line_iff. exists q.
           reflexivity.
        -- right. now apply Hrest.
    + rewrite Hsplit. exists (String d x), l. split; [reflexivity |].
      split; [apply percent_line_cons |]. split.
      * intros H. apply contains_cons. right. now apply Hrest.
      * intros H. apply contains_cons in H. destruct H as [H | H].
        -- apply prefix_iff_app in H. destruct H as [q H].
           injection H as Hd _. rewrite Hd, Ascii.eqb_refl in Ed.
           discriminate.
        -- now apply Hrest.
Qed.

(** An output line starts with a percent sign. *)
Lemma existsb_percent (out : string) :
  truthy out && existsb percent_line (split_char LF out) = true
  <-> startswith out "%" = true \/ contains out (String LF "%").
Proof.
  destruct (split_char_percent out) as (x & l & Hsplit & Hfirst & Hrest).
  rewrite Hsplit. cbn [existsb]. rewrite Hfirst. unfold percent_line.
  split.
  - intros H. apply andb_prop in H. destruct H as [_ H].
    apply orb_prop in H. destruct H as [H | H]; [now left |].
    right. now apply Hrest.
  - intros H. apply andb_true_intro. split.
    + destruct out; [| reflexivity]. exfalso. destruct H as [H | H].
      * discriminate.
      * revert H. apply contains_empty. discriminate.
    + apply orb_true_iff. destruct H as [H | H]; [now left |].
      right. now apply Hrest.
Qed.

End CliFacts.

(** X8: [runCommands] never raises, and its return code tells whether the
    commands went through: it is 0 exactly when the shell returned 0 and no
    line of the output starts with a percent sign, that is the output
    neither starts with one nor has one right after a line feed.  A
    non-zero return code of the shell is handed on as it is, and the
    output is returned unchanged in every case. *)
Theorem runCommands_return_code :
  forall (S : Type) (w : World) (cli : CliManager) (cmdList : list string)
         (s : S) (t : trace) (rc : Z) (out : string),
    shell_result w
      (EvLog ("Executing the commands: [" ++ PyStr.join " \n " cmdList
              ++ "]") :: t)
      (fastcli_cmd cli cmdList) = (rc, out) ->
    exists (rc' : Z) (t' : trace),
      runCommands w cli cmdList s t = (Ok (rc', out), s, t')
      /\ (rc' = 0%Z
          <-> rc = 0%Z /\ PyStr.startswith out "%" = false
              /\ ~ contains out (String PyStr.LF "%"))
      /\ (rc <> 0%Z -> rc' = rc).
Proof.
  intros S w cli cmdList s t rc out Hsh.
  unfold runCommands, try_except, bind, log, check_output, bind, history,
    emit, ret, raise.
  rewrite Hsh.
  destruct (rc =? 0)%Z eqn:Hrc.
  - apply Z.eqb_eq in Hrc. subst rc.
    fold percent_line.
    destruct (truthy out
              && existsb percent_line (PyStr.split_char PyStr.LF out))
      eqn:Hp.
    + exists 1%Z. eexists. split; [reflexivity |]. split.
      * split; [discriminate |]. intros (_ & Hs & Hc). exfalso.
        apply existsb_percent in Hp. destruct Hp as [Hp | Hp].
        -- congruence.
        -- contradiction.
      * intros H. contradiction.
    + exists 0%Z. eexists. split; [reflexivity |]. split.
      * split; [| reflexivity]. intros _. split; [reflexivity |].
        split.
        -- destruct (PyStr.startswith out "%") eqn:Hs; [| reflexivity].
           assert (H : truthy out
                       && existsb percent_line
                            (PyStr.split_char PyStr.LF out) = true)
             by (apply existsb_percent; now left).
           congruence.
        -- intros Hc.
           assert (H : truthy out
                       && existsb percent_line
                            (PyStr.split_char PyStr.LF out) = true)
             by (apply existsb_percent; now right).
           congruence.
      * intros H. contradiction.
  - apply Z.eqb_neq in Hrc.
    exists rc. eexists. split; [reflexivity |]. split.
    + split; [intros H; contradiction | intros (H & _); contradiction].
    + reflexivity.
Qed.

Lemma runCommands_return_code_witness :
  exists (rc' : Z) (t' : trace),
    runCommands (Sample.device_shell 0 ("ok" ++ Sample.nl ++ "% Invalid"))
      (mkCliManager FAST_CLI_BINARY) reboot_cmds tt []
    = (Ok (rc', "ok" ++ Sample.nl ++ "% Invalid"), tt, t')
    /\ (rc' = 0%Z
        <-> 0%Z = 0%Z
            /\ PyStr.startswith ("ok" ++ Sample.nl ++ "% Invalid") "%"
               = false
            /\ ~ contains ("ok" ++ Sample.nl ++ "% Invalid")
                   (String PyStr.LF "%"))
    /\ (0%Z <> 0%Z -> rc' = 0%Z).
Proof.
  apply (runCommands_return_code unit
           (Sample.device_shell 0 ("ok" ++ Sample.nl ++ "% Invalid"))
           (mkCliManager FAST_CLI_BINARY) reboot_cmds tt [] 0
           ("ok" ++ Sample.nl ++ "% Invalid")).
  reflexivity.
Defined.

(* ===================================================================== *)
(** ** Fetching and executing the script *)
(* ===================================================================== *)

(** Case analysis on what a hypothesis about a run branches on. *)
Ltac break_step H :=
  match type of H with
         | context [match ?x with _ => _ end] =>
             lazymatch x with
             | context [match _ with _ => _ end] => fail
             | _ => destruct x eqn:?; try discriminate H
             end
         | context [if ?x then _ else _] =>
             lazymatch x with
             | context [match _ with _ => _ end] => fail
             | _ => destruct x eqn:?; try discriminate H
             end
         end.


Lemma status_ok (r : Response) :
  ((400 <=? status_code r) && (status_code r <? 500))%Z = false ->
  ((500 <=? status_code r) && (status_code r <? 600))%Z = false ->
  (status_code r < 400 \/ 600 <= status_code r)%Z.
Proof.
  intros H1 H2.
  apply andb_false_iff in H1. apply andb_false_iff in H2.
  rewrite Z.leb_gt, Z.ltb_ge in H1, H2. lia.
Qed.

(** Reading a key neither logs nor touches the object. *)
Lemma getKeyValueFromFile_pure :
  forall (S : Type) (w : World) (filename key : string),
  exists r : result (option string),
  forall (s : S) (t : trace),
    getKeyValueFromFile w filename key s t = (r, s, t).
Proof.
  intros S w filename key. unfold getKeyValueFromFile.
  destruct (file_content w filename) as [content |].
  - destruct (negb (truthy key)).
    + unfold bind, lift, ret.
      destruct (first_word (readline content)); eexists; reflexivity.
    + eexists. reflexivity.
  - eexists. reflexivity.
Qed.

(** What a normal end of step 3.1 tells. *)
Lemma getBootstrapScript_ok_inv :
  forall (w : World) (cfg : Config) (m m' : Manager) (t t' : trace),
    getBootstrapScript w cfg m t = (Ok tt, m', t') ->
    exists (u : UrlParse.ParseResult)
           (headers : list (string * option string))
           (resp : Response) (t0 : trace),
      t' = EvLog ("Step 3.1 done, bootstrap script fetched and stored "
                  ++ "at " ++ BOOT_SCRIPT_PATH)
           :: EvWriteFile BOOT_SCRIPT_PATH (text resp)
           :: EvGet (UrlParse.geturl u) headers (certificate m, key m)
                (cvproxy cfg)
           :: t0
      /\ m' = m
      /\ (t0 = t \/ exists msg : string, t0 = EvLog msg :: t)
      /\ bootstrapURL m = Some u
      /\ get_result w t0 (UrlParse.geturl u) headers
           (certificate m, key m) = Ok resp
      /\ (status_code resp < 400 \/ 600 <= status_code resp)%Z.
Proof.
  intros w cfg m m' t t' H.
  destruct (getKeyValueFromFile_pure Manager w "/etc/swi-version"
              "SWI_VERSION") as [r1 H1].
  destruct (getKeyValueFromFile_pure Manager w "/etc/arch" EmptyString)
    as [r2 H2].
  unfold getBootstrapScript, geturl_of, requests_get,
    raise_for_status, write_file, log, bind, lift, self, history, emit, ret,
    raise in H.
  repeat first [ rewrite H1 in H | rewrite H2 in H | break_step H ].
  all: injection H as <- <-.
  all: eexists _, _, _, _.
  all: split; [reflexivity |].
  all: split; [reflexivity |].
  all: split; [first [left; reflexivity | right; eexists; reflexivity] |].
  all: split; [first [eassumption | reflexivity] |].
  all: split; [eassumption |].
  all: eauto using status_ok.
Qed.

(** X9: when step 3.1 ends normally, the script it has stored is what the
    server sent: there was one GET request, to the bootstrap URL and with
    the manager's certificate and key as the client credential; its answer
    had a status outside 400..599; the file [/tmp/bootstrap-script] was
    then written with exactly the text of that answer; and the manager is
    unchanged.  Before the request there was at most one message, about
    the TPM status. *)
Theorem getBootstrapScript_stores_response :
  forall (w : World) (cfg : Config) (m : Manager) (t : trace),
    fst (fst (getBootstrapScript w cfg m t)) = Ok tt ->
    exists (u : UrlParse.ParseResult)
           (headers : list (string * option string))
           (resp : Response) (t0 : trace),
      snd (getBootstrapScript w cfg m t)
      = EvLog ("Step 3.1 done, bootstrap script fetched and stored "
               ++ "at " ++ BOOT_SCRIPT_PATH)
        :: EvWriteFile BOOT_SCRIPT_PATH (text resp)
        :: EvGet (UrlParse.geturl u) headers (certificate m, key m)
             (cvproxy cfg)
        :: t0
      /\ snd (fst (getBootstrapScript w cfg m t)) = m
      /\ (t0 = t \/ exists msg : string, t0 = EvLog msg :: t)
      /\ bootstrapURL m = Some u
      /\ get_result w t0 (UrlParse.geturl u) headers
           (certificate m, key m) = Ok resp
      /\ (status_code resp < 400 \/ 600 <= status_code resp)%Z.
Proof.
  intros w cfg m t H.
  destruct (getBootstrapScript w cfg m t) as [[r m'] t'] eqn:Hrun.
  cbn [fst snd] in *. subst r.
  exact (getBootstrapScript_ok_inv w cfg m m' t t' Hrun).
Qed.

Lemma getBootstrapScript_stores_response_witness :
  exists (u : UrlParse.ParseResult)
         (headers : list (string * option string))
         (resp : Response) (t0 : trace),
    snd (getBootstrapScript (Sample.device 0) Sample.onprem_config
           Sample.onprem_manager [])
    = EvLog ("Step 3.1 done, bootstrap script fetched and stored "
             ++ "at " ++ BOOT_SCRIPT_PATH)
      :: EvWriteFile BOOT_SCRIPT_PATH (text resp)
      :: EvGet (UrlParse.geturl u) headers
           (certificate Sample.onprem_manager, key Sample.onprem_manager)
           (cvproxy Sample.onprem_config)
      :: t0
    /\ snd (fst (getBootstrapScript (Sample.device 0) Sample.onprem_config
                   Sample.onprem_manager []))
       = Sample.onprem_manager
    /\ (t0 = [] \/ exists msg : string, t0 = [EvLog msg])
    /\ bootstrapURL Sample.onprem_manager = Some u
    /\ get_result (Sample.device 0) t0 (UrlParse.geturl u) headers
         (certificate Sample.onprem_manager, key Sample.onprem_manager)
       = Ok resp
    /\ (status_code resp < 400 \/ 600 <= status_code resp)%Z.
Proof.
  apply (getBootstrapScript_stores_response (Sample.device 0)
           Sample.onprem_config Sample.onprem_manager []).
  reflexivity.
Defined.



(** X11: the TPM status is read twice, and the first read, made before
    the headers are built, is outside the [try] block.  So when the status
    entity cannot be read, step 3.1 ends with that error at once: no
    message, no request, and the [try] block around the second read does
    not get to report it. *)
Theorem getBootstrapScript_tpm_read_unguarded :
  forall (w : World) (cfg : Config) (m : Manager) (t : trace)
         (mib : entity) (e : exn),
    getEntity_result w "hardware/entmib" = Ok mib ->
    getEntity_result w
      ("cell/" ++ PyStr.of_Z (cellId w) ++ "/hardware/tpm/status")
    = Raise e ->
    getBootstrapScript w cfg m t = (Raise e, m, t).
Proof.
  intros w cfg m t mib e Hmib Htpm.
  unfold getBootstrapScript, bind, self, lift.
  rewrite Hmib, Htpm. reflexivity.
Qed.

Lemma getBootstrapScript_tpm_read_unguarded_witness :
  getBootstrapScript
    (with_sysdb (Sample.device 0)
       (fun p => if String.eqb p "hardware/entmib" then Ok Sample.entmib
                 else Raise (KeyError p)))
    Sample.onprem_config Sample.onprem_manager []
  = (Raise (KeyError "cell/1/hardware/tpm/status"), Sample.onprem_manager,
     []).
Proof.
  apply (getBootstrapScript_tpm_read_unguarded
           (with_sysdb (Sample.device 0)
              (fun p => if String.eqb p "hardware/entmib"
                        then Ok Sample.entmib else Raise (KeyError p)))
           Sample.onprem_config Sample.onprem_manager [] Sample.entmib
           (KeyError "cell/1/hardware/tpm/status")).
  - reflexivity.
  - reflexivity.
Defined.

Lemma executeBootstrap_emits_exec :
  forall (w : World) (cfg : Config),
    emits exec_event (executeBootstrap w cfg).
Proof.
  intros w cfg.
  unfold executeBootstrap, handleSigterm, check_output, log.
  emits_auto.
Qed.

Lemma step_event_no_popen (n new t : trace) :
  (n ++ t)%list = (new ++ t)%list ->
  forallb step_event n = true ->
  existsb is_popen new = true -> False.
Proof.
  intros Heq Hn Hnew. apply List.app_inv_tail in Heq. subst new.
  induction n as [| e n IH]; [discriminate |].
  cbn [forallb] in Hn. apply andb_prop in Hn. destruct Hn as [He Hn].
  cbn [existsb] in Hnew. apply orb_prop in Hnew.
  destruct Hnew as [Hp | Hp]; [| now apply IH].
  destruct e; discriminate.
Qed.

(** X12: what [run] executes is what it has fetched.  If a run starts the
    script at all, then before that, in the same run, a GET request was
    answered and the text of the answer was written to
    [/tmp/bootstrap-script]; and between that write and the end of the
    run there are only events of step 3.2 (messages, [chmod], the
    environment, the start of the script), so no later write and no later
    request. *)
Theorem run_executes_what_it_fetched :
  forall (w : World) (cfg : Config) (m : Manager) (t new : trace),
    snd (run w cfg m t) = (new ++ t)%list ->
    existsb is_popen new = true ->
    exists (after : trace) (resp : Response) (target : string)
           (headers : list (string * option string))
           (cert : string * string) (before : trace),
      (new ++ t)%list
      = (after
         ++ EvWriteFile BOOT_SCRIPT_PATH (text resp)
            :: EvGet target headers cert (cvproxy cfg) :: before)%list
      /\ get_result w before target headers cert = Ok resp
      /\ forallb exec_event after = true.
Proof.
  intros w cfg m t new Hrun Hpopen.
  unfold run, bind in Hrun.
  destruct (getClientCerficates_emits w cfg m t) as (n1 & Hn1 & HP1).
  destruct (getClientCerficates w cfg m t) as [[r1 m1] t1].
  cbn [snd] in Hn1. subst t1.
  destruct r1 as [[] | e1];
    [| exfalso; exact (step_event_no_popen _ _ _ Hrun HP1 Hpopen)].
  destruct (getCertificatePaths_emits w m1 (n1 ++ t)%list)
    as (n2 & Hn2 & HP2).
  destruct (getCertificatePaths w m1 (n1 ++ t)%list) as [[r2 m2] t2].
  cbn [snd] in Hn2. subst t2.
  assert (HP12 : forallb step_event (n2 ++ n1) = true)
    by (rewrite forallb_app, HP1, HP2; reflexivity).
  rewrite List.app_assoc in *.
  destruct r2 as [[] | e2];
    [| exfalso; exact (step_event_no_popen _ _ _ Hrun HP12 Hpopen)].
  destruct (getBootstrapScript_emits w cfg m2 ((n2 ++ n1) ++ t)%list)
    as (n3 & Hn3 & HP3).
  destruct (getBootstrapScript w cfg m2 ((n2 ++ n1) ++ t)%list)
    as [[r3 m3] t3] eqn:H3.
  cbn [snd] in Hn3.
  assert (HP123 : forallb step_event (n3 ++ n2 ++ n1) = true)
    by (rewrite forallb_app, HP3, HP12; reflexivity).
  destruct r3 as [[] | e3].
  - destruct (getBootstrapScript_ok_inv _ _ _ _ _ _ H3)
      as (u & headers & resp & t0 & Ht3 & _ & _ & _ & Hget & _).
    destruct (executeBootstrap_emits_exec w cfg m3 t3) as (n4 & Hn4 & HP4).
    rewrite Hrun in Hn4. rewrite Hn4, Ht3.
    exists (n4 ++ [EvLog ("Step 3.1 done, bootstrap script fetched and "
                         ++ "stored at " ++ BOOT_SCRIPT_PATH)])%list,
      resp, (UrlParse.geturl u), headers, (certificate m2, key m2), t0.
    split; [| split].
    + rewrite <- List.app_assoc. reflexivity.
    + exact Hget.
    + rewrite forallb_app, HP4. reflexivity.
  - exfalso. cbn [snd] in Hrun. rewrite Hn3, List.app_assoc in Hrun.
    exact (step_event_no_popen _ _ _ Hrun HP123 Hpopen).
Qed.

Lemma run_executes_what_it_fetched_witness :
  exists (after : trace) (resp : Response) (target : string)
         (headers : list (string * option string))
         (cert : string * string) (before : trace),
    (snd (run (Sample.device 0) Sample.onprem_config
            Sample.onprem_manager []) ++ [])%list
    = (after
       ++ EvWriteFile BOOT_SCRIPT_PATH (text resp)
          :: EvGet target headers cert (cvproxy Sample.onprem_config)
          :: before)%list
    /\ get_result (Sample.device 0) before target headers cert = Ok resp
    /\ forallb exec_event after = true.
Proof.
  apply (run_executes_what_it_fetched (Sample.device 0)
           Sample.onprem_config Sample.onprem_manager []
           (snd (run (Sample.device 0) Sample.onprem_config
                   Sample.onprem_manager []))).
  - vm_compute. reflexivity.
  - vm_compute. reflexivity.
Defined.

(** X13: the fetched script is not started when it cannot be made
    executable: a non-zero return code of [chmod] is logged with the
    command's output and raised again as the command's own error, and
    step 3.2 ends there, before the environment is set and before the
    script is started. *)
Theorem executeBootstrap_chmod_failure :
  forall (w : World) (cfg : Config) (m : Manager) (t : trace)
         (rc : Z) (out : string),
    shell_result w t chmod_cmd = (rc, out) ->
    rc <> 0%Z ->
    executeBootstrap w cfg m t
    = (Raise (CalledProcessError rc chmod_cmd out), m,
       EvLog out :: EvShell chmod_cmd :: t).
Proof.
  intros w cfg m t rc out Hsh Hrc.
  unfold executeBootstrap, try_except, check_output, log, bind, history,
    emit, ret, raise.
  rewrite Hsh. apply Z.eqb_neq in Hrc. rewrite Hrc. reflexivity.
Qed.

Lemma executeBootstrap_chmod_failure_witness :
  executeBootstrap (Sample.device_shell 1 "chmod: no such file")
    Sample.onprem_config Sample.onprem_manager []
  = (Raise (CalledProcessError 1 chmod_cmd "chmod: no such file"),
     Sample.onprem_manager,
     [EvLog "chmod: no such file"; EvShell chmod_cmd]).
Proof.
  apply (executeBootstrap_chmod_failure
           (Sample.device_shell 1 "chmod: no such file")
           Sample.onprem_config Sample.onprem_manager [] 1
           "chmod: no such file").
  - reflexivity.
  - discriminate.
Defined.

(** X14: SIGTERM while the fetched script runs: the script is terminated
    and step 3.2 ends with [sys.exit(127 + 15)], so the process exits with
    status 142, whatever the script would have returned; the message that
    the step is done is not logged. *)
Theorem executeBootstrap_sigterm :
  forall (w : World) (cfg : Config) (m : Manager) (t : trace)
         (out : string),
    shell_result w t chmod_cmd = (0%Z, out) ->
    child_result w
      (EvSetenv "CVPROXY" (cvproxy cfg) :: EvLog STEP321_DONE
       :: EvShell chmod_cmd :: t) BOOT_SCRIPT_PATH = Sigterm ->
    executeBootstrap w cfg m t
    = (Raise (SystemExit (ExitCode 142)), m,
       EvTerminate :: EvPopen BOOT_SCRIPT_PATH
       :: EvSetenv "CVPROXY" (cvproxy cfg) :: EvLog STEP321_DONE
       :: EvShell chmod_cmd :: t)
    /\ exit_status (fst (fst (executeBootstrap w cfg m t))) = 142%Z.
Proof.
  intros w cfg m t out Hsh Hchild.
  assert (H : executeBootstrap w cfg m t
              = (Raise (SystemExit (ExitCode 142)), m,
                 EvTerminate :: EvPopen BOOT_SCRIPT_PATH
                 :: EvSetenv "CVPROXY" (cvproxy cfg) :: EvLog STEP321_DONE
                 :: EvShell chmod_cmd :: t)).
  { unfold executeBootstrap, handleSigterm, try_except, check_output, log,
      bind, history, emit, ret, raise.
    rewrite Hsh. cbn -[chmod_cmd BOOT_SCRIPT_PATH].
    fold STEP321_DONE. rewrite Hchild. reflexivity. }
  rewrite H. split; reflexivity.
Qed.

Lemma executeBootstrap_sigterm_witness :
  executeBootstrap Sample.device_sigterm Sample.onprem_config
    Sample.onprem_manager []
  = (Raise (SystemExit (ExitCode 142)), Sample.onprem_manager,
     [EvTerminate; EvPopen BOOT_SCRIPT_PATH;
      EvSetenv "CVPROXY" (cvproxy Sample.onprem_config);
      EvLog STEP321_DONE; EvShell chmod_cmd])
  /\ exit_status
       (fst (fst (executeBootstrap Sample.device_sigterm
                    Sample.onprem_config Sample.onprem_manager [])))
     = 142%Z.
Proof.
  apply (executeBootstrap_sigterm Sample.device_sigterm
           Sample.onprem_config Sample.onprem_manager [] EmptyString).
  - reflexivity.
  - reflexivity.
Defined.

(* ===================================================================== *)
(** ** Step 0 and the cloud deployment *)
(* ===================================================================== *)



(** X16: a request to the redirector that fails is reported as a plain
    [Exception].  When the POST is made and raises an error, or is
    answered with a status in 400..599, [checkWithRedirector] logs the message "No
    assignment found. Error talking to redirector: " followed by the text
    of the error and raises [Exception] with that message: the kind of the
    error is not kept, and the body of the answer is not read. *)
Theorem checkWithRedirector_wraps_request_errors :
  forall (w : World) (cfg : Config) (m : Manager) (t : trace)
         (redirector : UrlParse.ParseResult) (serialNum : string)
         (e0 : exn),
    redirectorURL m = Some redirector ->
    getattr (mibStatus m) "root.serialNum" = Ok serialNum ->
    (forall code : exit_arg, e0 <> SystemExit code) ->
    (forall name : string, e0 <> NameError name) ->
    post_result w t (UrlParse.geturl redirector)
      (redirector_payload serialNum)
      [("redirector_token", enrollmentToken cfg)] = Raise e0
    \/ (exists response : Response,
          post_result w t (UrlParse.geturl redirector)
            (redirector_payload serialNum)
            [("redirector_token", enrollmentToken cfg)] = Ok response
          /\ raise_for_status response m
               (EvPost (UrlParse.geturl redirector)
                  (redirector_payload serialNum)
                  [("redirector_token", enrollmentToken cfg)]
                  (cvproxy cfg) :: t)
             = (Raise e0, m,
                EvPost (UrlParse.geturl redirector)
                  (redirector_payload serialNum)
                  [("redirector_token", enrollmentToken cfg)]
                  (cvproxy cfg) :: t)) ->
    let err := "No assignment found. Error talking to redirector: "
               ++ exn_str e0 in
    checkWithRedirector w cfg m t
    = (Raise (Exception err), m,
       EvLog err
       :: EvPost (UrlParse.geturl redirector) (redirector_payload serialNum)
            [("redirector_token", enrollmentToken cfg)] (cvproxy cfg)
       :: t).
Proof.
  intros w cfg m t redirector serialNum e0 Hred Hser Hexit Hname Hpost err.
  unfold checkWithRedirector, try_except, requests_post.
  unfold bind at 1. unfold self at 1. rewrite Hred.
  unfold bind at 1. unfold bind at 1. unfold lift at 1. rewrite Hser.
  unfold bind at 1. unfold bind at 1. unfold history at 1.
  destruct Hpost as [-> | (response & -> & Hstatus)].
  - destruct e0 as [| | | | | | | | | | | | name | | code];
      try reflexivity.
    + exfalso. now apply (Hname name).
    + exfalso. now apply (Hexit code).
  - unfold bind at 1. unfold emit at 1. unfold lift at 1.
    unfold bind at 1. rewrite Hstatus.
    destruct e0 as [| | | | | | | | | | | | name | | code];
      try reflexivity.
    exfalso. now apply (Hexit code).
Qed.

Lemma checkWithRedirector_wraps_request_errors_witness :
  let err := "No assignment found. Error talking to redirector: "
             ++ "connection refused" in
  checkWithRedirector
    (with_post (Sample.device 0)
       (Raise (RequestException "connection refused")))
    Sample.cloud_config Sample.cloud_manager []
  = (Raise (Exception err), Sample.cloud_manager,
     [EvLog err;
      EvPost ("https://www.arista.io/" ++ REDIRECTOR_PATH)
        (redirector_payload "JPE12345678")
        [("redirector_token", "abc.def.ghi")] EmptyString]).
Proof.
  apply (checkWithRedirector_wraps_request_errors
           (with_post (Sample.device 0)
              (Raise (RequestException "connection refused")))
           Sample.cloud_config Sample.cloud_manager []
           (UrlParse.mkParseResult "https" "www.arista.io" REDIRECTOR_PATH
              EmptyString EmptyString EmptyString)
           "JPE12345678" (RequestException "connection refused")).
  - reflexivity.
  - reflexivity.
  - discriminate.
  - discriminate.
  - left. reflexivity.
Defined.

(** Without an enrollment address the lookup of step 2 cannot succeed. *)
Lemma getCertificatePaths_no_address :
  forall (w : World) (m m' : Manager) (t t' : trace) (r : result unit),
    enrollAddr m = None ->
    getCertificatePaths w m t = (r, m', t') ->
    (r = Ok tt /\ m' = with_fallback m
     /\ exists (rc : Z) (out : string),
          shell_result w t (certsconfig_cmd m) = (rc, out) /\ rc <> 0%Z)
    \/ (exists e : exn, r = Raise e /\ m' = m).
Proof.
  intros w m m' t t' r Haddr Hrun.
  unfold getCertificatePaths, try_except, check_output, json_loads, log,
    print, bind, lift, self, update, history, emit, ret, raise in Hrun.
  rewrite Haddr in Hrun.
  destruct (shell_result w t (certsconfig_cmd m)) as [rc out] eqn:Hsh.
  destruct (rc =? 0)%Z eqn:Hrc.
  - right. destruct (Json.loads out) as [j |].
    + destruct j; cbn in Hrun; injection Hrun as <- <- <-;
        eexists; split; reflexivity.
    + injection Hrun as <- <- <-. eexists; split; reflexivity.
  - left. injection Hrun as <- <- <-.
    split; [reflexivity |]. split; [reflexivity |].
    exists rc, out. split; [reflexivity |]. now apply Z.eqb_neq.
Qed.

(** X17: without an enrollment address, step 2 never takes the paths from
    the agent.  For a manager whose [enrollAddr] is [None],
    [getCertificatePaths] either ends normally with the fallback pair,
    which happens exactly when the command failed, or ends with an
    exception and leaves the manager as it was: an answer of the agent, be
    it well-formed, is looked up under the key [None], which no JSON
    object has. *)
Theorem getCertificatePaths_without_address :
  forall (w : World) (m : Manager) (t : trace),
    enrollAddr m = None ->
    (fst (fst (getCertificatePaths w m t)) = Ok tt
     /\ snd (fst (getCertificatePaths w m t)) = with_fallback m
     /\ fst (shell_result w t (certsconfig_cmd m)) <> 0%Z)
    \/ (exists e : exn,
          fst (fst (getCertificatePaths w m t)) = Raise e
          /\ snd (fst (getCertificatePaths w m t)) = m
          /\ fst (shell_result w t (certsconfig_cmd m)) = 0%Z).
Proof.
  intros w m t Haddr.
  destruct (getCertificatePaths w m t) as [[r m'] t'] eqn:Hrun.
  destruct (getCertificatePaths_no_address w m m' t t' r Haddr Hrun)
    as [(-> & -> & rc & out & Hsh & Hrc) | (e & -> & ->)].
  - left. rewrite Hsh. repeat split. exact Hrc.
  - right. exists e. repeat split.
    unfold getCertificatePaths, try_except, check_output, json_loads, log,
      print, bind, lift, self, update, history, emit, ret, raise in Hrun.
    destruct (shell_result w t (certsconfig_cmd m)) as [rc out].
    cbn [fst]. destruct (rc =? 0)%Z eqn:Hrc; [now apply Z.eqb_eq |].
    discriminate Hrun.
Qed.

Lemma getCertificatePaths_without_address_witness :
  (fst (fst (getCertificatePaths (Sample.device 0) Sample.cloud_manager []))
   = Ok tt
   /\ snd (fst (getCertificatePaths (Sample.device 0) Sample.cloud_manager
                  []))
      = with_fallback Sample.cloud_manager
   /\ fst (shell_result (Sample.device 0) []
             (certsconfig_cmd Sample.cloud_manager)) <> 0%Z)
  \/ (exists e : exn,
        fst (fst (getCertificatePaths (Sample.device 0)
                    Sample.cloud_manager [])) = Raise e
        /\ snd (fst (getCertificatePaths (Sample.device 0)
                       Sample.cloud_manager [])) = Sample.cloud_manager
        /\ fst (shell_result (Sample.device 0) []
                  (certsconfig_cmd Sample.cloud_manager)) = 0%Z).
Proof.
  apply (getCertificatePaths_without_address (Sample.device 0)
           Sample.cloud_manager []).
  reflexivity.
Defined.

(** *** The cloud deployment as [run] leaves it *)

Lemma getClientCerficates_emits_local :
  forall (w : World) (cfg : Config),
    emits local_event (getClientCerficates w cfg).
Proof.
  intros w cfg.
  assert (Hup : forall e : exn,
             emits local_event (@tryImageUpgrade w cfg Manager e)).
  { intros e. apply (emits_weaken cli_event); [| apply tryImageUpgrade_emits].
    intros ev. destruct ev; cbn; auto. }
  unfold getClientCerficates, write_file, check_output, log.
  emits_auto.
Qed.

Lemma getCertificatePaths_emits_local :
  forall w : World, emits local_event (getCertificatePaths w).
Proof.
  intros w.
  unfold getCertificatePaths, check_output, json_loads, log, print.
  emits_auto.
Qed.

Lemma get_cert_is_of_forallb (P : event -> bool) (cert : string * string)
  (l : trace) :
  (forall e, P e = true -> get_cert_is cert e) ->
  forallb P l = true -> Forall (get_cert_is cert) l.
Proof.
  intros HP Hl. apply Forall_forall. intros e Hin.
  apply HP. revert Hin. now apply forallb_forall.
Qed.

Lemma local_event_no_get (cert : string * string) (e : event) :
  local_event e = true -> get_cert_is cert e.
Proof. destruct e; cbn; auto; discriminate. Qed.

Lemma exec_event_no_get (cert : string * string) (e : event) :
  exec_event e = true -> get_cert_is cert e.
Proof. destruct e; cbn; auto; discriminate. Qed.

(** The request of step 3.1 presents the manager's certificate and key. *)
Lemma getBootstrapScript_get_cert :
  forall (w : World) (cfg : Config) (m : Manager) (t : trace),
  exists new : trace,
    snd (getBootstrapScript w cfg m t) = (new ++ t)%list
    /\ Forall (get_cert_is (certificate m, key m)) new.
Proof.
  intros w cfg m t.
  destruct (getBootstrapScript w cfg m t) as [[r m'] t'] eqn:Hrun.
  cbn [snd].
  destruct (getKeyValueFromFile_pure Manager w "/etc/swi-version"
              "SWI_VERSION") as [r1 H1].
  destruct (getKeyValueFromFile_pure Manager w "/etc/arch" EmptyString)
    as [r2 H2].
  unfold getBootstrapScript, geturl_of, requests_get,
    raise_for_status, write_file, log, bind, lift, self, history, emit, ret,
    raise in Hrun.
  repeat first [ rewrite H1 in Hrun | rewrite H2 in Hrun
               | break_step Hrun ].
  all: injection Hrun as <- <- <-.
  all: first [ exists []; split; [reflexivity |]
             | eexists [_]; split; [reflexivity |]
             | eexists [_; _]; split; [reflexivity |]
             | eexists [_; _; _]; split; [reflexivity |]
             | eexists [_; _; _; _]; split; [reflexivity |] ].
  all: repeat constructor.
Qed.

(** X18: the cloud deployment, as the script constructs and runs it.  The
    manager is constructed with no enrollment address, and [run], which
    does not consult the redirector, never assigns one; so, however the
    run goes, the enrollment address is still [None] at its end, and every
    GET request of the run presents the fallback certificate and key:
    the paths the agent reports are never used. *)
Theorem cloud_run_presents_fallback_pair :
  forall (w : World) (cfg : Config) (bm : Manager) (t0 t1 t new : trace),
    CloudBootstrapManager_init w cfg tt t0 = (Ok bm, tt, t1) ->
    snd (run w cfg bm t) = (new ++ t)%list ->
    enrollAddr (snd (fst (run w cfg bm t))) = None
    /\ Forall (get_cert_is (FALLBACK_CERTIFICATE, FALLBACK_KEY)) new.
Proof.
  intros w cfg bm t0 t1 t new Hinit Hrun.
  destruct (CloudBootstrapManager_init_fields _ _ _ _ _ Hinit)
    as (_ & _ & _ & _ & _ & _ & Haddr).
  split.
  { destruct (run_keeps_but_credential w cfg bm t)
      as (_ & _ & _ & _ & H & _). now rewrite H. }
  set (cert := (FALLBACK_CERTIFICATE, FALLBACK_KEY)).
  unfold run, bind in Hrun.
  destruct (getClientCerficates_emits_local w cfg bm t)
    as (n1 & Hn1 & HP1).
  pose proof (getClientCerficates_keeps w cfg bm t) as Hm1.
  destruct (getClientCerficates w cfg bm t) as [[r1 m1] t1'].
  cbn [fst snd] in Hn1, Hm1. subst t1' m1.
  apply (get_cert_is_of_forallb _ cert _ (local_event_no_get cert)) in HP1.
  destruct r1 as [[] | e1];
    [| cbn [snd] in Hrun; apply List.app_inv_tail in Hrun; now subst new].
  destruct (getCertificatePaths_emits_local w bm (n1 ++ t)%list)
    as (n2 & Hn2 & HP2).
  destruct (getCertificatePaths w bm (n1 ++ t)%list)
    as [[r2 m2] t2] eqn:H2.
  cbn [snd] in Hn2. subst t2.
  apply (get_cert_is_of_forallb _ cert _ (local_event_no_get cert)) in HP2.
  assert (HP12 : Forall (get_cert_is cert) (n2 ++ n1))
    by (apply Forall_app; now split).
  rewrite List.app_assoc in Hrun.
  destruct (getCertificatePaths_no_address _ _ _ _ _ _ Haddr H2)
    as [(-> & -> & _) | (e2 & -> & _)];
    [| cbn [snd] in Hrun; apply List.app_inv_tail in Hrun; now subst new].
  destruct (getBootstrapScript_get_cert w cfg (with_fallback bm)
              ((n2 ++ n1) ++ t)%list) as (n3 & Hn3 & HP3).
  change (certificate (with_fallback bm), key (with_fallback bm))
    with cert in HP3.
  assert (HP123 : Forall (get_cert_is cert) (n3 ++ n2 ++ n1))
    by (apply Forall_app; now split).
  destruct (getBootstrapScript w cfg (with_fallback bm)
              ((n2 ++ n1) ++ t)%list) as [[r3 m3] t3].
  cbn [snd] in Hn3. subst t3. rewrite List.app_assoc in Hrun.
  destruct r3 as [[] | e3];
    [| cbn [snd] in Hrun; apply List.app_inv_tail in Hrun; now subst new].
  destruct (executeBootstrap_emits_exec w cfg m3
              ((n3 ++ n2 ++ n1) ++ t)%list) as (n4 & Hn4 & HP4).
  apply (get_cert_is_of_forallb _ cert _ (exec_event_no_get cert)) in HP4.
  rewrite Hrun, List.app_assoc in Hn4.
  apply List.app_inv_tail in Hn4. subst new.
  apply Forall_app. now split.
Qed.

Lemma cloud_run_presents_fallback_pair_witness :
  enrollAddr
    (snd (fst (run (Sample.device_shell 1 "no address") Sample.cloud_config
                 Sample.cloud_manager [])))
  = None
  /\ Forall (get_cert_is (FALLBACK_CERTIFICATE, FALLBACK_KEY))
       (snd (run (Sample.device_shell 1 "no address") Sample.cloud_config
               Sample.cloud_manager [])).
Proof.
  apply (cloud_run_presents_fallback_pair
           (Sample.device_shell 1 "no address") Sample.cloud_config
           Sample.cloud_manager [] [] []
           (snd (run (Sample.device_shell 1 "no address")
                   Sample.cloud_config Sample.cloud_manager []))).
  - reflexivity.
  - vm_compute. reflexivity.
Defined.

(* ===================================================================== *)
(** ** Addresses that do not parse *)
(* ===================================================================== *)

Section BadAddress.
Import PyStr UrlParse.

Lemma brackets_check_unpaired (h : string) :
  brackets_paired h = false ->
  (has_char "[" h && negb (has_char "]" h))
  || (has_char "]" h && negb (has_char "[" h)) = true.
Proof.
  unfold brackets_paired.
  destruct (has_char "[" h), (has_char "]" h); cbn;
    intros H; try discriminate; reflexivity.
Qed.

Lemma urlparse_unpaired_bracket (h : string) :
  no_delims h = true ->
  brackets_paired h = false ->
  urlparse ("//" ++ h) = None.
Proof.
  intros Hd Hb. unfold urlparse.
  rewrite urlsplit_slashes. unfold split_after_scheme.
  rewrite (startswith_app "//" h).
  change (drop 2 ("//" ++ h)) with h.
  rewrite <- (app_empty_r h) at 1.
  rewrite (splitnetloc_host h EmptyString Hd eq_refl).
  rewrite (brackets_check_unpaired h Hb). reflexivity.
Qed.

End BadAddress.

(** X21: an address with one square bracket and not the other does not
    parse.  For an address without a slash, question mark or hash sign
    that holds an opening square bracket without a closing one, or a
    closing one without an opening one, [getBootstrapURL] raises
    [ValueError], in both variants; so the constructor of the manager
    fails with it, before any step of the workflow. *)
Theorem getBootstrapURL_unpaired_bracket :
  forall (c : ManagerClass) (a : string),
    no_delims a = true ->
    brackets_paired a = false ->
    getBootstrapURL c a = Raise (ValueError "Invalid IPv6 URL")
    /\ forall (w : World) (cfg : Config) (t : trace),
         cvAddr cfg = a ->
         exists e : exn,
           construct_manager w cfg tt t = (Raise e, tt, t).
Proof.
  intros c a Hd Hb.
  assert (Hurl : forall c' : ManagerClass,
             getBootstrapURL c' a = Raise (ValueError "Invalid IPv6 URL")).
  { intros c'. unfold getBootstrapURL.
    rewrite (bare_host_not_prefixed a Hd). cbn [negb].
    destruct (isinstance_Cloud c').
    - assert (Hr : PyStr.replace ("//" ++ a) "apiserver" "www"
                   = "//" ++ PyStr.replace a "apiserver" "www").
      { change ("//" ++ a) with (String "/" (String "/" a)).
        rewrite !replace_cons by discriminate. reflexivity. }
      rewrite Hr.
      apply no_delims_has_char in Hd. destruct Hd as (H1 & H2 & H3).
      rewrite urlparse_unpaired_bracket; [reflexivity | |].
      + unfold no_delims.
        rewrite !(has_char_replace "apiserver" "www") by
          (try discriminate; reflexivity).
        now rewrite H1, H2, H3.
      + unfold brackets_paired in *.
        rewrite !(has_char_replace "apiserver" "www") by
          (try discriminate; reflexivity).
        exact Hb.
    - now rewrite (urlparse_unpaired_bracket a Hd Hb). }
  split; [apply Hurl |].
  intros w cfg t Ha. unfold construct_manager.
  destruct (PyStr.find "arista.io" (cvAddr cfg)).
  - unfold CloudBootstrapManager_init, BootstrapManager_init, bind, lift,
      ret.
    destruct (getEntity_result w "hardware/entmib");
      [rewrite Ha, Hurl |]; eexists; reflexivity.
  - unfold OnPremBootstrapManager_init, BootstrapManager_init, bind, lift,
      ret.
    destruct (getEntity_result w "hardware/entmib");
      [rewrite Ha, Hurl |]; eexists; reflexivity.
Qed.

Lemma getBootstrapURL_unpaired_bracket_witness :
  getBootstrapURL OnPremBootstrapManager "[fe80::1"
  = Raise (ValueError "Invalid IPv6 URL").
Proof.
  apply (getBootstrapURL_unpaired_bracket OnPremBootstrapManager "[fe80::1").
  - reflexivity.
  - reflexivity.
Defined.
